(** * JWM event handling: a shallow embedding of [src/event.c]

    The handlers of [event.c] are embedded as computations in a state monad
    over a [World]: the client registry, the queue of events pending on the
    display connection, the process globals the file reads and writes, the
    function-local statics, and a log of every call that leaves the file
    (display requests and calls into the other modules of the window
    manager).  Integers are [Z]; conversions between C types of different
    width are written out; [int] arithmetic is exact (signed overflow is
    undefined in C and is not modelled). *)

From stdpp Require Import base numbers option list strings gmap.
Local Open Scope Z_scope.

(** ** Machine integers and flag words *)

(** Conversion of a wider integer to [int] (two's complement, 32 bits). *)
Definition wrap_int (z : Z) : Z := (z + 2 ^ 31) `mod` 2 ^ 32 - 2 ^ 31.

(** Arithmetic on [unsigned long] (the type of an X11 [Time]), 64 bits. *)
Definition wrap_ulong (z : Z) : Z := z `mod` 2 ^ 64.

(** [abs] of <stdlib.h>; its argument is an [int]. *)
Definition c_abs (z : Z) : Z := Z.abs z.

(** [word & mask] used as a condition. *)
Definition flag_test (word mask : Z) : bool := negb (Z.land word mask =? 0).

(** [word |= mask]. *)
Definition flag_set (word mask : Z) : Z := Z.lor word mask.

(** [word &= ~mask]. *)
Definition flag_clear (word mask : Z) : Z := Z.land word (Z.lnot mask).

(** ** Constants of the X11 headers (X.h, Xutil.h, Xatom.h) *)

Definition CWX : Z := Z.shiftl 1 0.
Definition CWY : Z := Z.shiftl 1 1.
Definition CWWidth : Z := Z.shiftl 1 2.
Definition CWHeight : Z := Z.shiftl 1 3.
Definition Above : Z := 0.
Definition Mod1Mask : Z := Z.shiftl 1 3.
Definition Button1 : Z := 1.
Definition Button2 : Z := 2.
Definition Button3 : Z := 3.
Definition Button4 : Z := 4.
Definition Button5 : Z := 5.
Definition WithdrawnState : Z := 0.
Definition NormalState : Z := 1.
Definition IconicState : Z := 3.
Definition XA_WM_HINTS : Z := 35.
Definition XA_WM_CLIENT_MACHINE : Z := 36.
Definition XA_WM_ICON_NAME : Z := 37.
Definition XA_WM_NAME : Z := 39.
Definition XA_WM_NORMAL_HINTS : Z := 40.

(** ** Constants of the window manager's own headers

    [event.c] includes them; the headers themselves are not part of the
    sources at hand. *)

(** Modelled from the spec: the status flags of a client ("mapped, shaded,
    sticky, maximized, minimized, ..."), declared in client.h, which is
    missing.  Each flag is one bit of [state.status]; the handlers only
    test, set and clear them, so any assignment of distinct bits behaves
    alike. *)
Definition STAT_ACTIVE : Z := Z.shiftl 1 0.
Definition STAT_MAPPED : Z := Z.shiftl 1 1.
Definition STAT_MAXIMIZED : Z := Z.shiftl 1 2.
Definition STAT_STICKY : Z := Z.shiftl 1 4.
Definition STAT_NOLIST : Z := Z.shiftl 1 5.
Definition STAT_MINIMIZED : Z := Z.shiftl 1 6.
Definition STAT_SHADED : Z := Z.shiftl 1 7.
Definition STAT_WMDIALOG : Z := Z.shiftl 1 9.
Definition STAT_SDESKTOP : Z := Z.shiftl 1 12.

(** Modelled from the spec: the border style flags of client.h (missing). *)
Definition BORDER_OUTLINE : Z := Z.shiftl 1 0.
Definition BORDER_TITLE : Z := Z.shiftl 1 1.

(** Modelled from the spec: the border actions "{none, resize-N/S/E/W/corner,
    move, menu, close, maximize, minimize}" of border.h (missing).  The low
    four bits name the action, the bits above them the resize direction. *)
Definition BA_NONE : Z := 0.
Definition BA_RESIZE : Z := 1.
Definition BA_MOVE : Z := 2.
Definition BA_CLOSE : Z := 3.
Definition BA_MAXIMIZE : Z := 4.
Definition BA_MINIMIZE : Z := 5.
Definition BA_MENU : Z := 6.

(** Modelled from the spec: the bits of the legacy state protocol, declared
    in hint.h (missing). *)
Definition WIN_STATE_STICKY : Z := Z.shiftl 1 0.
Definition WIN_STATE_HIDDEN : Z := Z.shiftl 1 4.

(** Modelled from the spec: the key actions of key.h (missing): "focus
    cycling, close, shade-toggle, interactive keyboard move/resize,
    minimize/maximize toggle, menu invocation, desktop switching, restart,
    exit". *)
Definition KEY_NEXT : Z := 7.
Definition KEY_NEXT_STACKED : Z := 8.
Definition KEY_CLOSE : Z := 9.
Definition KEY_MIN : Z := 10.
Definition KEY_MAX : Z := 11.
Definition KEY_SHADE : Z := 12.
Definition KEY_MOVE : Z := 13.
Definition KEY_RESIZE : Z := 14.
Definition KEY_ROOT : Z := 15.
Definition KEY_WIN : Z := 16.
Definition KEY_DESKTOP : Z := 17.
Definition KEY_EXEC : Z := 18.
Definition KEY_RESTART : Z := 19.
Definition KEY_EXIT : Z := 20.

Definition MIN_TIME_DELTA : Z := 50.

(** The focus policies of main.h. *)
Inductive FocusModelType := FOCUS_SLOPPY | FOCUS_CLICK.

#[global] Instance FocusModelType_eq_dec : EqDecision FocusModelType.
Proof. solve_decision. Defined.

(** The indices of the [atoms] table that [event.c] reads. *)
Inductive AtomType :=
| ATOM_WM_CHANGE_STATE
| ATOM_WM_COLORMAP_WINDOWS
| ATOM_NET_WM_ICON
| ATOM_NET_WM_NAME
| ATOM_NET_WM_STRUT_PARTIAL
| ATOM_NET_WM_STRUT
| ATOM_NET_ACTIVE_WINDOW
| ATOM_NET_WM_DESKTOP
| ATOM_NET_CLOSE_WINDOW
| ATOM_NET_MOVERESIZE_WINDOW
| ATOM_NET_WM_STATE
| ATOM_NET_WM_STATE_STICKY
| ATOM_NET_WM_STATE_MAXIMIZED_VERT
| ATOM_NET_WM_STATE_MAXIMIZED_HORZ
| ATOM_NET_WM_STATE_SHADED
| ATOM_NET_CURRENT_DESKTOP
| ATOM_NET_SYSTEM_TRAY_OPCODE
| ATOM_WIN_STATE
| ATOM_WIN_LAYER
| ATOM_JWM_RESTART
| ATOM_JWM_EXIT.

#[global] Instance AtomType_eq_dec : EqDecision AtomType.
Proof. solve_decision. Defined.

(** ** The client record *)

Module ClientNode.

(** The fields of [ClientNode] that [event.c] reads or writes.  [status],
    [border] and [desktop] are the members of [np->state]; [controller]
    tells whether the callback pointer is set. *)
Record t := mk {
  window : Z;
  parent : Z;
  x : Z;
  y : Z;
  width : Z;
  height : Z;
  gravity : Z;
  status : Z;
  border : Z;
  desktop : Z;
  borderAction : Z;
  cmap : Z;
  controller : bool
}.

Definition null : t := mk 0 0 0 0 0 0 0 0 0 0 0 0 false.

Definition set_x (v : Z) (c : t) : t :=
  match c with
  | mk window parent _ y width height gravity status border desktop borderAction cmap controller =>
      mk window parent v y width height gravity status border desktop borderAction cmap controller
  end.

Definition set_y (v : Z) (c : t) : t :=
  match c with
  | mk window parent x _ width height gravity status border desktop borderAction cmap controller =>
      mk window parent x v width height gravity status border desktop borderAction cmap controller
  end.

Definition set_width (v : Z) (c : t) : t :=
  match c with
  | mk window parent x y _ height gravity status border desktop borderAction cmap controller =>
      mk window parent x y v height gravity status border desktop borderAction cmap controller
  end.

Definition set_height (v : Z) (c : t) : t :=
  match c with
  | mk window parent x y width _ gravity status border desktop borderAction cmap controller =>
      mk window parent x y width v gravity status border desktop borderAction cmap controller
  end.

Definition set_status (v : Z) (c : t) : t :=
  match c with
  | mk window parent x y width height gravity _ border desktop borderAction cmap controller =>
      mk window parent x y width height gravity v border desktop borderAction cmap controller
  end.

Definition set_desktop (v : Z) (c : t) : t :=
  match c with
  | mk window parent x y width height gravity status border _ borderAction cmap controller =>
      mk window parent x y width height gravity status border v borderAction cmap controller
  end.

Definition set_borderAction (v : Z) (c : t) : t :=
  match c with
  | mk window parent x y width height gravity status border desktop _ cmap controller =>
      mk window parent x y width height gravity status border desktop v cmap controller
  end.

Definition set_cmap (v : Z) (c : t) : t :=
  match c with
  | mk window parent x y width height gravity status border desktop borderAction _ controller =>
      mk window parent x y width height gravity status border desktop borderAction v controller
  end.

End ClientNode.

#[global] Instance ClientNode_inhabited : Inhabited ClientNode.t :=
  populate ClientNode.null.

(** ** Events *)

Inductive ButtonEventType := ButtonPress | ButtonRelease.

Module XButtonEvent.
Record t := mk {
  type : ButtonEventType;
  window : Z;
  time : Z;
  x : Z;
  y : Z;
  state : Z;
  button : Z
}.
End XButtonEvent.

Module XKeyEvent.
Record t := mk { window : Z; state : Z; keycode : Z }.
End XKeyEvent.

Module XCrossingEvent.
Record t := mk { window : Z; x : Z; y : Z; x_root : Z; y_root : Z }.
End XCrossingEvent.

Module XMotionEvent.
Record t := mk {
  window : Z;
  x : Z;
  y : Z;
  x_root : Z;
  y_root : Z;
  is_hint : bool
}.
End XMotionEvent.

Module XExposeEvent.
Record t := mk { window : Z; count : Z }.
End XExposeEvent.

Module XConfigureRequestEvent.
Record t := mk {
  parent : Z;
  window : Z;
  x : Z;
  y : Z;
  width : Z;
  height : Z;
  border_width : Z;
  above : Z;
  detail : Z;
  value_mask : Z
}.
End XConfigureRequestEvent.

Module XMapEvent.
Record t := mk { event : Z; window : Z }.
End XMapEvent.

Module XPropertyEvent.
Record t := mk { window : Z; atom : Z }.
End XPropertyEvent.

Module XClientMessageEvent.
(** [data_l] holds [data.l[0]] .. [data.l[4]]. *)
Record t := mk { window : Z; message_type : Z; data_l : list Z }.
Definition l (e : t) (i : nat) : Z := nth i (data_l e) 0.
End XClientMessageEvent.

Module XUnmapEvent.
Record t := mk { event : Z; window : Z }.
End XUnmapEvent.

Module XDestroyWindowEvent.
Record t := mk { event : Z; window : Z }.
End XDestroyWindowEvent.

Module XColormapEvent.
Record t := mk { window : Z; colormap : Z; new : bool }.
End XColormapEvent.

(** [XEvent] is a union tagged by [type]; one constructor per event type the
    file names, [OtherEvent] for the rest.  [ButtonEvent] covers ButtonPress
    and ButtonRelease, told apart by the [type] member of its payload;
    [ShapeEvent] is an event whose type is [shapeEvent]. *)
Inductive XEvent :=
| ButtonEvent (e : XButtonEvent.t)
| KeyPress (e : XKeyEvent.t)
| KeyRelease (e : XKeyEvent.t)
| EnterNotify (e : XCrossingEvent.t)
| LeaveNotify (e : XCrossingEvent.t)
| MotionNotify (e : XMotionEvent.t)
| Expose (e : XExposeEvent.t)
| ConfigureRequest (e : XConfigureRequestEvent.t)
| MapRequest (e : XMapEvent.t)
| PropertyNotify (e : XPropertyEvent.t)
| ClientMessage (e : XClientMessageEvent.t)
| UnmapNotify (e : XUnmapEvent.t)
| DestroyNotify (e : XDestroyWindowEvent.t)
| ColormapNotify (e : XColormapEvent.t)
| SelectionClear (window : Z)
| ResizeRequest (window : Z)
| ConfigureNotify (window : Z)
| CreateNotify (window : Z)
| MapNotify (window : Z)
| ReparentNotify (window : Z)
| GraphicsExpose (drawable : Z)
| NoExpose (drawable : Z)
| ShapeEvent (window : Z)
| OtherEvent (type : Z) (window : Z).

(** ** The log of calls that leave the file *)

Module XWindowChanges.
Record t := mk {
  x : Z;
  y : Z;
  width : Z;
  height : Z;
  border_width : Z;
  sibling : Z;
  stack_mode : Z
}.
End XWindowChanges.

(** Requests to the display server keep their Xlib names; [Controller np f]
    is the call [(np->controller)(f)]; [Ext name args] is a call of the
    function [name] of another module of the window manager, with its
    integer arguments (a client is passed as its primary window). *)
Inductive Call :=
| JXConfigureWindow (w : Z) (value_mask : Z) (wc : XWindowChanges.t)
| JXMoveResizeWindow (w : Z) (x y width height : Z)
| JXDefineCursor (w : Z) (cursor : Z)
| JXMapWindow (w : Z)
| JXUnmapWindow (w : Z)
| JXAllowEvents
| JXSync
| JXGrabServer
| JXUngrabServer
| Controller (np : Z) (wasDestroyed : Z)
| Ext (name : string) (args : list Z).

(** The requests that reach the display server. *)
Definition is_display_call (c : Call) : bool :=
  match c with
  | Controller _ _ | Ext _ _ => false
  | _ => true
  end.

(** ** The world *)

(** [clients] is the registry by primary window, which also serves as the
    store of the client records (a [ClientNode *] is modelled by the primary
    window of the client); [frames] is the registry by decoration window.
    [queue] holds the events already queued on the display connection,
    oldest first.  [Signal_last] is the static of [Signal]; [lastClickTime],
    [lastX], [lastY] and [doubleClickActive] are the statics of
    [DispatchBorderButtonEvent]. *)
Record World := mkWorld {
  clients : gmap Z ClientNode.t;
  frames : gmap Z Z;
  queue : list XEvent;
  shouldExit : bool;
  mousePosition : Z * Z;
  clock : Z;
  Signal_last : Z;
  lastClickTime : Z;
  lastX : Z;
  lastY : Z;
  doubleClickActive : bool;
  trace : list Call
}.

Definition with_clients (v : gmap Z ClientNode.t) (w : World) : World :=
  match w with
  | mkWorld _ frames queue shouldExit mousePosition clock Signal_last
      lastClickTime lastX lastY doubleClickActive trace =>
      mkWorld v frames queue shouldExit mousePosition clock Signal_last
          lastClickTime lastX lastY doubleClickActive trace
  end.

Definition with_frames (v : gmap Z Z) (w : World) : World :=
  match w with
  | mkWorld clients _ queue shouldExit mousePosition clock Signal_last
      lastClickTime lastX lastY doubleClickActive trace =>
      mkWorld clients v queue shouldExit mousePosition clock Signal_last
          lastClickTime lastX lastY doubleClickActive trace
  end.

Definition with_queue (v : list XEvent) (w : World) : World :=
  match w with
  | mkWorld clients frames _ shouldExit mousePosition clock Signal_last
      lastClickTime lastX lastY doubleClickActive trace =>
      mkWorld clients frames v shouldExit mousePosition clock Signal_last
          lastClickTime lastX lastY doubleClickActive trace
  end.

Definition with_shouldExit (v : bool) (w : World) : World :=
  match w with
  | mkWorld clients frames queue _ mousePosition clock Signal_last
      lastClickTime lastX lastY doubleClickActive trace =>
      mkWorld clients frames queue v mousePosition clock Signal_last
          lastClickTime lastX lastY doubleClickActive trace
  end.

Definition with_mousePosition (v : Z * Z) (w : World) : World :=
  match w with
  | mkWorld clients frames queue shouldExit _ clock Signal_last
      lastClickTime lastX lastY doubleClickActive trace =>
      mkWorld clients frames queue shouldExit v clock Signal_last
          lastClickTime lastX lastY doubleClickActive trace
  end.

Definition with_Signal_last (v : Z) (w : World) : World :=
  match w with
  | mkWorld clients frames queue shouldExit mousePosition clock _
      lastClickTime lastX lastY doubleClickActive trace =>
      mkWorld clients frames queue shouldExit mousePosition clock v
          lastClickTime lastX lastY doubleClickActive trace
  end.

Definition with_click (t x y : Z) (w : World) : World :=
  match w with
  | mkWorld clients frames queue shouldExit mousePosition clock Signal_last
      _ _ _ doubleClickActive trace =>
      mkWorld clients frames queue shouldExit mousePosition clock
          Signal_last t x y doubleClickActive trace
  end.

Definition with_doubleClickActive (v : bool) (w : World) : World :=
  match w with
  | mkWorld clients frames queue shouldExit mousePosition clock Signal_last
      lastClickTime lastX lastY _ trace =>
      mkWorld clients frames queue shouldExit mousePosition clock
          Signal_last lastClickTime lastX lastY v trace
  end.

Definition with_trace (v : list Call) (w : World) : World :=
  match w with
  | mkWorld clients frames queue shouldExit mousePosition clock Signal_last
      lastClickTime lastX lastY doubleClickActive _ =>
      mkWorld clients frames queue shouldExit mousePosition clock
          Signal_last lastClickTime lastX lastY doubleClickActive v
  end.

(** ** The state monad of the handlers *)

Definition M (A : Type) : Type := World -> A * World.

#[global] Instance M_ret : MRet M := fun A a w => (a, w).

#[global] Instance M_bind : MBind M :=
  fun A B k m w => let (a, w') := m w in k a w'.

Definition get : M World := fun w => (w, w).

Definition modify (f : World -> World) : M unit := fun w => (tt, f w).

Definition when (b : bool) (m : M unit) : M unit :=
  if b then m else mret tt.

(** The world a computation leaves, and the value it returns. *)
Definition exec {A} (m : M A) (w : World) : World := (m w).2.
Definition eval {A} (m : M A) (w : World) : A := (m w).1.

Definition call (c : Call) : M unit :=
  modify (fun w => with_trace (trace w ++ [c]) w).

Definition ext (name : string) (args : list Z) : M unit :=
  call (Ext name args).

(** Read the record behind a client pointer. *)
Definition deref (np : Z) : M ClientNode.t :=
  fun w => (clients w !!! np, w).

(** Write through a client pointer. *)
Definition update (np : Z) (f : ClientNode.t -> ClientNode.t) : M unit :=
  modify (fun w => with_clients (alter f np (clients w)) w).

Definition Z_of_bool (b : bool) : Z := if b then 1 else 0.

(** ** Process globals and the other modules *)

(** The globals of main.c and the [atoms] table of hint.c, read only here. *)
Record Config := mkConfig {
  rootWindow : Z;
  rootWidth : Z;
  rootHeight : Z;
  borderWidth : Z;
  titleHeight : Z;
  doubleClickSpeed : Z;
  doubleClickDelta : Z;
  desktopCount : Z;
  focusModel : FocusModelType;
  USE_SHAPE : bool;
  haveShape : bool;
  atoms : AtomType -> Z
}.

(** What the functions of the other modules answer.  Their sources are not
    at hand, so the handlers are embedded for arbitrary answers.  A function
    whose answer depends on the user or on the rest of the window manager
    reads the whole world (which includes the log so far). *)
Record Externals := mkExternals {
  GetBorderActionType : ClientNode.t -> Z -> Z -> Z;
  GetBorderSize : ClientNode.t -> Z * Z * Z * Z;
  GetGravityDelta : ClientNode.t -> Z * Z;
  ConstrainSize_size : ClientNode.t -> Z * Z;
  GetFrameCursor : Z -> Z;
  GetKey : XKeyEvent.t -> Z;
  GetTimeDifference : Z -> Z -> Z;
  GetActiveClient : World -> option Z;
  MoveClient_moved : World -> Z -> Z -> Z -> bool;
  ShowRootMenu_shown : World -> Z -> Z -> Z -> bool;
  CheckSwallowMap_swallowed : World -> XMapEvent.t -> bool;
  AddClientWindow_added : World -> Z -> option ClientNode.t;
  HandleDockDestroy_handled : World -> Z -> bool;
  HandleDockSelectionClear_handled : World -> Z -> bool;
  HandleDockResizeRequest_handled : World -> Z -> bool;
  ProcessTrayEvent_handled : World -> XEvent -> bool;
  ProcessDialogEvent_handled : World -> XEvent -> bool;
  ProcessSwallowEvent_handled : World -> XEvent -> bool;
  ProcessPopupEvent_handled : World -> XEvent -> bool
}.

(** The [type] test of [XCheckTypedEvent] for the two types the file asks
    for, and the window an event is reported for ([xany.window], the first
    window member of each event structure). *)
Definition is_MotionNotify (e : XEvent) : bool :=
  match e with MotionNotify _ => true | _ => false end.

Definition is_DestroyNotify (e : XEvent) : bool :=
  match e with DestroyNotify _ => true | _ => false end.

Definition xany_window (e : XEvent) : Z :=
  match e with
  | ButtonEvent e => XButtonEvent.window e
  | KeyPress e | KeyRelease e => XKeyEvent.window e
  | EnterNotify e | LeaveNotify e => XCrossingEvent.window e
  | MotionNotify e => XMotionEvent.window e
  | Expose e => XExposeEvent.window e
  | ConfigureRequest e => XConfigureRequestEvent.parent e
  | MapRequest e => XMapEvent.event e
  | PropertyNotify e => XPropertyEvent.window e
  | ClientMessage e => XClientMessageEvent.window e
  | UnmapNotify e => XUnmapEvent.event e
  | DestroyNotify e => XDestroyWindowEvent.event e
  | ColormapNotify e => XColormapEvent.window e
  | SelectionClear w | ResizeRequest w | ConfigureNotify w | CreateNotify w
  | MapNotify w | ReparentNotify w | GraphicsExpose w | NoExpose w
  | ShapeEvent w | OtherEvent _ w => w
  end.

(** Remove the first event of the queue that satisfies [p]. *)
Fixpoint take_first (p : XEvent -> bool) (q : list XEvent)
  : option (XEvent * list XEvent) :=
  match q with
  | [] => None
  | e :: q' =>
      if p e then Some (e, q')
      else match take_first p q' with
           | Some (e', q'') => Some (e', e :: q'')
           | None => None
           end
  end.

(** [XCheckTypedEvent]: the first queued event of the type, removed from the
    queue, if there is one. *)
Definition JXCheckTypedEvent (type : XEvent -> bool) : M (option XEvent) :=
  fun w =>
    match take_first type (queue w) with
    | Some (e, q) => (Some e, with_queue q w)
    | None => (None, w)
    end.

(** [XCheckTypedWindowEvent]: the same, among the events reported for [win]. *)
Definition JXCheckTypedWindowEvent (win : Z) (type : XEvent -> bool)
  : M (option XEvent) :=
  JXCheckTypedEvent (fun e => type e && (xany_window e =? win)).

Section Handlers.

Variable cfg : Config.
Variable E : Externals.

(** *** The client module, as far as the handlers depend on it *)

Definition lookup_client (w : World) (np : Z) : option Z :=
  (fun _ => np) <$> clients w !! np.

(** Modelled from the spec: the registry is an "external lookup by primary
    window or by decoration/parent window"; client.c is missing.  The lookup
    by window also answers for a decoration window, as the handlers that
    compare [event->window] with [np->parent] afterwards expect. *)
Definition FindClientByParent (p : Z) : M (option Z) :=
  fun w => (frames w !! p ≫= lookup_client w, w).

Definition FindClientByWindow (win : Z) : M (option Z) :=
  fun w =>
    (match lookup_client w win with
     | Some np => Some np
     | None => frames w !! win ≫= lookup_client w
     end, w).

(** Modelled from the spec: "Sticky: a window visible on every virtual
    desktop", a status flag set or cleared as asked; client.c is missing. *)
Definition SetClientSticky (np : Z) (isSticky : bool) : M unit :=
  ext "SetClientSticky" [np; Z_of_bool isSticky];;
  update np (fun c =>
    ClientNode.set_status
      (if isSticky then flag_set (ClientNode.status c) STAT_STICKY
       else flag_clear (ClientNode.status c) STAT_STICKY) c).

(** Modelled from the spec: the "maximize toggle which is inherently a
    flip" of the maximized status flag; client.c is missing. *)
Definition MaximizeClient_record (c : ClientNode.t) : ClientNode.t :=
  ClientNode.set_status
    (if flag_test (ClientNode.status c) STAT_MAXIMIZED
     then flag_clear (ClientNode.status c) STAT_MAXIMIZED
     else flag_set (ClientNode.status c) STAT_MAXIMIZED) c.

Definition MaximizeClient (np : Z) : M unit :=
  ext "MaximizeClient" [np];;
  update np MaximizeClient_record.

(** Modelled from the spec: shading sets the shaded status flag and
    unshading clears it ("no-op if already in target state"); client.c is
    missing. *)
Definition ShadeClient (np : Z) : M unit :=
  ext "ShadeClient" [np];;
  update np (fun c =>
    ClientNode.set_status (flag_set (ClientNode.status c) STAT_SHADED) c).

Definition UnshadeClient (np : Z) : M unit :=
  ext "UnshadeClient" [np];;
  update np (fun c =>
    ClientNode.set_status (flag_clear (ClientNode.status c) STAT_SHADED) c).

(** Modelled from the spec: a desktop-assignment "reassigns desktop";
    client.c is missing. *)
Definition SetClientDesktop (np : Z) (desktop : Z) : M unit :=
  ext "SetClientDesktop" [np; desktop];;
  update np (ClientNode.set_desktop desktop).

(** Modelled from the spec: clients are "destroyed on window destruction":
    the record leaves both registries; client.c is missing. *)
Definition RemoveClient (np : Z) : M unit :=
  c ← deref np;
  ext "RemoveClient" [np];;
  modify (fun w =>
    with_frames (delete (ClientNode.parent c) (frames w))
      (with_clients (delete np (clients w)) w)).

(** Modelled from the spec: adoption of a window creates its record
    ("created by the registry on window adoption"); client.c is missing. *)
Definition AddClientWindow (win : Z) : M (option Z) :=
  w ← get;
  ext "AddClientWindow" [win; 0; 1];;
  match AddClientWindow_added E w win with
  | Some c =>
      modify (fun w =>
        with_frames (<[ClientNode.parent c := ClientNode.window c]> (frames w))
          (with_clients (<[ClientNode.window c := c]> (clients w)) w));;
      mret (Some (ClientNode.window c))
  | None => mret None
  end.

(** Modelled from the spec: restart and exit are "the only intentional
    termination paths": both raise the shutdown flag; main.c is missing. *)
Definition Exit : M unit :=
  ext "Exit" [];; modify (with_shouldExit true).

Definition Restart : M unit :=
  ext "Restart" [];; modify (with_shouldExit true).

(** Modelled from the spec: the "process-wide last known root-relative
    pointer coordinate"; the cache itself is in a missing module. *)
Definition SetMousePosition (x y : Z) : M unit :=
  modify (with_mousePosition (x, y)).

(** The size constraints of a client: only [width] and [height] change. *)
Definition ConstrainSize (np : Z) : M unit :=
  ext "ConstrainSize" [np];;
  update np (fun c =>
    ClientNode.set_height (ConstrainSize_size E c).2
      (ClientNode.set_width (ConstrainSize_size E c).1 c)).

(** Interactive operations: the log entry and the answer. *)
Definition MoveClient (np x y : Z) : M bool :=
  w ← get;
  ext "MoveClient" [np; x; y];;
  mret (MoveClient_moved E w np x y).

Definition ShowRootMenu (button x y : Z) : M bool :=
  w ← get;
  ext "ShowRootMenu" [button; x; y];;
  mret (ShowRootMenu_shown E w button x y).

Definition HandleDockDestroy (win : Z) : M bool :=
  w ← get;
  ext "HandleDockDestroy" [win];;
  mret (HandleDockDestroy_handled E w win).

(** [(np->controller)(wasDestroyed)], when the pointer is set. *)
Definition call_controller (np : Z) (wasDestroyed : Z) : M unit :=
  c ← deref np;
  when (ClientNode.controller c) (call (Controller np wasDestroyed)).

(** *** [Signal] (event.c, lines 169-191) *)

Definition Signal : M unit :=
  w ← get;
  let now := clock w in
  if GetTimeDifference E now (Signal_last w) <? MIN_TIME_DELTA then mret tt
  else
    modify (with_Signal_last now);;
    let '(x, y) := mousePosition w in
    ext "SignalTaskbar" [now; x; y];;
    ext "SignalTrayButton" [now; x; y];;
    ext "SignalClock" [now; x; y];;
    ext "SignalTray" [now; x; y];;
    ext "SignalPopup" [now; x; y].

(** *** [DiscardMotionEvents] (lines 228-239)

    Each turn of the loop removes one queued motion event, so the length of
    the queue bounds the number of turns. *)

Fixpoint DiscardMotionEvents_loop (fuel : nat) (event : XEvent) (win : Z)
  : M XEvent :=
  match fuel with
  | O => mret event
  | S fuel' =>
      r ← JXCheckTypedEvent is_MotionNotify;
      match r with
      | Some (MotionNotify temp) =>
          SetMousePosition (XMotionEvent.x_root temp) (XMotionEvent.y_root temp);;
          DiscardMotionEvents_loop fuel'
            (if XMotionEvent.window temp =? win then MotionNotify temp
             else event) win
      | _ => mret event
      end
  end.

Definition DiscardMotionEvents (event : XEvent) (win : Z) : M XEvent :=
  w ← get;
  DiscardMotionEvents_loop (length (queue w)) event win.

(** *** [HandleSelectionClear] (lines 243-247) *)

Definition HandleSelectionClear (win : Z) : M bool :=
  w ← get;
  ext "HandleDockSelectionClear" [win];;
  mret (HandleDockSelectionClear_handled E w win).

(** *** [DispatchBorderButtonEvent] (lines 1032-1099) *)

(** The test of lines 1050-1054.  [event->time - lastClickTime] is computed
    in [unsigned long] and converted to the [int] that [abs] takes. *)
Definition DispatchBorderButtonEvent_doubleClick (w : World)
  (event : XButtonEvent.t) : bool :=
  let dt :=
    c_abs (wrap_int
             (wrap_ulong (XButtonEvent.time event - lastClickTime w))) in
  doubleClickActive w
  && (0 <? dt)
  && (dt <=? doubleClickSpeed cfg)
  && (c_abs (XButtonEvent.x event - lastX w) <=? doubleClickDelta cfg)
  && (c_abs (XButtonEvent.y event - lastY w) <=? doubleClickDelta cfg).

Definition DispatchBorderButtonEvent (event : XButtonEvent.t) (np : Z)
  : M unit :=
  c ← deref np;
  let action :=
    GetBorderActionType E c (XButtonEvent.x event) (XButtonEvent.y event) in
  let kind := Z.land action 15 in
  let pressed :=
    match XButtonEvent.type event with
    | ButtonPress => true
    | ButtonRelease => false
    end in
  if kind =? BA_RESIZE then
    when pressed
      (ext "ResizeClient"
         [np; action; XButtonEvent.x event; XButtonEvent.y event])
  else if kind =? BA_MOVE then
    when pressed
      (w ← get;
       if DispatchBorderButtonEvent_doubleClick w event then
         MaximizeClient np;;
         modify (with_doubleClickActive false)
       else
         moved ← MoveClient np (XButtonEvent.x event) (XButtonEvent.y event);
         if (moved : bool) then modify (with_doubleClickActive false)
         else
           modify (with_doubleClickActive true);;
           modify (with_click (XButtonEvent.time event)
                     (XButtonEvent.x event) (XButtonEvent.y event)))
  else if kind =? BA_MENU then
    when pressed
      (c ← deref np;
       let bsize :=
         if flag_test (ClientNode.border c) BORDER_OUTLINE
         then borderWidth cfg else 0 in
       ext "ShowWindowMenu"
         [np; ClientNode.x c + XButtonEvent.x event - bsize;
          ClientNode.y c + XButtonEvent.y event - titleHeight cfg - bsize])
  else if kind =? BA_CLOSE then
    when (negb pressed) (ext "DeleteClient" [np])
  else if kind =? BA_MAXIMIZE then
    when (negb pressed) (MaximizeClient np)
  else if kind =? BA_MINIMIZE then
    when (negb pressed) (ext "MinimizeClient" [np])
  else mret tt.

(** *** [HandleButtonEvent] (lines 251-320) *)

Definition focus_on_click (np : Z) : M unit :=
  when (bool_decide (focusModel cfg = FOCUS_CLICK)) (ext "FocusClient" [np]).

Definition HandleButtonEvent (event : XButtonEvent.t) : M unit :=
  found ← FindClientByParent (XButtonEvent.window event);
  match found with
  | Some np =>
      ext "RaiseClient" [np];;
      focus_on_click np;;
      let button := XButtonEvent.button event in
      if button =? Button1 then DispatchBorderButtonEvent event np
      else if button =? Button2 then
        _ ← MoveClient np (XButtonEvent.x event) (XButtonEvent.y event);
        mret tt
      else if button =? Button3 then
        c ← deref np;
        let x := XButtonEvent.x event + ClientNode.x c in
        let y := XButtonEvent.y event + ClientNode.y c in
        let '(x, y) :=
          if flag_test (ClientNode.border c) BORDER_OUTLINE
          then (x - borderWidth cfg, y - borderWidth cfg) else (x, y) in
        let y :=
          if flag_test (ClientNode.border c) BORDER_TITLE
          then y - titleHeight cfg else y in
        ext "ShowWindowMenu" [np; x; y]
      else if button =? Button4 then ShadeClient np
      else if button =? Button5 then UnshadeClient np
      else mret tt
  | None =>
      if (XButtonEvent.window event =? rootWindow cfg)
         && match XButtonEvent.type event with
            | ButtonPress => true
            | ButtonRelease => false
            end
      then
        shown ← ShowRootMenu (XButtonEvent.button event)
                  (XButtonEvent.x event) (XButtonEvent.y event);
        if (shown : bool) then mret tt
        else if XButtonEvent.button event =? 4 then ext "PreviousDesktop" []
        else if XButtonEvent.button event =? 5 then ext "NextDesktop" []
        else mret tt
      else
        found ← FindClientByWindow (XButtonEvent.window event);
        match found with
        | Some np =>
            let button := XButtonEvent.button event in
            (if (button =? Button1) || (button =? Button2)
                || (button =? Button3)
             then
               ext "RaiseClient" [np];;
               focus_on_click np;;
               if flag_test (XButtonEvent.state event) Mod1Mask then
                 _ ← MoveClient np (XButtonEvent.x event)
                       (XButtonEvent.y event);
                 mret tt
               else mret tt
             else mret tt);;
            call JXAllowEvents
        | None => mret tt
        end
  end;;
  ext "UpdatePager" [].

(** *** [HandleKeyPress] (lines 324-401) *)

Definition HandleKeyPress (event : XKeyEvent.t) : M unit :=
  let key := GetKey E event in
  w ← get;
  let np := GetActiveClient E w in
  let on_active (f : Z -> M unit) : M unit :=
    match np with Some np => f np | None => mret tt end in
  let code := Z.land key 255 in
  if code =? KEY_EXEC then ext "RunKeyCommand" [XKeyEvent.keycode event]
  else if code =? KEY_DESKTOP then
    if Z.shiftr key 8 =? 0 then ext "NextDesktop" []
    else ext "ChangeDesktop" [Z.shiftr key 8 - 1]
  else if code =? KEY_NEXT then ext "FocusNext" []
  else if code =? KEY_NEXT_STACKED then ext "FocusNextStackedCircular" []
  else if code =? KEY_CLOSE then on_active (fun np => ext "DeleteClient" [np])
  else if code =? KEY_SHADE then
    on_active (fun np =>
      c ← deref np;
      if flag_test (ClientNode.status c) STAT_SHADED then UnshadeClient np
      else ShadeClient np)
  else if code =? KEY_MOVE then
    on_active (fun np => ext "MoveClientKeyboard" [np])
  else if code =? KEY_RESIZE then
    on_active (fun np => ext "ResizeClientKeyboard" [np])
  else if code =? KEY_MIN then on_active (fun np => ext "MinimizeClient" [np])
  else if code =? KEY_MAX then on_active MaximizeClient
  else if code =? KEY_ROOT then _ ← ShowRootMenu 1 0 0; mret tt
  else if code =? KEY_WIN then
    on_active (fun np =>
      c ← deref np;
      ext "ShowWindowMenu" [np; ClientNode.x c; ClientNode.y c])
  else if code =? KEY_RESTART then Restart
  else if code =? KEY_EXIT then Exit
  else mret tt.

(** *** [HandleConfigureRequest] (lines 405-474) *)

(** The four guarded assignments of lines 419-435: the record after them and
    the value of [changed]. *)
Definition merge_configure (event : XConfigureRequestEvent.t)
  (c : ClientNode.t) : ClientNode.t * bool :=
  let mask := XConfigureRequestEvent.value_mask event in
  let changed := false in
  let '(c, changed) :=
    if flag_test mask CWWidth
       && negb (XConfigureRequestEvent.width event =? ClientNode.width c)
    then (ClientNode.set_width (XConfigureRequestEvent.width event) c, true)
    else (c, changed) in
  let '(c, changed) :=
    if flag_test mask CWHeight
       && negb (XConfigureRequestEvent.height event =? ClientNode.height c)
    then (ClientNode.set_height (XConfigureRequestEvent.height event) c, true)
    else (c, changed) in
  let '(c, changed) :=
    if flag_test mask CWX
       && negb (XConfigureRequestEvent.x event =? ClientNode.x c)
    then (ClientNode.set_x (XConfigureRequestEvent.x event) c, true)
    else (c, changed) in
  let '(c, changed) :=
    if flag_test mask CWY
       && negb (XConfigureRequestEvent.y event =? ClientNode.y c)
    then (ClientNode.set_y (XConfigureRequestEvent.y event) c, true)
    else (c, changed) in
  (c, changed).

Arguments merge_configure : simpl never.

Definition HandleConfigureRequest (event : XConfigureRequestEvent.t)
  : M unit :=
  let passthrough : M unit :=
    call (JXConfigureWindow (XConfigureRequestEvent.window event)
            (XConfigureRequestEvent.value_mask event)
            (XWindowChanges.mk
               (XConfigureRequestEvent.x event)
               (XConfigureRequestEvent.y event)
               (if rootWidth cfg <? XConfigureRequestEvent.width event
                then rootWidth cfg else XConfigureRequestEvent.width event)
               (if rootHeight cfg <? XConfigureRequestEvent.height event
                then rootHeight cfg else XConfigureRequestEvent.height event)
               (XConfigureRequestEvent.border_width event)
               (XConfigureRequestEvent.above event)
               (XConfigureRequestEvent.detail event))) in
  found ← FindClientByWindow (XConfigureRequestEvent.window event);
  match found with
  | Some np =>
      c ← deref np;
      if ClientNode.window c =? XConfigureRequestEvent.window event then
        call_controller np 0;;
        c ← deref np;
        update np (fun c => (merge_configure event c).1);;
        if negb (merge_configure event c).2 then mret tt
        else
          c ← deref np;
          let '(north, south, east, west) := GetBorderSize E c in
          ConstrainSize np;;
          c ← deref np;
          call (JXConfigureWindow (ClientNode.parent c)
                  (XConfigureRequestEvent.value_mask event)
                  (XWindowChanges.mk
                     (ClientNode.x c) (ClientNode.y c)
                     (ClientNode.width c + east + west)
                     (ClientNode.height c + north + south)
                     0 (ClientNode.parent c) Above));;
          call (JXConfigureWindow (ClientNode.window c)
                  (XConfigureRequestEvent.value_mask event)
                  (XWindowChanges.mk
                     west north (ClientNode.width c) (ClientNode.height c)
                     0 (ClientNode.parent c) Above))
      else passthrough
  | None => passthrough
  end.

(** *** [HandleEnterNotify] and [HandleLeaveNotify] (lines 478-515) *)

Definition HandleEnterNotify (event : XCrossingEvent.t) : M unit :=
  SetMousePosition (XCrossingEvent.x_root event) (XCrossingEvent.y_root event);;
  found ← FindClientByWindow (XCrossingEvent.window event);
  match found with
  | Some np =>
      c ← deref np;
      when (negb (flag_test (ClientNode.status c) STAT_ACTIVE)
            && bool_decide (focusModel cfg = FOCUS_SLOPPY))
        (ext "FocusClient" [np]);;
      c ← deref np;
      if ClientNode.parent c =? XCrossingEvent.window event then
        let action :=
          GetBorderActionType E c (XCrossingEvent.x event)
            (XCrossingEvent.y event) in
        update np (ClientNode.set_borderAction action);;
        call (JXDefineCursor (ClientNode.parent c) (GetFrameCursor E action))
      else if negb (ClientNode.borderAction c =? BA_NONE) then
        ext "SetDefaultCursor" [ClientNode.parent c];;
        update np (ClientNode.set_borderAction BA_NONE)
      else mret tt
  | None => mret tt
  end.

Definition HandleLeaveNotify (event : XCrossingEvent.t) : M unit :=
  SetMousePosition (XCrossingEvent.x_root event) (XCrossingEvent.y_root event);;
  found ← FindClientByParent (XCrossingEvent.window event);
  match found with
  | Some np =>
      c ← deref np;
      ext "SetDefaultCursor" [ClientNode.parent c]
  | None => mret tt
  end.

(** *** [HandleExpose] (lines 519-538) *)

Definition HandleExpose (event : XExposeEvent.t) : M bool :=
  found ← FindClientByWindow (XExposeEvent.window event);
  match found with
  | Some np =>
      c ← deref np;
      if XExposeEvent.window event =? ClientNode.parent c then
        ext "DrawBorder" [np];; mret true
      else if (XExposeEvent.window event =? ClientNode.window c)
              && flag_test (ClientNode.status c) STAT_WMDIALOG
      then mret false
      else mret true
  | None => mret (negb (XExposeEvent.count event =? 0))
  end.

(** *** [HandlePropertyNotify] (lines 542-594) *)

Definition HandlePropertyNotify (event : XPropertyEvent.t) : M bool :=
  found ← FindClientByWindow (XPropertyEvent.window event);
  match found with
  | Some np =>
      let atom := XPropertyEvent.atom event in
      changed ←
        (if atom =? XA_WM_NAME then ext "ReadWMName" [np];; mret true
         else if atom =? XA_WM_NORMAL_HINTS then
           ext "ReadWMNormalHints" [np];; mret true
         else if (atom =? XA_WM_HINTS) || (atom =? XA_WM_ICON_NAME)
                 || (atom =? XA_WM_CLIENT_MACHINE)
         then mret false
         else if atom =? atoms cfg ATOM_WM_COLORMAP_WINDOWS then
           ext "ReadWMColormaps" [np];;
           ext "UpdateClientColormap" [np];; mret false
         else if atom =? atoms cfg ATOM_NET_WM_ICON then
           ext "LoadIcon" [np];; mret true
         else if atom =? atoms cfg ATOM_NET_WM_NAME then
           ext "ReadWMName" [np];; mret true
         else if atom =? atoms cfg ATOM_NET_WM_STRUT_PARTIAL then
           ext "ReadClientStrut" [np];; mret false
         else if atom =? atoms cfg ATOM_NET_WM_STRUT then
           ext "ReadClientStrut" [np];; mret false
         else mret false);
      when changed
        (ext "DrawBorder" [np];;
         ext "UpdateTaskBar" [];;
         ext "UpdatePager" []);;
      c ← deref np;
      mret (negb (flag_test (ClientNode.status c) STAT_WMDIALOG))
  | None => mret true
  end.

(** *** [HandleNetMoveResize] (lines 725-782) *)

(** The local [gravity] of lines 736 and 757-759.  Nothing reads it after
    line 759: [GetGravityDelta] is given the client, not this value. *)
Definition HandleNetMoveResize_gravity (event : XClientMessageEvent.t)
  (c : ClientNode.t) : Z :=
  let gravity := Z.land (XClientMessageEvent.l event 0) 255 in
  if gravity =? 0 then ClientNode.gravity c else gravity.

Definition HandleNetMoveResize (event : XClientMessageEvent.t) (np : Z)
  : M unit :=
  c ← deref np;
  let gravity := HandleNetMoveResize_gravity event c in
  let flags := Z.shiftr (XClientMessageEvent.l event 0) 8 in
  let x := ClientNode.x c in
  let y := ClientNode.y c in
  let width := ClientNode.width c in
  let height := ClientNode.height c in
  let x :=
    if flag_test flags (Z.shiftl 1 0) then XClientMessageEvent.l event 1
    else x in
  let y :=
    if flag_test flags (Z.shiftl 1 1) then XClientMessageEvent.l event 2
    else y in
  let width :=
    if flag_test flags (Z.shiftl 1 2) then XClientMessageEvent.l event 3
    else width in
  let height :=
    if flag_test flags (Z.shiftl 1 3) then XClientMessageEvent.l event 4
    else height in
  let '(north, south, east, west) := GetBorderSize E c in
  let '(deltax, deltay) := GetGravityDelta E c in
  let x := x - deltax in
  let y := y - deltay in
  update np (fun c =>
    ClientNode.set_height (wrap_int height)
      (ClientNode.set_width (wrap_int width)
         (ClientNode.set_y (wrap_int y)
            (ClientNode.set_x (wrap_int x) c))));;
  c ← deref np;
  call (JXMoveResizeWindow (ClientNode.parent c)
          (ClientNode.x c - west) (ClientNode.y c - north)
          (ClientNode.width c + east + west)
          (ClientNode.height c + north + south));;
  call (JXMoveResizeWindow (ClientNode.window c) west north
          (ClientNode.width c) (ClientNode.height c));;
  ext "WriteState" [np];;
  ext "SendConfigureEvent" [np].

(** *** [HandleNetWMState] (lines 787-861) *)

(** One turn of the loop of lines 799-813, on [data.l[x]]. *)
Definition HandleNetWMState_scan (acc : bool * bool * bool) (l : Z)
  : bool * bool * bool :=
  let '(actionMaximize, actionStick, actionShade) := acc in
  if l =? atoms cfg ATOM_NET_WM_STATE_STICKY
  then (actionMaximize, true, actionShade)
  else if l =? atoms cfg ATOM_NET_WM_STATE_MAXIMIZED_VERT
  then (true, actionStick, actionShade)
  else if l =? atoms cfg ATOM_NET_WM_STATE_MAXIMIZED_HORZ
  then (true, actionStick, actionShade)
  else if l =? atoms cfg ATOM_NET_WM_STATE_SHADED
  then (actionMaximize, actionStick, true)
  else acc.

(** The loop, for x = 1 and x = 2: the values of [actionMaximize],
    [actionStick] and [actionShade] when it ends. *)
Definition HandleNetWMState_actions (event : XClientMessageEvent.t)
  : bool * bool * bool :=
  HandleNetWMState_scan
    (HandleNetWMState_scan (false, false, false)
       (XClientMessageEvent.l event 1))
    (XClientMessageEvent.l event 2).

Definition HandleNetWMState (event : XClientMessageEvent.t) (np : Z)
  : M unit :=
  let '(actionMaximize, actionStick, actionShade) :=
    HandleNetWMState_actions event in
  let action := XClientMessageEvent.l event 0 in
  if action =? 0 then
    when actionStick (SetClientSticky np false);;
    c ← deref np;
    when (actionMaximize && flag_test (ClientNode.status c) STAT_MAXIMIZED)
      (MaximizeClient np);;
    when actionShade (UnshadeClient np)
  else if action =? 1 then
    when actionStick (SetClientSticky np true);;
    c ← deref np;
    when (actionMaximize
          && negb (flag_test (ClientNode.status c) STAT_MAXIMIZED))
      (MaximizeClient np);;
    when actionShade (ShadeClient np)
  else if action =? 2 then
    when actionStick
      (c ← deref np;
       if flag_test (ClientNode.status c) STAT_STICKY
       then SetClientSticky np false else SetClientSticky np true);;
    when actionMaximize (MaximizeClient np);;
    when actionShade
      (c ← deref np;
       if flag_test (ClientNode.status c) STAT_SHADED
       then UnshadeClient np else ShadeClient np)
  else ext "Debug" [action].

(** *** [HandleClientMessage] (lines 598-720) *)

Definition HandleClientMessage (event : XClientMessageEvent.t) : M unit :=
  let message_type := XClientMessageEvent.message_type event in
  let l := XClientMessageEvent.l event in
  found ← FindClientByWindow (XClientMessageEvent.window event);
  match found with
  | Some np =>
      if message_type =? atoms cfg ATOM_WIN_STATE then
        let mask := l 0%nat in
        let flags := l 1%nat in
        when (flag_test mask WIN_STATE_STICKY)
          (if flag_test flags WIN_STATE_STICKY then SetClientSticky np true
           else SetClientSticky np false);;
        when (flag_test mask WIN_STATE_HIDDEN)
          (update np (fun c =>
             ClientNode.set_status
               (if flag_test flags WIN_STATE_HIDDEN
                then flag_set (ClientNode.status c) STAT_NOLIST
                else flag_clear (ClientNode.status c) STAT_NOLIST) c);;
           ext "UpdateTaskBar" [];;
           ext "UpdatePager" [])
      else if message_type =? atoms cfg ATOM_WIN_LAYER then
        ext "SetClientLayer" [np; l 0%nat]
      else if message_type =? atoms cfg ATOM_WM_CHANGE_STATE then
        call_controller np 0;;
        if l 0%nat =? WithdrawnState then ext "SetClientWithdrawn" [np]
        else if l 0%nat =? IconicState then ext "MinimizeClient" [np]
        else if l 0%nat =? NormalState then ext "RestoreClient" [np; 1]
        else mret tt
      else if message_type =? atoms cfg ATOM_NET_ACTIVE_WINDOW then
        ext "RestoreClient" [np; 1];;
        ext "FocusClient" [np]
      else if message_type =? atoms cfg ATOM_NET_WM_DESKTOP then
        if l 0%nat =? Z.lnot 0 then SetClientSticky np true
        else
          call_controller np 0;;
          when ((0 <=? l 0%nat) && (l 0%nat <? desktopCount cfg))
            (update np (fun c =>
               ClientNode.set_status
                 (flag_clear (ClientNode.status c) STAT_STICKY) c);;
             SetClientDesktop np (l 0%nat))
      else if message_type =? atoms cfg ATOM_NET_CLOSE_WINDOW then
        ext "DeleteClient" [np]
      else if message_type =? atoms cfg ATOM_NET_MOVERESIZE_WINDOW then
        HandleNetMoveResize event np
      else if message_type =? atoms cfg ATOM_NET_WM_STATE then
        HandleNetWMState event np
      else ext "Debug" [message_type]
  | None =>
      if XClientMessageEvent.window event =? rootWindow cfg then
        if message_type =? atoms cfg ATOM_JWM_RESTART then Restart
        else if message_type =? atoms cfg ATOM_JWM_EXIT then Exit
        else if message_type =? atoms cfg ATOM_NET_CURRENT_DESKTOP then
          ext "ChangeDesktop" [l 0%nat]
        else ext "Debug" [message_type]
      else if message_type =? atoms cfg ATOM_NET_SYSTEM_TRAY_OPCODE then
        ext "HandleDockEvent" [XClientMessageEvent.window event]
      else mret tt
  end.

(** *** [HandleMotionNotify] (lines 865-887) *)

Definition HandleMotionNotify (event : XMotionEvent.t) : M unit :=
  if XMotionEvent.is_hint event then mret tt
  else
    SetMousePosition (XMotionEvent.x_root event) (XMotionEvent.y_root event);;
    found ← FindClientByParent (XMotionEvent.window event);
    match found with
    | Some np =>
        c ← deref np;
        if flag_test (ClientNode.border c) BORDER_OUTLINE then
          let action :=
            GetBorderActionType E c (XMotionEvent.x event)
              (XMotionEvent.y event) in
          if negb (ClientNode.borderAction c =? action) then
            update np (ClientNode.set_borderAction action);;
            call (JXDefineCursor (ClientNode.parent c)
                    (GetFrameCursor E action))
          else mret tt
        else mret tt
    | None => mret tt
    end.

(** *** [HandleShapeEvent] and [HandleColormapChange] (lines 892-917) *)

Definition HandleShapeEvent (win : Z) : M unit :=
  found ← FindClientByWindow win;
  match found with
  | Some np => ext "SetShape" [np]
  | None => mret tt
  end.

Definition HandleColormapChange (event : XColormapEvent.t) : M unit :=
  if XColormapEvent.new event then
    found ← FindClientByWindow (XColormapEvent.window event);
    match found with
    | Some np =>
        update np (ClientNode.set_cmap (XColormapEvent.colormap event));;
        ext "UpdateClientColormap" [np]
    | None => mret tt
    end
  else mret tt.

(** *** [HandleMapRequest] (lines 921-961) *)

Definition HandleMapRequest (event : XMapEvent.t) : M unit :=
  w ← get;
  ext "CheckSwallowMap" [XMapEvent.window event];;
  if CheckSwallowMap_swallowed E w event then mret tt
  else
    found ← FindClientByWindow (XMapEvent.window event);
    match found with
    | None =>
        call JXSync;;
        call JXGrabServer;;
        added ← AddClientWindow (XMapEvent.window event);
        match added with
        | Some np => focus_on_click np
        | None => call (JXMapWindow (XMapEvent.window event))
        end;;
        call JXSync;;
        call JXUngrabServer
    | Some np =>
        c ← deref np;
        when (negb (flag_test (ClientNode.status c) STAT_MAPPED))
          (update np (fun c =>
             ClientNode.set_status
               (flag_clear
                  (flag_clear (flag_set (ClientNode.status c) STAT_MAPPED)
                     STAT_MINIMIZED) STAT_SDESKTOP) c);;
           call (JXMapWindow (ClientNode.window c));;
           call (JXMapWindow (ClientNode.parent c));;
           ext "RaiseClient" [np];;
           focus_on_click np;;
           ext "UpdateTaskBar" [];;
           ext "UpdatePager" [])
    end;;
    ext "RestackClients" [].

(** *** [HandleDestroyNotify] (lines 1005-1028) *)

Definition HandleDestroyNotify (event : XDestroyWindowEvent.t) : M bool :=
  found ← FindClientByWindow (XDestroyWindowEvent.window event);
  match found with
  | Some np =>
      c ← deref np;
      if ClientNode.window c =? XDestroyWindowEvent.window event then
        call_controller np 1;;
        RemoveClient np;;
        mret true
      else mret false
  | None => HandleDockDestroy (XDestroyWindowEvent.window event)
  end.

(** *** [HandleUnmapNotify] (lines 965-1001) *)

Definition HandleUnmapNotify (event : XUnmapEvent.t) : M unit :=
  found ← FindClientByWindow (XUnmapEvent.window event);
  match found with
  | Some np =>
      c ← deref np;
      if ClientNode.window c =? XUnmapEvent.window event then
        queued ← JXCheckTypedWindowEvent (ClientNode.window c) is_DestroyNotify;
        match queued with
        | Some (DestroyNotify e) => _ ← HandleDestroyNotify e; mret tt
        | Some _ => mret tt
        | None =>
            call_controller np 1;;
            c ← deref np;
            when (flag_test (ClientNode.status c) STAT_MAPPED)
              (update np (fun c =>
                 ClientNode.set_status
                   (flag_clear (ClientNode.status c) STAT_MAPPED) c);;
               call (JXUnmapWindow (ClientNode.parent c));;
               ext "WriteState" [np];;
               ext "UpdateTaskBar" [];;
               ext "UpdatePager" [])
        end
      else mret tt
  | None => _ ← HandleDockDestroy (XUnmapEvent.window event); mret tt
  end.

(** *** [ProcessEvent] (lines 195-224) *)

(** The loop of line 212: every successful check overwrites [*event]. *)
Fixpoint ProcessEvent_drain (fuel : nat) (event : XEvent) : M XEvent :=
  match fuel with
  | O => mret event
  | S fuel' =>
      r ← JXCheckTypedEvent is_MotionNotify;
      match r with
      | Some e => ProcessEvent_drain fuel' e
      | None => mret event
      end
  end.

Definition ProcessEvent (event : XEvent) : M unit :=
  match event with
  | ButtonEvent e => HandleButtonEvent e
  | KeyPress e => HandleKeyPress e
  | EnterNotify e => HandleEnterNotify e
  | LeaveNotify e => HandleLeaveNotify e
  | MotionNotify _ =>
      w ← get;
      event ← ProcessEvent_drain (length (queue w)) event;
      match event with
      | MotionNotify e => HandleMotionNotify e
      | _ => mret tt
      end
  | DestroyNotify _ | Expose _ | KeyRelease _ | ConfigureNotify _ => mret tt
  | _ => ext "Debug" []
  end.

(** *** [WaitForEvent] (lines 63-165) *)

(** The switch of lines 88-148: the handler of the event and the value it
    leaves in [handled]. *)
Definition WaitForEvent_switch (event : XEvent) : M bool :=
  match event with
  | ConfigureRequest e => HandleConfigureRequest e;; mret true
  | MapRequest e => HandleMapRequest e;; mret true
  | PropertyNotify e => HandlePropertyNotify e
  | ClientMessage e => HandleClientMessage e;; mret true
  | UnmapNotify e => HandleUnmapNotify e;; mret true
  | Expose e => HandleExpose e
  | ColormapNotify e => HandleColormapChange e;; mret true
  | DestroyNotify e => HandleDestroyNotify e
  | SelectionClear win => HandleSelectionClear win
  | ResizeRequest win =>
      w ← get;
      ext "HandleDockResizeRequest" [win];;
      mret (HandleDockResizeRequest_handled E w win)
  | MotionNotify e =>
      SetMousePosition (XMotionEvent.x_root e) (XMotionEvent.y_root e);;
      mret false
  | ConfigureNotify _ | CreateNotify _ | MapNotify _ | ReparentNotify _
  | GraphicsExpose _ | NoExpose _ => mret true
  | ShapeEvent win =>
      if USE_SHAPE cfg && haveShape cfg then HandleShapeEvent win;; mret true
      else mret false
  | _ => mret false
  end.

(** The chain of lines 150-161: an event no handler took is offered to the
    tray, the dialogs, the swallowed windows and the popups, in this order. *)
Definition WaitForEvent_chain (event : XEvent) (handled : bool) : M bool :=
  let offer (name : string) (answer : World -> XEvent -> bool)
      (handled : bool) : M bool :=
    if handled then mret true
    else w ← get; ext name [];; mret (answer w event) in
  handled ← offer "ProcessTrayEvent" (ProcessTrayEvent_handled E) handled;
  handled ← offer "ProcessDialogEvent" (ProcessDialogEvent_handled E) handled;
  handled ← offer "ProcessSwallowEvent" (ProcessSwallowEvent_handled E) handled;
  offer "ProcessPopupEvent" (ProcessPopupEvent_handled E) handled.

(** The body of the do-while loop once an event is pending: the event read
    by [JXNextEvent] and the final value of [handled]. *)
Definition WaitForEvent_body (event : XEvent) (rest : list XEvent) : M bool :=
  Signal;;
  modify (with_queue rest);;
  handled ← WaitForEvent_switch event;
  WaitForEvent_chain event handled.

(** The loop.  With no event pending the C code waits in [select]; the
    queue of the model holds every event that will arrive, so the wait
    does not end and the result is [None].  Otherwise the loop runs its
    body and goes round again while [handled && !shouldExit]; when it
    stops, [*event] is the event read last. *)
Fixpoint WaitForEvent_loop (fuel : nat) : M (option XEvent) :=
  match fuel with
  | O => mret None
  | S fuel' =>
      w ← get;
      match queue w with
      | [] => mret None
      | event :: rest =>
          handled ← WaitForEvent_body event rest;
          w' ← get;
          if handled && negb (shouldExit w') then WaitForEvent_loop fuel'
          else mret (Some event)
      end
  end.

Definition WaitForEvent : M (option XEvent) :=
  w ← get;
  WaitForEvent_loop (S (length (queue w))).

End Handlers.

(** What [HandleNetWMState] does to the record of its client
    ([HandleNetWMState_exec] below). *)
Definition HandleNetWMState_client (cfg : Config)
  (event : XClientMessageEvent.t) (c : ClientNode.t) : ClientNode.t :=
  let '(actionMaximize, actionStick, actionShade) :=
    HandleNetWMState_actions cfg event in
  let action := XClientMessageEvent.l event 0 in
  let flip (mask s : Z) : Z :=
    if flag_test s mask then flag_clear s mask else flag_set s mask in
  let s := ClientNode.status c in
  if action =? 0 then
    let s := if actionStick then flag_clear s STAT_STICKY else s in
    let s :=
      if actionMaximize && flag_test s STAT_MAXIMIZED
      then flip STAT_MAXIMIZED s else s in
    let s := if actionShade then flag_clear s STAT_SHADED else s in
    ClientNode.set_status s c
  else if action =? 1 then
    let s := if actionStick then flag_set s STAT_STICKY else s in
    let s :=
      if actionMaximize && negb (flag_test s STAT_MAXIMIZED)
      then flip STAT_MAXIMIZED s else s in
    let s := if actionShade then flag_set s STAT_SHADED else s in
    ClientNode.set_status s c
  else if action =? 2 then
    let s := if actionStick then flip STAT_STICKY s else s in
    let s := if actionMaximize then flip STAT_MAXIMIZED s else s in
    let s := if actionShade then flip STAT_SHADED s else s in
    ClientNode.set_status s c
  else c.

(** The same, bit by bit: what a state request with action code [action]
    makes of a status bit with value [b], when the request names the flag
    of that bit ([named]) and when it does not. *)
Definition NetWMState_bit (action : Z) (named : bool) (b : bool) : bool :=
  if named then
    if action =? 0 then false
    else if action =? 1 then true
    else if action =? 2 then negb b
    else b
  else b.

(** Whether the request names the flag at bit [i] of the status word. *)
Definition NetWMState_named (cfg : Config) (event : XClientMessageEvent.t)
  (i : Z) : bool :=
  let '(actionMaximize, actionStick, actionShade) :=
    HandleNetWMState_actions cfg event in
  (actionStick && bool_decide (i = 4))
  || (actionMaximize && bool_decide (i = 2))
  || (actionShade && bool_decide (i = 7)).

(** The merge of a configure request as the specification words it: the
    fields flagged as present are taken from the request, the others stay. *)
Definition configure_merge_spec (event : XConfigureRequestEvent.t)
  (c : ClientNode.t) : ClientNode.t :=
  let mask := XConfigureRequestEvent.value_mask event in
  let pick (flag requested current : Z) : Z :=
    if flag_test mask flag then requested else current in
  ClientNode.set_y
    (pick CWY (XConfigureRequestEvent.y event) (ClientNode.y c))
    (ClientNode.set_x
       (pick CWX (XConfigureRequestEvent.x event) (ClientNode.x c))
       (ClientNode.set_height
          (pick CWHeight (XConfigureRequestEvent.height event)
             (ClientNode.height c))
          (ClientNode.set_width
             (pick CWWidth (XConfigureRequestEvent.width event)
                (ClientNode.width c)) c))).

(** The record [ConstrainSize] leaves. *)
Definition constrained (E : Externals) (c : ClientNode.t) : ClientNode.t :=
  ClientNode.set_height (ConstrainSize_size E c).2
    (ClientNode.set_width (ConstrainSize_size E c).1 c).

(** The log entry of [(np->controller)(wasDestroyed)] for a client with
    record [c]: none when the pointer is not set. *)
Definition controller_log (c : ClientNode.t) (np wasDestroyed : Z)
  : list Call :=
  if ClientNode.controller c then [Controller np wasDestroyed] else [].



Definition maximized (np : Z) (log : list Call) : bool :=
  existsb
    (fun c =>
       match c with
       | Ext name [n] => String.eqb name "MaximizeClient" && (n =? np)
       | _ => false
       end) log.

(** A press of a button on the move area of the border of the client
    [np], as the dispatcher finds it in the world [w]: the border action
    that [GetBorderActionType] answers for the record of [np] in [w], at
    the coordinates of the event, is a move. *)
Definition press_on_move (E : Externals) (w : World) (np : Z)
  (event : XButtonEvent.t) : Prop :=
  XButtonEvent.type event = ButtonPress
  /\ Z.land (GetBorderActionType E (clients w !!! np)
               (XButtonEvent.x event) (XButtonEvent.y event)) 15 = BA_MOVE.

(** The second press lies within the double-click thresholds of the first:
    the time stamps differ by more than 0 and at most the configured speed,
    each coordinate by at most the configured tolerance. *)
Definition within_thresholds (cfg : Config) (e1 e2 : XButtonEvent.t) : Prop :=
  0 < Z.abs (XButtonEvent.time e2 - XButtonEvent.time e1)
    <= doubleClickSpeed cfg
  /\ Z.abs (XButtonEvent.x e2 - XButtonEvent.x e1) <= doubleClickDelta cfg
  /\ Z.abs (XButtonEvent.y e2 - XButtonEvent.y e1) <= doubleClickDelta cfg.


(** The log of the calls that raise a client and, under the click policy,
    focus it. *)
Definition raise_log (cfg : Config) (np : Z) : list Call :=
  Ext "RaiseClient" [np]
  :: if bool_decide (focusModel cfg = FOCUS_CLICK)
     then [Ext "FocusClient" [np]] else [].

(** The interactive move that [HandleButtonEvent] starts for a press on
    the move area of the client [np] in the world [w] is rejected: this is
    what [MoveClient] answers when it is called, the client raised. *)
Definition move_rejected (cfg : Config) (E : Externals) (w : World) (np : Z)
  (event : XButtonEvent.t) : Prop :=
  MoveClient_moved E (with_trace (trace w ++ raise_log cfg np) w) np
    (XButtonEvent.x event) (XButtonEvent.y event) = false.

(** The claim on windows as the specification states it: a first press on
    the move area of one window that arms the tracker, followed within the
    thresholds by a press on the move area of another window, does not
    maximize the second window. *)
Definition per_window_claim (cfg : Config) (E : Externals) (w : World)
  (e1 e2 : XButtonEvent.t) : Prop :=
  forall np1 np2,
    frames w !! XButtonEvent.window e1 = Some np1 ->
    frames w !! XButtonEvent.window e2 = Some np2 ->
    is_Some (clients w !! np1) -> is_Some (clients w !! np2) ->
    np1 <> np2 ->
    XButtonEvent.button e1 = Button1 -> XButtonEvent.button e2 = Button1 ->
    press_on_move E w np1 e1 ->
    press_on_move E (exec (HandleButtonEvent cfg E e1) w) np2 e2 ->
    doubleClickActive w = false ->
    move_rejected cfg E w np1 e1 ->
    within_thresholds cfg e1 e2 ->
    maximized np2
      (trace (exec (HandleButtonEvent cfg E e1;; HandleButtonEvent cfg E e2) w))
    = false.

(** The motion event that is the most recent among [e0] and the queue [q],
    among all windows and among the events for the window [win]. *)
Definition last_motion (e0 : XMotionEvent.t) (q : list XEvent)
  : XMotionEvent.t :=
  fold_left
    (fun acc e => match e with MotionNotify m => m | _ => acc end) q e0.

Definition last_motion_for (win : Z) (e0 : XMotionEvent.t) (q : list XEvent)
  : XMotionEvent.t :=
  fold_left
    (fun acc e =>
       match e with
       | MotionNotify m => if XMotionEvent.window m =? win then m else acc
       | _ => acc
       end) q e0.

(** The queue without its motion events. *)
Definition without_motion (q : list XEvent) : list XEvent :=
  List.filter (fun e => negb (is_MotionNotify e)) q.

(** The claim on motion events as the specification states it: the motion
    event that is dispatched is the most recent one for the window of the
    event that was read. *)
Definition motion_claim (cfg : Config) (E : Externals)
  (e0 : XMotionEvent.t) (w : World) : Prop :=
  exec (ProcessEvent cfg E (MotionNotify e0)) w
  = exec (HandleMotionNotify E
            (last_motion_for (XMotionEvent.window e0) e0 (queue w)))
      (with_queue (without_motion (queue w)) w).

(** The claim on unflagged fields of a move-resize request as the
    specification states it: a geometry field whose flag bit is unset keeps
    its value. *)
Definition moveresize_claim (E : Externals) (event : XClientMessageEvent.t)
  (np : Z) (w : World) : Prop :=
  forall c, clients w !! np = Some c ->
    let flags := Z.shiftr (XClientMessageEvent.l event 0) 8 in
    let c' := clients (exec (HandleNetMoveResize E event np) w) !!! np in
    (flag_test flags (Z.shiftl 1 0) = false -> ClientNode.x c' = ClientNode.x c)
    /\ (flag_test flags (Z.shiftl 1 1) = false ->
        ClientNode.y c' = ClientNode.y c)
    /\ (flag_test flags (Z.shiftl 1 2) = false ->
        ClientNode.width c' = ClientNode.width c)
    /\ (flag_test flags (Z.shiftl 1 3) = false ->
        ClientNode.height c' = ClientNode.height c).

(** The claim on an unmap notification followed by a queued destroy
    notification as the specification states it: with a destroy
    notification for the window of the client at the head of the queue, the
    unmap notification is handled as one destroy: the client is removed,
    the destroy notification is taken off the queue and nothing is sent to
    the display. *)
Definition unmap_destroy_claim (E : Externals) (event : XUnmapEvent.t)
  (d : XDestroyWindowEvent.t) (w : World) : Prop :=
  let np := XUnmapEvent.window event in
  forall c rest,
    clients w !! np = Some c ->
    ClientNode.window c = np ->
    queue w = DestroyNotify d :: rest ->
    XDestroyWindowEvent.window d = np ->
    let after := exec (HandleUnmapNotify E event) w in
    clients after !! np = None
    /\ queue after = rest
    /\ filter is_display_call (trace after)
       = filter is_display_call (trace w).

(** The values of an [int]. *)
Definition int_range (z : Z) : Prop := - 2 ^ 31 <= z < 2 ^ 31.

(** The claim on the event loop as the specification states it: the loop
    ends after an event exactly when the shutdown flag is set and the event
    was unclaimed, and goes round again under any other combination. *)
Definition loop_claim (cfg : Config) (E : Externals) (w : World) : Prop :=
  forall event rest, queue w = event :: rest ->
    let handled := eval (WaitForEvent_body cfg E event rest) w in
    let w1 := exec (WaitForEvent_body cfg E event rest) w in
    if negb handled && shouldExit w1
    then WaitForEvent cfg E w = (Some event, w1)
    else WaitForEvent cfg E w = WaitForEvent cfg E w1.

(** The calls logged by a wheel-button event on the decoration window of the
    client [np]: the raise, the focus under the click policy, the call
    [name] and the update of the pager. *)
Definition wheel_log (cfg : Config) (np : Z) (name : string) : list Call :=
  raise_log cfg np ++ [Ext name [np]; Ext "UpdatePager" []].

(** [wp m w Q]: the computation [m], run in the world [w], returns a value
    and leaves a world that satisfy [Q]. *)
Definition wp {A} (m : M A) (w : World) (Q : A -> World -> Prop) : Prop :=
  Q (eval m w) (exec m w).

(** ** Sample data

    A configuration, a set of answers of the other modules and a world with
    one client, used to run the handlers on concrete inputs. *)

Definition sample_atoms (a : AtomType) : Z :=
  match a with
  | ATOM_WM_CHANGE_STATE => 100
  | ATOM_WM_COLORMAP_WINDOWS => 101
  | ATOM_NET_WM_ICON => 102
  | ATOM_NET_WM_NAME => 103
  | ATOM_NET_WM_STRUT_PARTIAL => 104
  | ATOM_NET_WM_STRUT => 105
  | ATOM_NET_ACTIVE_WINDOW => 106
  | ATOM_NET_WM_DESKTOP => 107
  | ATOM_NET_CLOSE_WINDOW => 108
  | ATOM_NET_MOVERESIZE_WINDOW => 109
  | ATOM_NET_WM_STATE => 110
  | ATOM_NET_WM_STATE_STICKY => 111
  | ATOM_NET_WM_STATE_MAXIMIZED_VERT => 112
  | ATOM_NET_WM_STATE_MAXIMIZED_HORZ => 113
  | ATOM_NET_WM_STATE_SHADED => 114
  | ATOM_NET_CURRENT_DESKTOP => 115
  | ATOM_NET_SYSTEM_TRAY_OPCODE => 116
  | ATOM_WIN_STATE => 117
  | ATOM_WIN_LAYER => 118
  | ATOM_JWM_RESTART => 119
  | ATOM_JWM_EXIT => 120
  end.

(** Root window 1 of 1024x768, borders of 4 pixels under a title of 20,
    double clicks within 400 ms and 2 pixels, four desktops. *)
Definition sample_cfg : Config :=
  mkConfig 1 1024 768 4 20 400 2 4 FOCUS_CLICK false false sample_atoms.

(** Answers: the pointer is always over the move area of a border, the
    insets are those of a titled outline, the gravity delta is given by
    [delta], sizes are accepted as they are, and an interactive move is
    rejected unless [moved] says otherwise. *)
Definition sample_ext (delta : Z * Z) (moved : World -> bool) : Externals :=
  mkExternals
    (fun _ _ _ => BA_MOVE)
    (fun _ => (24, 4, 4, 4))
    (fun _ => delta)
    (fun c => (ClientNode.width c, ClientNode.height c))
    (fun action => action)
    (fun _ => 0)
    (fun now last => now - last)
    (fun _ => None)
    (fun w _ _ _ => moved w)
    (fun _ _ _ _ => false)
    (fun _ _ => false)
    (fun _ _ => None)
    (fun _ _ => false)
    (fun _ _ => false)
    (fun _ _ => false)
    (fun _ _ => false)
    (fun _ _ => false)
    (fun _ _ => false)
    (fun _ _ => false).

(** The same answers, except that the border action depends on the
    decoration of the client: the pointer is over the move area of a client
    that has a title bar, and over no action of a client that has none. *)
Definition sample_ext_titled (moved : World -> bool) : Externals :=
  mkExternals
    (fun c _ _ =>
       if flag_test (ClientNode.border c) BORDER_TITLE then BA_MOVE
       else BA_NONE)
    (fun _ => (24, 4, 4, 4))
    (fun _ => (0, 0))
    (fun c => (ClientNode.width c, ClientNode.height c))
    (fun action => action)
    (fun _ => 0)
    (fun now last => now - last)
    (fun _ => None)
    (fun w _ _ _ => moved w)
    (fun _ _ _ _ => false)
    (fun _ _ => false)
    (fun _ _ => None)
    (fun _ _ => false)
    (fun _ _ => false)
    (fun _ _ => false)
    (fun _ _ => false)
    (fun _ _ => false)
    (fun _ _ => false)
    (fun _ _ => false).

(** A client with primary window [win] and decoration window [win + 1], at
    (10,10) with size 200x150, with the given status word. *)
Definition sample_client (win : Z) (status : Z) : ClientNode.t :=
  ClientNode.mk win (win + 1) 10 10 200 150 1 status
    (Z.lor BORDER_OUTLINE BORDER_TITLE) 0 BA_NONE 0 false.

(** A world with the given clients and queue, and nothing else. *)
Definition sample_world (cs : list ClientNode.t) (q : list XEvent) : World :=
  mkWorld
    (list_to_map (map (fun c => (ClientNode.window c, c)) cs))
    (list_to_map (map (fun c => (ClientNode.parent c, ClientNode.window c)) cs))
    q false (0, 0) 0 0 0 0 0 false [].

(** A state request for client 10 naming the sticky, the maximized and the
    shaded state with the given action code. *)
Definition sample_state_request (action : Z) (first second : AtomType)
  : XClientMessageEvent.t :=
  XClientMessageEvent.mk 10 (sample_atoms ATOM_NET_WM_STATE)
    [action; sample_atoms first; sample_atoms second; 0; 0].

(** A configure request for window 10 that gives only a width of 300. *)
Definition sample_configure_request : XConfigureRequestEvent.t :=
  XConfigureRequestEvent.mk 1 10 0 0 300 0 0 0 0 CWWidth.

(** A press of button 1 on the decoration window [win], at (5,5) of that
    window, at the time [time]. *)
Definition sample_press (win time : Z) : XButtonEvent.t :=
  XButtonEvent.mk ButtonPress win time 5 5 0 Button1.

(** A motion event for the window [win] with the pointer at ([x],[y]), in
    window and in root coordinates alike. *)
Definition sample_motion (win x y : Z) : XMotionEvent.t :=
  XMotionEvent.mk win x y x y false.

(** A move-resize request for client 10 with the gravity code [gravity],
    the field flags [flags] (bit 0 for x .. bit 3 for height) and the
    geometry ([x], [y], [width], [height]). *)
Definition sample_moveresize (gravity flags x y width height : Z)
  : XClientMessageEvent.t :=
  XClientMessageEvent.mk 10 (sample_atoms ATOM_NET_MOVERESIZE_WINDOW)
    [Z.lor gravity (Z.shiftl flags 8); x; y; width; height].

(** The unmap and the destroy notification that the window [win] itself
    reports. *)
Definition sample_unmap (win : Z) : XUnmapEvent.t := XUnmapEvent.mk win win.

Definition sample_destroy (win : Z) : XDestroyWindowEvent.t :=
  XDestroyWindowEvent.mk win win.

(** A desktop-assignment message for client 10 with the given value. *)
Definition sample_desktop_message (value : Z) : XClientMessageEvent.t :=
  XClientMessageEvent.mk 10 (sample_atoms ATOM_NET_WM_DESKTOP)
    [value; 0; 0; 0; 0].

(** A button event of the given type and button on the decoration window of
    client 10. *)
Definition sample_wheel (type : ButtonEventType) (button : Z)
  : XButtonEvent.t :=
  XButtonEvent.mk type 11 0 5 5 0 button.

(** ** Further notions used by the properties of the other handlers *)

(** The event [DiscardMotionEvents] hands back for the window [win]: the
    most recent queued motion event for that window, or [event] when the
    queue has none. *)
Definition last_motion_event (win : Z) (event : XEvent) (q : list XEvent)
  : XEvent :=
  fold_left
    (fun acc e =>
       match e with
       | MotionNotify m => if XMotionEvent.window m =? win then e else acc
       | _ => acc
       end) q event.

(** The root coordinates of the most recent queued motion event, for
    whatever window, or [pos] when the queue has none. *)
Definition last_pointer (pos : Z * Z) (q : list XEvent) : Z * Z :=
  fold_left
    (fun acc e =>
       match e with
       | MotionNotify m => (XMotionEvent.x_root m, XMotionEvent.y_root m)
       | _ => acc
       end) q pos.

(** A world with the given clients and queue in which the clock shows
    [time]. *)
Definition sample_world_at (time : Z) (cs : list ClientNode.t)
  (q : list XEvent) : World :=
  mkWorld
    (list_to_map (map (fun c => (ClientNode.window c, c)) cs))
    (list_to_map (map (fun c => (ClientNode.parent c, ClientNode.window c)) cs))
    q false (0, 0) time 0 0 0 0 false [].

(** No destroy notification reported for the window [win] is queued. *)
Definition no_destroy_queued (win : Z) (q : list XEvent) : Prop :=
  Forall (fun e => is_DestroyNotify e && (xany_window e =? win) = false) q.

(** The calls of the unmap path for a client with record [c]: made when the
    client is mapped. *)
Definition unmap_log (c : ClientNode.t) (np : Z) : list Call :=
  if flag_test (ClientNode.status c) STAT_MAPPED
  then [JXUnmapWindow (ClientNode.parent c); Ext "WriteState" [np];
        Ext "UpdateTaskBar" []; Ext "UpdatePager" []]
  else [].

(** The calls with which [HandleMapRequest] maps a client it knows, with
    record [c]: made when the client is not mapped. *)
Definition map_log (cfg : Config) (c : ClientNode.t) (np : Z) : list Call :=
  if flag_test (ClientNode.status c) STAT_MAPPED then []
  else [JXMapWindow (ClientNode.window c); JXMapWindow (ClientNode.parent c)]
       ++ raise_log cfg np ++ [Ext "UpdateTaskBar" []; Ext "UpdatePager" []].

(** The status word [HandleMapRequest] leaves to a client it knows. *)
Definition mapped_status (status : Z) : Z :=
  if flag_test status STAT_MAPPED then status
  else flag_clear (flag_clear (flag_set status STAT_MAPPED) STAT_MINIMIZED)
         STAT_SDESKTOP.

(** How deep a log leaves the display server grabbed: the calls of
    [XGrabServer] less those of [XUngrabServer]. *)
Definition grab_delta (c : Call) : Z :=
  match c with
  | JXGrabServer => 1
  | JXUngrabServer => -1
  | _ => 0
  end.

Definition grab_depth (log : list Call) : Z :=
  foldr (fun c depth => grab_delta c + depth) 0 log.

(** A map request and an unmap notification for the window [win]. *)
Definition sample_map (win : Z) : XMapEvent.t := XMapEvent.mk win win.

(** The statics of [DispatchBorderButtonEvent]: the recorded click and
    whether it is armed. *)
Definition click_tracker (w : World) : Z * Z * Z * bool :=
  (lastClickTime w, lastX w, lastY w, doubleClickActive w).

(** The border action under the pointer of a button event, for the client
    [np]: the low four bits of what [GetBorderActionType] answers. *)
Definition border_action (E : Externals) (w : World) (np : Z)
  (event : XButtonEvent.t) : Z :=
  Z.land (GetBorderActionType E (clients w !!! np)
            (XButtonEvent.x event) (XButtonEvent.y event)) 15.

(** Answers that place the pointer over the border action [action] and are
    those of [sample_ext] otherwise. *)
Definition sample_ext_on (action : Z) : Externals :=
  mkExternals
    (fun _ _ _ => action)
    (fun _ => (24, 4, 4, 4))
    (fun _ => (0, 0))
    (fun c => (ClientNode.width c, ClientNode.height c))
    (fun action => action)
    (fun _ => 0)
    (fun now last => now - last)
    (fun _ => None)
    (fun _ _ _ _ => false)
    (fun _ _ _ _ => false)
    (fun _ _ => false)
    (fun _ _ => None)
    (fun _ _ => false)
    (fun _ _ => false)
    (fun _ _ => false)
    (fun _ _ => false)
    (fun _ _ => false)
    (fun _ _ => false)
    (fun _ _ => false).

(** A release of button 1 on the decoration window [win]. *)
Definition sample_release (win time : Z) : XButtonEvent.t :=
  XButtonEvent.mk ButtonRelease win time 5 5 0 Button1.

(** Whether a state request names a state that [HandleNetWMState] knows. *)
Definition names_known_state (cfg : Config) (l : Z) : Prop :=
  l = atoms cfg ATOM_NET_WM_STATE_STICKY
  \/ l = atoms cfg ATOM_NET_WM_STATE_MAXIMIZED_VERT
  \/ l = atoms cfg ATOM_NET_WM_STATE_MAXIMIZED_HORZ
  \/ l = atoms cfg ATOM_NET_WM_STATE_SHADED.

(** A message of the legacy state protocol for client 10. *)
Definition sample_win_state (mask flags : Z) : XClientMessageEvent.t :=
  XClientMessageEvent.mk 10 (sample_atoms ATOM_WIN_STATE)
    [mask; flags; 0; 0; 0].

(** The calls of [FocusClient] in a log. *)
Definition focus_calls (log : list Call) : list Call :=
  List.filter
    (fun c => match c with
              | Ext name _ => String.eqb name "FocusClient"
              | _ => false
              end) log.

(** A crossing event for the window [win]. *)
Definition sample_crossing (win : Z) : XCrossingEvent.t :=
  XCrossingEvent.mk win 5 5 105 205.

(** The configuration [sample_cfg] under the sloppy focus policy. *)
Definition sample_cfg_sloppy : Config :=
  mkConfig 1 1024 768 4 20 400 2 4 FOCUS_SLOPPY false false sample_atoms.


(** A client that is a dialog of the window manager. *)
Definition sample_dialog : ClientNode.t :=
  sample_client 10 (Z.lor STAT_MAPPED STAT_WMDIALOG).

(** The key actions that act on the active client. *)
Definition client_keys : list Z :=
  [KEY_CLOSE; KEY_SHADE; KEY_MOVE; KEY_RESIZE; KEY_MIN; KEY_MAX; KEY_WIN].

(** Answers that bind every key to the action [key] and are those of
    [sample_ext] otherwise. *)
Definition sample_ext_key (key : Z) : Externals :=
  mkExternals
    (fun _ _ _ => BA_MOVE)
    (fun _ => (24, 4, 4, 4))
    (fun _ => (0, 0))
    (fun c => (ClientNode.width c, ClientNode.height c))
    (fun action => action)
    (fun _ => key)
    (fun now last => now - last)
    (fun _ => None)
    (fun _ _ _ _ => false)
    (fun _ _ _ _ => false)
    (fun _ _ => false)
    (fun _ _ => None)
    (fun _ _ => false)
    (fun _ _ => false)
    (fun _ _ => false)
    (fun _ _ => false)
    (fun _ _ => false)
    (fun _ _ => false)
    (fun _ _ => false).

(** * Properties *)

(** ** Flag words *)

Section Flags.

Variable k : Z.
Hypothesis k_nonneg : 0 <= k.

Lemma testbit_flag (i : Z) :
  0 <= i -> Z.testbit (Z.shiftl 1 k) i = bool_decide (i = k).
Proof.
  intros Hi. rewrite Z.shiftl_1_l, Z.pow2_bits_eqb by lia.
  case_bool_decide; [apply Z.eqb_eq | apply Z.eqb_neq]; lia.
Qed.

Lemma land_flag (s : Z) :
  Z.land s (Z.shiftl 1 k) = if Z.testbit s k then Z.shiftl 1 k else 0.
Proof.
  apply Z.bits_inj'. intros i Hi.
  rewrite Z.land_spec, testbit_flag by lia.
  case_bool_decide as Hik.
  - subst i. destruct (Z.testbit s k).
    + rewrite testbit_flag, bool_decide_eq_true_2 by lia. reflexivity.
    + rewrite Z.bits_0. reflexivity.
  - rewrite andb_false_r. destruct (Z.testbit s k).
    + rewrite testbit_flag, bool_decide_eq_false_2 by lia. reflexivity.
    + rewrite Z.bits_0. reflexivity.
Qed.

Lemma flag_test_testbit (s : Z) :
  flag_test s (Z.shiftl 1 k) = Z.testbit s k.
Proof.
  unfold flag_test. rewrite land_flag. destruct (Z.testbit s k).
  - rewrite Z.shiftl_1_l.
    assert (0 < 2 ^ k) by (apply Z.pow_pos_nonneg; lia).
    destruct (Z.eqb_spec (2 ^ k) 0); [lia | reflexivity].
  - reflexivity.
Qed.

Lemma testbit_flag_set (s i : Z) :
  0 <= i ->
  Z.testbit (flag_set s (Z.shiftl 1 k)) i = Z.testbit s i || bool_decide (i = k).
Proof.
  intros Hi. unfold flag_set. rewrite Z.lor_spec, testbit_flag by lia.
  reflexivity.
Qed.

Lemma testbit_flag_clear (s i : Z) :
  0 <= i ->
  Z.testbit (flag_clear s (Z.shiftl 1 k)) i
  = Z.testbit s i && negb (bool_decide (i = k)).
Proof.
  intros Hi. unfold flag_clear.
  rewrite Z.land_spec, Z.lnot_spec, testbit_flag by lia. reflexivity.
Qed.

Lemma flag_test_set (s : Z) : flag_test (flag_set s (Z.shiftl 1 k)) (Z.shiftl 1 k) = true.
Proof.
  rewrite flag_test_testbit, testbit_flag_set, bool_decide_eq_true_2 by lia.
  apply orb_true_r.
Qed.

Lemma flag_test_clear (s : Z) :
  flag_test (flag_clear s (Z.shiftl 1 k)) (Z.shiftl 1 k) = false.
Proof.
  rewrite flag_test_testbit, testbit_flag_clear, bool_decide_eq_true_2 by lia.
  apply andb_false_r.
Qed.

Lemma flag_set_already (s : Z) :
  flag_test s (Z.shiftl 1 k) = true -> flag_set s (Z.shiftl 1 k) = s.
Proof.
  rewrite flag_test_testbit. intros Hs. apply Z.bits_inj'. intros i Hi.
  rewrite testbit_flag_set by lia. case_bool_decide; subst.
  - rewrite Hs. reflexivity.
  - apply orb_false_r.
Qed.

Lemma flag_clear_already (s : Z) :
  flag_test s (Z.shiftl 1 k) = false -> flag_clear s (Z.shiftl 1 k) = s.
Proof.
  rewrite flag_test_testbit. intros Hs. apply Z.bits_inj'. intros i Hi.
  rewrite testbit_flag_clear by lia. case_bool_decide; subst.
  - rewrite Hs. reflexivity.
  - apply andb_true_r.
Qed.

Lemma flag_clear_set (s : Z) :
  flag_test s (Z.shiftl 1 k) = false ->
  flag_clear (flag_set s (Z.shiftl 1 k)) (Z.shiftl 1 k) = s.
Proof.
  rewrite flag_test_testbit. intros Hs. apply Z.bits_inj'. intros i Hi.
  rewrite testbit_flag_clear, testbit_flag_set by lia.
  case_bool_decide; subst.
  - rewrite Hs. reflexivity.
  - rewrite orb_false_r. apply andb_true_r.
Qed.

Lemma flag_set_clear (s : Z) :
  flag_test s (Z.shiftl 1 k) = true ->
  flag_set (flag_clear s (Z.shiftl 1 k)) (Z.shiftl 1 k) = s.
Proof.
  rewrite flag_test_testbit. intros Hs. apply Z.bits_inj'. intros i Hi.
  rewrite testbit_flag_set, testbit_flag_clear by lia.
  case_bool_decide; subst.
  - rewrite Hs. reflexivity.
  - rewrite andb_true_r. apply orb_false_r.
Qed.

Lemma flag_set_set (s : Z) :
  flag_set (flag_set s (Z.shiftl 1 k)) (Z.shiftl 1 k) = flag_set s (Z.shiftl 1 k).
Proof. apply flag_set_already, flag_test_set. Qed.

Lemma flag_clear_clear (s : Z) :
  flag_clear (flag_clear s (Z.shiftl 1 k)) (Z.shiftl 1 k)
  = flag_clear s (Z.shiftl 1 k).
Proof. apply flag_clear_already, flag_test_clear. Qed.

(** A flag is not disturbed by setting or clearing another one. *)
Lemma flag_test_set_other (s j : Z) :
  0 <= j -> j <> k ->
  flag_test (flag_set s (Z.shiftl 1 j)) (Z.shiftl 1 k)
  = flag_test s (Z.shiftl 1 k).
Proof.
  intros Hj Hjk. rewrite !flag_test_testbit. unfold flag_set.
  rewrite Z.lor_spec, Z.shiftl_1_l, Z.pow2_bits_eqb by lia.
  destruct (Z.eqb_spec j k); [lia | apply orb_false_r].
Qed.

Lemma flag_test_clear_other (s j : Z) :
  0 <= j -> j <> k ->
  flag_test (flag_clear s (Z.shiftl 1 j)) (Z.shiftl 1 k)
  = flag_test s (Z.shiftl 1 k).
Proof.
  intros Hj Hjk. rewrite !flag_test_testbit. unfold flag_clear.
  rewrite Z.land_spec, Z.lnot_spec, Z.shiftl_1_l, Z.pow2_bits_eqb by lia.
  destruct (Z.eqb_spec j k); [lia | apply andb_true_r].
Qed.

End Flags.

(** ** The monad and the registry *)

Lemma exec_bind {A B} (m : M A) (k : A -> M B) (w : World) :
  exec (m ≫= k) w = exec (k (eval m w)) (exec m w).
Proof. unfold exec, eval, mbind, M_bind. destruct (m w). reflexivity. Qed.

Lemma eval_bind {A B} (m : M A) (k : A -> M B) (w : World) :
  eval (m ≫= k) w = eval (k (eval m w)) (exec m w).
Proof. unfold exec, eval, mbind, M_bind. destruct (m w). reflexivity. Qed.

Lemma alter_absent {A} (f : A -> A) (i : Z) (m : gmap Z A) :
  m !! i = None -> alter f i m = m.
Proof.
  intros H. apply map_eq. intros j. rewrite lookup_alter.
  case_decide; subst; [rewrite H|]; reflexivity.
Qed.

(** *** Running a handler step by step *)

Lemma wp_bind {A B} (m : M A) (k : A -> M B) w Q :
  wp m w (fun a w' => wp (k a) w' Q) -> wp (m ≫= k) w Q.
Proof. unfold wp. rewrite eval_bind, exec_bind. auto. Qed.

Lemma wp_ret {A} (a : A) w (Q : A -> World -> Prop) :
  Q a w -> wp (mret a) w Q.
Proof. auto. Qed.

Lemma wp_get w (Q : World -> World -> Prop) : Q w w -> wp get w Q.
Proof. auto. Qed.

Lemma wp_modify f w (Q : unit -> World -> Prop) :
  Q tt (f w) -> wp (modify f) w Q.
Proof. auto. Qed.

Lemma wp_call c w (Q : unit -> World -> Prop) :
  Q tt (with_trace (trace w ++ [c]) w) -> wp (call c) w Q.
Proof. auto. Qed.

Lemma wp_ext name args w (Q : unit -> World -> Prop) :
  Q tt (with_trace (trace w ++ [Ext name args]) w) -> wp (ext name args) w Q.
Proof. auto. Qed.

Lemma wp_deref np w (Q : ClientNode.t -> World -> Prop) :
  Q (clients w !!! np) w -> wp (deref np) w Q.
Proof. auto. Qed.

Lemma wp_update np f w (Q : unit -> World -> Prop) :
  Q tt (with_clients (alter f np (clients w)) w) -> wp (update np f) w Q.
Proof. auto. Qed.

Lemma wp_when (b : bool) m w (Q : unit -> World -> Prop) :
  (if b then wp m w Q else Q tt w) -> wp (when b m) w Q.
Proof. destruct b; auto. Qed.

Lemma wp_FindClientByParent p w (Q : option Z -> World -> Prop) :
  Q (frames w !! p ≫= lookup_client w) w -> wp (FindClientByParent p) w Q.
Proof. auto. Qed.

Lemma wp_FindClientByWindow win w (Q : option Z -> World -> Prop) :
  Q (match lookup_client w win with
     | Some np => Some np
     | None => frames w !! win ≫= lookup_client w
     end) w ->
  wp (FindClientByWindow win) w Q.
Proof. auto. Qed.

Lemma wp_JXCheckTypedEvent type w (Q : option XEvent -> World -> Prop) :
  match take_first type (queue w) with
  | Some (e, q) => Q (Some e) (with_queue q w)
  | None => Q None w
  end ->
  wp (JXCheckTypedEvent type) w Q.
Proof.
  unfold wp, eval, exec, JXCheckTypedEvent.
  destruct (take_first type (queue w)) as [[e q]|]; auto.
Qed.

(** From a statement about the world a handler leaves to [wp]. *)
Lemma wp_exec {A} (m : M A) w (P : World -> Prop) :
  wp m w (fun _ w' => P w') -> P (exec m w).
Proof. auto. Qed.

Lemma wp_eval_exec {A} (m : M A) w (P : A -> World -> Prop) :
  wp m w P -> P (eval m w) (exec m w).
Proof. auto. Qed.

(** The fields of worlds and records given by their constructors. *)
Ltac wp_simpl :=
  unfold lookup_client;
  cbn [clients frames queue shouldExit mousePosition clock Signal_last
       lastClickTime lastX lastY doubleClickActive trace
       with_clients with_frames with_queue with_shouldExit with_mousePosition
       with_Signal_last with_click with_doubleClickActive with_trace
       ClientNode.window ClientNode.parent ClientNode.x ClientNode.y
       ClientNode.width ClientNode.height ClientNode.gravity
       ClientNode.status ClientNode.border ClientNode.desktop
       ClientNode.borderAction ClientNode.cmap ClientNode.controller
       ClientNode.set_x ClientNode.set_y ClientNode.set_width
       ClientNode.set_height ClientNode.set_status ClientNode.set_desktop
       ClientNode.set_borderAction ClientNode.set_cmap
       fst snd negb andb orb lookup_client];
  repeat (first [ rewrite alter_insert_eq
                | rewrite lookup_total_insert_eq
                | rewrite lookup_insert_eq
                | rewrite Z.eqb_refl
                | progress cbn [fmap option_fmap option_map mbind option_bind] ];
          cbn [clients frames queue shouldExit mousePosition clock Signal_last
               lastClickTime lastX lastY doubleClickActive trace
               with_clients with_frames with_queue with_shouldExit
               with_mousePosition with_Signal_last with_click
               with_doubleClickActive with_trace
               ClientNode.window ClientNode.parent ClientNode.x ClientNode.y
               ClientNode.width ClientNode.height ClientNode.gravity
               ClientNode.status ClientNode.border ClientNode.desktop
               ClientNode.borderAction ClientNode.cmap ClientNode.controller
               ClientNode.set_x ClientNode.set_y ClientNode.set_width
               ClientNode.set_height ClientNode.set_status
               ClientNode.set_desktop ClientNode.set_borderAction
               ClientNode.set_cmap
               fst snd negb andb orb lookup_client]).

(** One step of the run: the rule of the operation at the head. *)
Ltac wp_step :=
  lazymatch goal with
  | |- wp (mbind _ _) _ _ => apply wp_bind
  | |- wp (mret _) _ _ => apply wp_ret
  | |- wp get _ _ => apply wp_get
  | |- wp (modify _) _ _ => apply wp_modify
  | |- wp (call _) _ _ => apply wp_call
  | |- wp (ext _ _) _ _ => apply wp_ext
  | |- wp (deref _) _ _ => apply wp_deref
  | |- wp (update _ _) _ _ => apply wp_update
  | |- wp (when _ _) _ _ => apply wp_when
  | |- wp (FindClientByParent _) _ _ => apply wp_FindClientByParent
  | |- wp (FindClientByWindow _) _ _ => apply wp_FindClientByWindow
  | |- wp (JXCheckTypedEvent _) _ _ => apply wp_JXCheckTypedEvent
  | |- wp (JXCheckTypedWindowEvent _ _) _ _ =>
      unfold JXCheckTypedWindowEvent; apply wp_JXCheckTypedEvent
  | |- wp (call_controller _ _) _ _ => unfold call_controller
  | |- wp (SetClientSticky _ _) _ _ => unfold SetClientSticky
  | |- wp (MaximizeClient _) _ _ => unfold MaximizeClient
  | |- wp (ShadeClient _) _ _ => unfold ShadeClient
  | |- wp (UnshadeClient _) _ _ => unfold UnshadeClient
  | |- wp (SetClientDesktop _ _) _ _ => unfold SetClientDesktop
  | |- wp (RemoveClient _) _ _ => unfold RemoveClient
  | |- wp (SetMousePosition _ _) _ _ => unfold SetMousePosition
  | |- wp (ConstrainSize _ _) _ _ => unfold ConstrainSize
  | |- wp (MoveClient _ _ _ _) _ _ => unfold MoveClient
  | |- wp (ShowRootMenu _ _ _ _) _ _ => unfold ShowRootMenu
  | |- wp (HandleDockDestroy _ _) _ _ => unfold HandleDockDestroy
  | |- wp (focus_on_click _ _) _ _ => unfold focus_on_click
  end;
  wp_simpl.

Ltac wp_run := wp_simpl; repeat wp_step.

(** A case distinction on the test or the scrutinee at the head. *)
Ltac wp_split :=
  lazymatch goal with
  | |- wp (if ?b then _ else _) _ _ => destruct b eqn:?
  | |- wp (match ?x with _ => _ end) _ _ => destruct x eqn:?
  | |- if ?b then _ else _ => destruct b eqn:?
  | |- match ?x with _ => _ end => destruct x eqn:?
  end;
  wp_simpl.

Ltac wp_auto := wp_simpl; repeat first [wp_step | wp_split].

Lemma exec_MaximizeClient np w :
  exec (MaximizeClient np) w
  = with_clients (alter MaximizeClient_record np (clients w))
      (with_trace (trace w ++ [Ext "MaximizeClient" [np]]) w).
Proof. destruct w. reflexivity. Qed.

Lemma exec_ext name args w :
  exec (ext name args) w = with_trace (trace w ++ [Ext name args]) w.
Proof. reflexivity. Qed.

Ltac munfold :=
  cbv [mbind M_bind mret M_ret when deref update modify call ext get exec eval
       SetClientSticky MaximizeClient ShadeClient UnshadeClient SetClientDesktop].

Ltac mreduce :=
  cbn; repeat (first [rewrite alter_insert_eq | rewrite lookup_total_insert_eq]; cbn).

Ltac split_if :=
  match goal with
  | |- context [if ?b then _ else _] => destruct b eqn:?
  end.

Create Rewrite HintDb flag_bits.
#[local] Hint Rewrite flag_test_testbit testbit_flag_set testbit_flag_clear
  using lia : flag_bits.
#[local] Hint Rewrite bool_decide_eq_false_2 bool_decide_eq_true_2
  using lia : flag_bits.

(** Equality of two status words, bit by bit; the hypotheses give the bits
    of the initial word that matter. *)
Ltac flag_bits :=
  let i := fresh "i" in
  let Hi := fresh "Hi" in
  apply Z.bits_inj'; intros i Hi;
  autorewrite with flag_bits;
  repeat case_bool_decide; subst; try lia;
  repeat match goal with H : Z.testbit _ _ = _ |- _ => rewrite H end;
  cbn [andb orb negb];
  rewrite ?andb_true_r, ?orb_false_r; reflexivity.

(** ** State requests of the extended-hints protocol *)

Section NetWMState.
Variable cfg : Config.

Lemma HandleNetWMState_exec event np w :
  exists t,
  exec (HandleNetWMState cfg event np) w =
  with_trace (trace w ++ t)
    (with_clients (alter (HandleNetWMState_client cfg event) np (clients w)) w).
Proof.
  destruct w as [m fr q se mp ck sl lt lx ly da tr].
  unfold HandleNetWMState, HandleNetWMState_client.
  destruct (HandleNetWMState_actions _ _) as [[mx st] sh].
  destruct (m !! np) as [c|] eqn:Hc.
  - rewrite <- (insert_id m np c Hc). clear Hc.
    destruct c as [win par x y wd ht gr s bo de ba cm co].
    destruct (_ =? 0); [|destruct (_ =? 1); [|destruct (_ =? 2)]];
    destruct st, mx, sh; munfold; mreduce; repeat (split_if; mreduce);
    try discriminate; eexists; 
    rewrite <- ?app_assoc; cbn; try reflexivity.
    all: try (rewrite app_nil_r; reflexivity). 
  - destruct (_ =? 0); [|destruct (_ =? 1); [|destruct (_ =? 2)]];
    destruct st, mx, sh; munfold; cbn; repeat (split_if; cbn);
    repeat rewrite (alter_absent _ np m Hc);
    eexists; 
    rewrite <- ?app_assoc; cbn; try reflexivity.
    all: try (rewrite app_nil_r; reflexivity). 
Qed.

Lemma HandleNetWMState_client_fields event c :
  HandleNetWMState_client cfg event c
  = ClientNode.set_status
      (ClientNode.status (HandleNetWMState_client cfg event c)) c.
Proof.
  unfold HandleNetWMState_client.
  destruct (HandleNetWMState_actions _ _) as [[mx st] sh].
  destruct c as [win par x y wd ht gr s bo de ba cm co].
  repeat (split_if; try reflexivity).
Qed.

Lemma HandleNetWMState_client_bits event c i :
  0 <= i ->
  Z.testbit (ClientNode.status (HandleNetWMState_client cfg event c)) i
  = NetWMState_bit (XClientMessageEvent.l event 0)
      (NetWMState_named cfg event i) (Z.testbit (ClientNode.status c) i).
Proof.
  intros Hi. unfold HandleNetWMState_client, NetWMState_named, NetWMState_bit.
  destruct (HandleNetWMState_actions _ _) as [[mx st] sh].
  destruct c as [win par x y wd ht gr s bo de ba cm co].
  unfold STAT_STICKY, STAT_MAXIMIZED, STAT_SHADED.
  cbn [ClientNode.status ClientNode.set_status].
  destruct (_ =? 0); [|destruct (_ =? 1); [|destruct (_ =? 2)]].
  all: destruct st, mx, sh; cbn [andb orb negb ClientNode.status].
  all: autorewrite with flag_bits.
  all: repeat (split_if; autorewrite with flag_bits).
  all: autorewrite with flag_bits in *.
  all: repeat case_bool_decide; subst; try lia.
  all: cbn [andb orb negb] in *.
  all: rewrite ?andb_true_r, ?orb_false_r, ?andb_false_r, ?orb_true_r in *.
  all: try reflexivity; try congruence.
  all: try (destruct (Z.testbit s _); cbn [negb] in *; congruence).
  all: repeat match goal with H : Z.testbit _ _ = _ |- _ => rewrite ?H; clear H end.
  all: reflexivity.
Qed.

(** A state request only changes the status word of the client. *)
Lemma HandleNetWMState_client_eq event c s :
  (forall i, 0 <= i ->
     Z.testbit (ClientNode.status (HandleNetWMState_client cfg event c)) i
     = Z.testbit s i) ->
  HandleNetWMState_client cfg event c = ClientNode.set_status s c.
Proof.
  intros H. rewrite HandleNetWMState_client_fields. f_equal.
  apply Z.bits_inj'. exact H.
Qed.

Lemma NetWMState_bit_idempotent action named b :
  action = 0 \/ action = 1 ->
  NetWMState_bit action named (NetWMState_bit action named b)
  = NetWMState_bit action named b.
Proof. intros [-> | ->]; destruct named, b; reflexivity. Qed.

Lemma NetWMState_bit_involutive named b :
  NetWMState_bit 2 named (NetWMState_bit 2 named b) = b.
Proof. destruct named, b; reflexivity. Qed.

Lemma HandleNetWMState_client_twice event c :
  let F := HandleNetWMState_client cfg event in
  (XClientMessageEvent.l event 0 = 0 \/ XClientMessageEvent.l event 0 = 1 ->
   F (F c) = F c) /\
  (XClientMessageEvent.l event 0 = 2 -> F (F c) = c).
Proof.
  cbn zeta. split; intros Ha.
  - rewrite (HandleNetWMState_client_eq event (HandleNetWMState_client cfg event c)
               (ClientNode.status (HandleNetWMState_client cfg event c))).
    + destruct (HandleNetWMState_client cfg event c); reflexivity.
    + intros i Hi. rewrite !HandleNetWMState_client_bits by assumption.
      apply NetWMState_bit_idempotent, Ha.
  - rewrite (HandleNetWMState_client_eq event (HandleNetWMState_client cfg event c)
               (ClientNode.status c)).
    + rewrite (HandleNetWMState_client_fields event c).
      destruct c; reflexivity.
    + intros i Hi. rewrite !HandleNetWMState_client_bits by assumption.
      rewrite Ha. apply NetWMState_bit_involutive.
Qed.

(** C1.  A state request of the extended-hints protocol (sticky, maximize,
    shade) with action code 0 (remove) or 1 (add) is idempotent: handling
    it twice leaves the world that handling it once leaves; and handling a
    request with action code 2 (toggle) twice restores the world as it was.
    Worlds are compared up to the log of calls. *)
Theorem HandleNetWMState_idempotent_toggle_involutive
  (event : XClientMessageEvent.t) (np : Z) (w : World) :
  let handle := HandleNetWMState cfg event np in
  (XClientMessageEvent.l event 0 = 0 \/ XClientMessageEvent.l event 0 = 1 ->
   with_trace [] (exec (handle;; handle) w) = with_trace [] (exec handle w))
  /\ (XClientMessageEvent.l event 0 = 2 ->
      with_trace [] (exec (handle;; handle) w) = with_trace [] w).
Proof.
  cbn zeta. rewrite exec_bind.
  destruct (HandleNetWMState_exec event np w) as [t1 H1].
  destruct (HandleNetWMState_exec event np
              (exec (HandleNetWMState cfg event np) w)) as [t2 H2].
  rewrite H2, H1. clear H1 H2.
  destruct w as [m fr q se mp ck sl lt lx ly da tr].
  cbn. rewrite alter_alter_eq.
  split; intros Ha; f_equal.
  - apply alter_ext. intros c _. cbn.
    apply (HandleNetWMState_client_twice event c), Ha.
  - apply alter_id. intros c _. cbn.
    apply (HandleNetWMState_client_twice event c), Ha.
Qed.

End NetWMState.

Example HandleNetWMState_remove_sample :
  ClientNode.status
    (clients
       (exec (HandleNetWMState sample_cfg
                (sample_state_request 0 ATOM_NET_WM_STATE_STICKY
                   ATOM_NET_WM_STATE_MAXIMIZED_VERT) 10)
          (sample_world
             [sample_client 10
                (Z.lor STAT_MAPPED
                   (Z.lor STAT_STICKY (Z.lor STAT_MAXIMIZED STAT_SHADED)))]
             [])) !!! 10)
  = Z.lor STAT_MAPPED STAT_SHADED.
Proof. vm_compute. reflexivity. Qed.

Lemma HandleNetWMState_idempotent_witness :
  let handle :=
    HandleNetWMState sample_cfg
      (sample_state_request 0 ATOM_NET_WM_STATE_STICKY
         ATOM_NET_WM_STATE_MAXIMIZED_VERT) 10 in
  let w :=
    sample_world
      [sample_client 10 (Z.lor STAT_STICKY (Z.lor STAT_MAXIMIZED STAT_SHADED))]
      [] in
  with_trace [] (exec (handle;; handle) w) = with_trace [] (exec handle w).
Proof.
  cbn zeta.
  apply (HandleNetWMState_idempotent_toggle_involutive sample_cfg).
  left. reflexivity.
Defined.

(** ** Configure requests *)

Section ConfigureRequest.

Variable cfg : Config.
Variable E : Externals.

Lemma merge_configure_spec event c :
  (merge_configure event c).1 = configure_merge_spec event c
  /\ ((merge_configure event c).2 = false <-> configure_merge_spec event c = c).
Proof.
  unfold merge_configure, configure_merge_spec.
  destruct c as [win par x y wd ht gr s bo de ba cm co].
  cbn [ClientNode.set_width ClientNode.set_height ClientNode.set_x
       ClientNode.set_y ClientNode.width ClientNode.height ClientNode.x
       ClientNode.y].
  destruct (flag_test _ CWWidth), (flag_test _ CWHeight), (flag_test _ CWX),
    (flag_test _ CWY); cbn [andb negb fst snd].
  all: repeat (match goal with
               | |- context [?a =? ?b] => destruct (Z.eqb_spec a b)
               end;
               cbn [negb fst snd ClientNode.set_width ClientNode.set_height
                    ClientNode.set_x ClientNode.set_y ClientNode.width
                    ClientNode.height ClientNode.x ClientNode.y] in *).
  all: split; [congruence|split; intros H; try reflexivity;
    try discriminate; congruence].
Qed.

Lemma constrained_parent c :
  ClientNode.parent (constrained E c) = ClientNode.parent c.
Proof. destruct c; reflexivity. Qed.

Lemma constrained_window c :
  ClientNode.window (constrained E c) = ClientNode.window c.
Proof. destruct c; reflexivity. Qed.

Lemma merge_spec_parent event c :
  ClientNode.parent (configure_merge_spec event c) = ClientNode.parent c.
Proof. destruct c; reflexivity. Qed.

Lemma merge_spec_window event c :
  ClientNode.window (configure_merge_spec event c) = ClientNode.window c.
Proof. destruct c; reflexivity. Qed.

Lemma filter_controller_log c np flag :
  filter is_display_call (controller_log c np flag) = [].
Proof. unfold controller_log. destruct (ClientNode.controller c); reflexivity. Qed.

(** C2.  A configure request for the primary window of a client takes
    over exactly the fields that are flagged present (a flagged field that
    does not differ keeps its value anyway).  When no field changed, the
    handler only calls the controller, if there is one, and sends nothing
    to the display.  When some field changed, it constrains the size and
    sends exactly two geometry updates: one for the decoration window, at
    the client's position and sized to the content plus the insets, and
    one for the content window, at the inset offset and with the content
    size. *)
Theorem HandleConfigureRequest_merge
  (event : XConfigureRequestEvent.t) (w : World) (c : ClientNode.t) :
  let np := XConfigureRequestEvent.window event in
  let mask := XConfigureRequestEvent.value_mask event in
  let merged := configure_merge_spec event c in
  let final := constrained E merged in
  let after := exec (HandleConfigureRequest cfg E event) w in
  clients w !! np = Some c ->
  ClientNode.window c = np ->
  (merged = c ->
   after = with_trace (trace w ++ controller_log c np 0) w
   /\ filter is_display_call (trace after)
      = filter is_display_call (trace w))
  /\ (merged <> c ->
      let '(north, south, east, west) := GetBorderSize E merged in
      let updates :=
        [JXConfigureWindow (ClientNode.parent c) mask
           (XWindowChanges.mk (ClientNode.x final) (ClientNode.y final)
              (ClientNode.width final + east + west)
              (ClientNode.height final + north + south)
              0 (ClientNode.parent c) Above);
         JXConfigureWindow np mask
           (XWindowChanges.mk west north
              (ClientNode.width final) (ClientNode.height final)
              0 (ClientNode.parent c) Above)] in
      after
      = with_trace
          (trace w ++ controller_log c np 0
           ++ Ext "ConstrainSize" [np] :: updates)
          (with_clients (<[np := final]> (clients w)) w)
      /\ filter is_display_call (trace after)
         = filter is_display_call (trace w) ++ updates).
Proof.
  cbn zeta. intros Hc Hwin.
  destruct (merge_configure_spec event c) as [Hm1 Hm2].
  destruct w as [m fr q se mp ck sl lt lx ly da tr].
  cbn [clients trace] in *.
  rewrite <- (insert_id m _ c Hc). clear Hc.
  unfold controller_log.
  set (np := XConfigureRequestEvent.window event) in *.
  assert (Hkeep : forall P : World -> Prop,
            wp (HandleConfigureRequest cfg E event)
              (mkWorld (<[np:=c]> m) fr q se mp ck sl lt lx ly da tr)
              (fun _ w' => P w') ->
            P (exec (HandleConfigureRequest cfg E event)
                 (mkWorld (<[np:=c]> m) fr q se mp ck sl lt lx ly da tr)))
    by (intros P; apply wp_exec).
  split.
  - intros Hsame. apply Hkeep. unfold HandleConfigureRequest. fold np.
    assert (Hunchanged : (merge_configure event c).2 = false)
      by (apply Hm2; exact Hsame).
    wp_run. rewrite Hwin, Z.eqb_refl. wp_run.
    destruct (ClientNode.controller c); wp_run;
      rewrite Hunchanged, Hm1, Hsame; wp_run.
    + rewrite filter_app. cbn. rewrite app_nil_r. auto.
    + rewrite app_nil_r. auto.
  - intros Hdiff.
    assert (Hchanged : (merge_configure event c).2 = true).
    { destruct (merge_configure event c).2; [reflexivity|].
      destruct Hdiff. apply Hm2. reflexivity. }
    destruct (GetBorderSize E (configure_merge_spec event c))
      as [[[north south] east] west] eqn:Hborder.
    apply Hkeep. unfold HandleConfigureRequest. fold np.
    wp_run. rewrite Hwin, Z.eqb_refl. wp_run.
    destruct (ClientNode.controller c); wp_run;
      rewrite Hchanged, Hm1; wp_run; rewrite Hborder; wp_run;
      fold (constrained E (configure_merge_spec event c));
      rewrite constrained_parent, constrained_window, !merge_spec_parent,
        !merge_spec_window, Hwin, insert_insert_eq, <- !app_assoc;
      cbn [app]; (split; [reflexivity|]);
      rewrite filter_app; reflexivity.
Qed.

End ConfigureRequest.

(** The request of the specification: only a width of 300, for a window at
    (10,10) of size 200x150. *)
Example configure_merge_spec_sample :
  configure_merge_spec sample_configure_request (sample_client 10 STAT_MAPPED)
  = ClientNode.set_width 300 (sample_client 10 STAT_MAPPED).
Proof. reflexivity. Qed.

Lemma HandleConfigureRequest_merge_witness :
  let after :=
    exec (HandleConfigureRequest sample_cfg (sample_ext (0, 0) (fun _ => false))
            sample_configure_request)
      (sample_world [sample_client 10 STAT_MAPPED] []) in
  clients after !! 10 = Some (ClientNode.set_width 300 (sample_client 10 STAT_MAPPED))
  /\ filter is_display_call (trace after)
     = [JXConfigureWindow 11 CWWidth (XWindowChanges.mk 10 10 308 178 0 11 Above);
        JXConfigureWindow 10 CWWidth (XWindowChanges.mk 4 24 300 150 0 11 Above)].
Proof.
  cbn zeta.
  destruct (HandleConfigureRequest_merge sample_cfg
              (sample_ext (0, 0) (fun _ => false)) sample_configure_request
              (sample_world [sample_client 10 STAT_MAPPED] [])
              (sample_client 10 STAT_MAPPED) eq_refl eq_refl) as [_ H].
  destruct H as [Hafter Hcalls].
  - intros H. apply (f_equal ClientNode.width) in H. discriminate H.
  - split; [rewrite Hafter; reflexivity | exact Hcalls].
Defined.

(** ** Button presses on a border: double clicks *)

Lemma click_delta (d : Z) :
  Z.abs d < 2 ^ 31 -> c_abs (wrap_int (wrap_ulong d)) = Z.abs d.
Proof.
  intros Hd. unfold c_abs, wrap_int, wrap_ulong. f_equal.
  Z.div_mod_to_equations. lia.
Qed.

Section BorderButton.

Variable cfg : Config.
Variable E : Externals.

(** The test of the dispatcher in terms of the recorded click. *)
Lemma doubleClick_within (w : World) (event : XButtonEvent.t) :
  doubleClickSpeed cfg < 2 ^ 31 ->
  doubleClickActive w = true ->
  0 < Z.abs (XButtonEvent.time event - lastClickTime w)
    <= doubleClickSpeed cfg ->
  Z.abs (XButtonEvent.x event - lastX w) <= doubleClickDelta cfg ->
  Z.abs (XButtonEvent.y event - lastY w) <= doubleClickDelta cfg ->
  DispatchBorderButtonEvent_doubleClick cfg w event = true.
Proof.
  intros Hspeed Hact Ht Hx Hy. unfold DispatchBorderButtonEvent_doubleClick.
  rewrite click_delta, Hact by lia. unfold c_abs.
  repeat (apply andb_true_intro; split); try reflexivity;
    first [apply Z.ltb_lt | apply Z.leb_le]; lia.
Qed.


(** A press on the move area that completes a double click. *)
Lemma DispatchBorderButtonEvent_double (event : XButtonEvent.t) np w :
  XButtonEvent.type event = ButtonPress ->
  Z.land (GetBorderActionType E (clients w !!! np)
            (XButtonEvent.x event) (XButtonEvent.y event)) 15 = BA_MOVE ->
  DispatchBorderButtonEvent_doubleClick cfg w event = true ->
  exec (DispatchBorderButtonEvent cfg E event np) w
  = with_doubleClickActive false (exec (MaximizeClient np) w).
Proof.
  intros Htype Hkind Hdouble. apply wp_exec.
  unfold DispatchBorderButtonEvent. wp_run.
  rewrite Hkind, Htype. unfold BA_MOVE, BA_RESIZE. cbn [Z.eqb Pos.eqb].
  wp_run. rewrite Hdouble. wp_run. reflexivity.
Qed.

(** A press on the move area that does not. *)
Lemma DispatchBorderButtonEvent_single (event : XButtonEvent.t) np w :
  XButtonEvent.type event = ButtonPress ->
  Z.land (GetBorderActionType E (clients w !!! np)
            (XButtonEvent.x event) (XButtonEvent.y event)) 15 = BA_MOVE ->
  DispatchBorderButtonEvent_doubleClick cfg w event = false ->
  exec (DispatchBorderButtonEvent cfg E event np) w
  = let logged :=
      with_trace
        (trace w ++ [Ext "MoveClient"
                       [np; XButtonEvent.x event; XButtonEvent.y event]]) w in
    if MoveClient_moved E w np (XButtonEvent.x event) (XButtonEvent.y event)
    then with_doubleClickActive false logged
    else with_click (XButtonEvent.time event) (XButtonEvent.x event)
           (XButtonEvent.y event) (with_doubleClickActive true logged).
Proof.
  intros Htype Hkind Hdouble. apply wp_exec.
  unfold DispatchBorderButtonEvent. wp_run.
  rewrite Hkind, Htype. unfold BA_MOVE, BA_RESIZE. cbn [Z.eqb Pos.eqb].
  wp_run. rewrite Hdouble. wp_run.
  destruct (MoveClient_moved E w np _ _); wp_run; reflexivity.
Qed.


(** A press or release of button 1 on the decoration window of a client:
    the client is raised, focused under the click policy, the event is
    dispatched for that client, and the pager is updated. *)
Lemma HandleButtonEvent_border (event : XButtonEvent.t) (np : Z) (w : World) :
  frames w !! XButtonEvent.window event = Some np ->
  is_Some (clients w !! np) ->
  XButtonEvent.button event = Button1 ->
  exec (HandleButtonEvent cfg E event) w
  = exec (ext "UpdatePager" [])
      (exec (DispatchBorderButtonEvent cfg E event np)
         (exec (ext "RaiseClient" [np];; focus_on_click cfg np) w)).
Proof.
  intros Hframe [c Hclient] Hbutton. apply wp_exec.
  unfold HandleButtonEvent. wp_run.
  rewrite Hframe. cbn [mbind option_bind]. rewrite Hclient.
  cbn [fmap option_fmap option_map]. wp_run.
  rewrite Hbutton. change (Button1 =? Button1) with true. cbv iota.
  rewrite exec_bind. unfold focus_on_click, wp, when.
  destruct (bool_decide (focusModel cfg = FOCUS_CLICK)); reflexivity.
Qed.


Lemma exec_raise (np : Z) (w : World) :
  exec (ext "RaiseClient" [np];; focus_on_click cfg np) w
  = with_trace (trace w ++ raise_log cfg np) w.
Proof.
  destruct w as [m fr q se mp ck sl lt lx ly da tr].
  unfold focus_on_click, raise_log, when.
  destruct (bool_decide (focusModel cfg = FOCUS_CLICK));
    rewrite exec_bind, ?exec_ext; cbn; rewrite <- ?app_assoc; reflexivity.
Qed.

Lemma doubleClick_with_trace (log : list Call) (w : World) event :
  DispatchBorderButtonEvent_doubleClick cfg (with_trace log w) event
  = DispatchBorderButtonEvent_doubleClick cfg w event.
Proof. destruct w. reflexivity. Qed.

(** A press of button 1 on the move area of a decoration window that is
    not taken for a double click and whose move is rejected. *)
Lemma HandleButtonEvent_move_rejected (event : XButtonEvent.t) np w :
  frames w !! XButtonEvent.window event = Some np ->
  is_Some (clients w !! np) ->
  XButtonEvent.button event = Button1 ->
  press_on_move E w np event ->
  DispatchBorderButtonEvent_doubleClick cfg w event = false ->
  move_rejected cfg E w np event ->
  exec (HandleButtonEvent cfg E event) w
  = with_click (XButtonEvent.time event) (XButtonEvent.x event)
      (XButtonEvent.y event)
      (with_doubleClickActive true
         (with_trace
            (trace w ++ raise_log cfg np
             ++ [Ext "MoveClient"
                   [np; XButtonEvent.x event; XButtonEvent.y event];
                 Ext "UpdatePager" []]) w)).
Proof.
  unfold move_rejected.
  intros Hframe Hclient Hbutton [Htype Hkind] Hsingle Hrejected.
  rewrite (HandleButtonEvent_border event np w Hframe Hclient Hbutton).
  rewrite exec_raise, exec_ext.
  rewrite DispatchBorderButtonEvent_single;
    [ | exact Htype | destruct w; exact Hkind
      | rewrite doubleClick_with_trace; exact Hsingle ].
  cbn zeta. rewrite Hrejected.
  destruct w as [m fr q se mp ck sl lt lx ly da tr].
  cbn. rewrite <- !app_assoc. reflexivity.
Qed.

(** A press of button 1 on the move area of a decoration window that is
    taken for a double click. *)
Lemma HandleButtonEvent_move_double (event : XButtonEvent.t) np w :
  frames w !! XButtonEvent.window event = Some np ->
  is_Some (clients w !! np) ->
  XButtonEvent.button event = Button1 ->
  press_on_move E w np event ->
  DispatchBorderButtonEvent_doubleClick cfg w event = true ->
  exec (HandleButtonEvent cfg E event) w
  = with_doubleClickActive false
      (with_clients (alter MaximizeClient_record np (clients w))
         (with_trace
            (trace w ++ raise_log cfg np
             ++ [Ext "MaximizeClient" [np]; Ext "UpdatePager" []]) w)).
Proof.
  intros Hframe Hclient Hbutton [Htype Hkind] Hdouble.
  rewrite (HandleButtonEvent_border event np w Hframe Hclient Hbutton).
  rewrite exec_raise, exec_ext.
  rewrite DispatchBorderButtonEvent_double;
    [ | exact Htype | destruct w; exact Hkind
      | rewrite doubleClick_with_trace; exact Hdouble ].
  rewrite exec_MaximizeClient.
  destruct w as [m fr q se mp ck sl lt lx ly da tr].
  cbn. rewrite <- !app_assoc. reflexivity.
Qed.

(** C4, as amended.  The tracker is one set of variables of the dispatcher,
    shared by all windows: a first press on the move area of one window
    that arms the tracker, followed within the thresholds by a press on
    the move area of a window of any client, the same or another one,
    maximizes the client of the second press and clears the tracker.  The
    first press arms the tracker when it does not itself complete a double
    click and [MoveClient], called for it, rejects the move; each press is
    on the move area for the record its client has when the press is
    handled. *)
Theorem HandleButtonEvent_double_click_shared
  (e1 e2 : XButtonEvent.t) (np1 np2 : Z) (w : World) :
  let w1 := exec (HandleButtonEvent cfg E e1) w in
  let after := exec (HandleButtonEvent cfg E e2) w1 in
  doubleClickSpeed cfg < 2 ^ 31 ->
  frames w !! XButtonEvent.window e1 = Some np1 ->
  frames w !! XButtonEvent.window e2 = Some np2 ->
  is_Some (clients w !! np1) -> is_Some (clients w !! np2) ->
  XButtonEvent.button e1 = Button1 -> XButtonEvent.button e2 = Button1 ->
  press_on_move E w np1 e1 ->
  press_on_move E w1 np2 e2 ->
  DispatchBorderButtonEvent_doubleClick cfg w e1 = false ->
  move_rejected cfg E w np1 e1 ->
  within_thresholds cfg e1 e2 ->
  after = exec (HandleButtonEvent cfg E e1;; HandleButtonEvent cfg E e2) w
  /\ maximized np2 (trace after) = true
  /\ clients after = alter MaximizeClient_record np2 (clients w)
  /\ doubleClickActive after = false.
Proof.
  cbn zeta.
  intros Hspeed Hf1 Hf2 Hc1 Hc2 Hb1 Hb2 Hp1 Hp2 Hsingle
    Hrejected (Htime & Hx & Hy).
  split; [rewrite exec_bind; reflexivity|].
  rewrite (HandleButtonEvent_move_rejected e1 np1 w) in * by
    assumption.
  destruct w as [m fr q se mp ck sl lt lx ly da tr].
  cbn [frames clients trace with_trace with_click with_doubleClickActive]
    in *.
  rewrite (HandleButtonEvent_move_double e2 np2) by
    (try assumption; apply doubleClick_within; cbn; auto).
  cbn [frames clients trace with_trace with_clients with_doubleClickActive
       doubleClickActive].
  split; [ | split; reflexivity ].
  unfold maximized. rewrite !existsb_app. cbn [existsb].
  change (String.eqb "MaximizeClient" "MaximizeClient") with true.
  rewrite Z.eqb_refl. cbn [andb orb]. rewrite ?orb_true_r. reflexivity.
Qed.

End BorderButton.



(** C4 as stated fails: a press on the move area of the window of client
    10 whose move is rejected, followed 100 ms later by a press at the same
    place of the window of client 20, maximizes client 20. *)
Lemma per_window_claim_counterexample :
  ~ per_window_claim sample_cfg (sample_ext (0, 0) (fun _ => false))
      (sample_world [sample_client 10 STAT_MAPPED;
                     sample_client 20 STAT_MAPPED] [])
      (sample_press 11 1000) (sample_press 21 1100).
Proof.
  intros Hclaim.
  specialize (Hclaim 10 20 eq_refl eq_refl).
  assert (Hfalse : true = false); [ | discriminate Hfalse ].
  apply Hclaim; try reflexivity.
  - eexists. reflexivity.
  - eexists. reflexivity.
  - discriminate.
  - split; reflexivity.
  - split; reflexivity.
  - unfold within_thresholds. cbn. lia.
Qed.

Lemma HandleButtonEvent_double_click_shared_witness :
  let E := sample_ext_titled (fun _ => false) in
  let after :=
    exec (HandleButtonEvent sample_cfg E (sample_press 11 1000);;
          HandleButtonEvent sample_cfg E (sample_press 21 1100))
      (sample_world [sample_client 10 STAT_MAPPED;
                     sample_client 20 STAT_MAPPED] []) in
  maximized 20 (trace after) = true
  /\ flag_test (ClientNode.status (clients after !!! 20)) STAT_MAXIMIZED = true.
Proof.
  cbn zeta.
  destruct (HandleButtonEvent_double_click_shared sample_cfg
              (sample_ext_titled (fun _ => false))
              (sample_press 11 1000) (sample_press 21 1100) 10 20
              (sample_world [sample_client 10 STAT_MAPPED;
                             sample_client 20 STAT_MAPPED] []))
    as (Hafter & Hmax & Hclients & _).
  - reflexivity.
  - reflexivity.
  - reflexivity.
  - eexists. reflexivity.
  - eexists. reflexivity.
  - reflexivity.
  - reflexivity.
  - split; reflexivity.
  - split; reflexivity.
  - reflexivity.
  - reflexivity.
  - unfold within_thresholds. cbn. lia.
  - rewrite <- Hafter. split; [exact Hmax | rewrite Hclients; reflexivity].
Defined.

(** ** Motion events *)

Lemma take_first_None (p : XEvent -> bool) (q : list XEvent) :
  take_first p q = None -> List.filter p q = [].
Proof.
  induction q as [|e q IH]; cbn; [reflexivity|].
  destruct (p e); [discriminate|].
  destruct (take_first p q) as [[e' q']|]; [discriminate | auto].
Qed.

Lemma take_first_Some (p : XEvent -> bool) (q q' : list XEvent) e :
  take_first p q = Some (e, q') ->
  p e = true
  /\ List.filter p q = e :: List.filter p q'
  /\ List.filter (fun e => negb (p e)) q'
     = List.filter (fun e => negb (p e)) q.
Proof.
  revert q'. induction q as [|e0 q IH]; cbn; [discriminate|].
  intros q'. destruct (p e0) eqn:He0.
  - intros [= <- <-]. cbn. auto.
  - destruct (take_first p q) as [[e1 q1]|]; [|discriminate].
    intros [= <- <-]. destruct (IH q1 eq_refl) as (Hp & Hf & Hn).
    cbn. rewrite He0. cbn. rewrite Hn. auto.
Qed.

Lemma filter_negb_nil (p : XEvent -> bool) (q : list XEvent) :
  List.filter p q = [] -> List.filter (fun e => negb (p e)) q = q.
Proof.
  induction q as [|e q IH]; cbn; [reflexivity|].
  destruct (p e); [discriminate|]. cbn. intros H. f_equal. auto.
Qed.

Lemma last_motion_filter (e0 : XMotionEvent.t) (q : list XEvent) :
  last_motion e0 (List.filter is_MotionNotify q) = last_motion e0 q.
Proof.
  unfold last_motion. revert e0.
  induction q as [|e q IH]; intros e0; cbn; [reflexivity|].
  destruct e; cbn; auto.
Qed.

Lemma last_motion_same_window (e0 : XMotionEvent.t) (q : list XEvent) :
  Forall (fun e => match e with
                   | MotionNotify m =>
                       XMotionEvent.window m = XMotionEvent.window e0
                   | _ => True
                   end) q ->
  last_motion e0 q = last_motion_for (XMotionEvent.window e0) e0 q.
Proof.
  unfold last_motion, last_motion_for. generalize e0 at 2 4.
  induction q as [|e q IH]; intros acc Hall; [reflexivity|].
  inversion Hall as [|? ? He Hq]; subst. cbn [fold_left].
  destruct e; try (apply IH; assumption).
  rewrite He, Z.eqb_refl. apply IH. assumption.
Qed.

Section Motion.

Variable cfg : Config.
Variable E : Externals.

(** The loop of line 212 with enough turns for every queued motion event:
    the event it leaves in [*event] is the last motion event of the queue,
    or the event read when the queue has none; no motion event stays
    queued, the other events stay in their order. *)
Lemma ProcessEvent_drain_spec (fuel : nat) (e0 : XMotionEvent.t) (w : World) :
  (length (List.filter is_MotionNotify (queue w)) <= fuel)%nat ->
  ProcessEvent_drain fuel (MotionNotify e0) w
  = (MotionNotify (last_motion e0 (queue w)),
     with_queue (without_motion (queue w)) w).
Proof.
  revert e0 w. induction fuel as [|fuel IH]; intros e0 w Hfuel.
  - destruct w as [m fr q se mp ck sl lt lx ly da tr].
    cbn [queue with_queue ProcessEvent_drain] in *.
    assert (Hnone : List.filter is_MotionNotify q = [])
      by (destruct (List.filter is_MotionNotify q);
          [reflexivity | cbn in Hfuel; lia]).
    unfold without_motion. rewrite (filter_negb_nil _ _ Hnone).
    rewrite <- last_motion_filter, Hnone. reflexivity.
  - cbn [ProcessEvent_drain]. unfold mbind, M_bind, JXCheckTypedEvent.
    destruct (take_first is_MotionNotify (queue w)) as [[e q']|] eqn:Htake.
    + destruct (take_first_Some _ _ _ _ Htake) as (Hmotion & Hf & Hn).
      destruct e; try discriminate Hmotion.
      rewrite IH.
      * destruct w as [m fr q se mp ck sl lt lx ly da tr].
        cbn [queue with_queue] in *.
        unfold without_motion. rewrite Hn.
        rewrite <- (last_motion_filter e0 q), Hf, <- last_motion_filter.
        reflexivity.
      * destruct w as [m fr q se mp ck sl lt lx ly da tr].
        cbn [queue with_queue] in *.
        rewrite Hf in Hfuel. cbn [length] in Hfuel. lia.
    + pose proof (take_first_None _ _ Htake) as Hnone.
      unfold mret, M_ret, without_motion.
      rewrite (filter_negb_nil _ _ Hnone).
      rewrite <- last_motion_filter, Hnone.
      destruct w; reflexivity.
Qed.

Lemma HandleMotionNotify_queue (event : XMotionEvent.t) (w : World) :
  queue (exec (HandleMotionNotify E event) w) = queue w.
Proof.
  destruct w as [m fr q se mp ck sl lt lx ly da tr].
  apply wp_exec. unfold HandleMotionNotify.
  destruct (XMotionEvent.is_hint event); wp_run; [reflexivity|].
  destruct (fr !! XMotionEvent.window event ≫= _) as [np|]; wp_run;
    [|reflexivity].
  destruct (flag_test _ BORDER_OUTLINE); wp_run; [|reflexivity].
  destruct (negb _); wp_run; reflexivity.
Qed.

(** C5, as amended.  When the dispatcher reads a motion event, every
    queued motion event, for whatever window, is taken off the queue, and
    the handler of motion events runs exactly once, on the most recent of
    them (on the event read when none is queued); the other events stay
    queued in their order.  In particular, when the queued motion events
    are all for the window of the event read, the event dispatched is the
    most recent one for that window. *)
Theorem ProcessEvent_motion_coalesced (e0 : XMotionEvent.t) (w : World) :
  let after := exec (ProcessEvent cfg E (MotionNotify e0)) w in
  after
  = exec (HandleMotionNotify E (last_motion e0 (queue w)))
      (with_queue (without_motion (queue w)) w)
  /\ queue after = without_motion (queue w)
  /\ (Forall (fun e => match e with
                       | MotionNotify m =>
                           XMotionEvent.window m = XMotionEvent.window e0
                       | _ => True
                       end) (queue w) ->
      last_motion e0 (queue w)
      = last_motion_for (XMotionEvent.window e0) e0 (queue w)).
Proof.
  cbn zeta.
  assert (Hrun : exec (ProcessEvent cfg E (MotionNotify e0)) w
                 = exec (HandleMotionNotify E (last_motion e0 (queue w)))
                     (with_queue (without_motion (queue w)) w)).
  { unfold ProcessEvent. rewrite exec_bind.
    change (eval get w) with w. change (exec get w) with w.
    rewrite exec_bind. unfold eval at 1, exec at 2.
    rewrite ProcessEvent_drain_spec by apply filter_length_le.
    reflexivity. }
  split; [exact Hrun|]. split.
  - rewrite Hrun, HandleMotionNotify_queue. destruct w; reflexivity.
  - apply last_motion_same_window.
Qed.

End Motion.

(** Five motion events queued for the window of the event read: one
    dispatch, with the coordinates of the last of them. *)
Lemma ProcessEvent_motion_coalesced_witness :
  let E := sample_ext (0, 0) (fun _ => false) in
  let w :=
    sample_world [sample_client 10 STAT_MAPPED]
      [MotionNotify (sample_motion 11 1 1); MotionNotify (sample_motion 11 2 2);
       MotionNotify (sample_motion 11 3 3); MotionNotify (sample_motion 11 4 4);
       MotionNotify (sample_motion 11 5 5)] in
  exec (ProcessEvent sample_cfg E (MotionNotify (sample_motion 11 0 0))) w
  = exec (HandleMotionNotify E (sample_motion 11 5 5)) (with_queue [] w)
  /\ last_motion_for 11 (sample_motion 11 0 0) (queue w)
     = sample_motion 11 5 5.
Proof.
  cbn zeta.
  destruct (ProcessEvent_motion_coalesced sample_cfg
              (sample_ext (0, 0) (fun _ => false)) (sample_motion 11 0 0)
              (sample_world [sample_client 10 STAT_MAPPED]
                 [MotionNotify (sample_motion 11 1 1);
                  MotionNotify (sample_motion 11 2 2);
                  MotionNotify (sample_motion 11 3 3);
                  MotionNotify (sample_motion 11 4 4);
                  MotionNotify (sample_motion 11 5 5)]))
    as (Hrun & _ & Hsame).
  split.
  - rewrite Hrun. reflexivity.
  - transitivity
      (last_motion (sample_motion 11 0 0)
         [MotionNotify (sample_motion 11 1 1);
          MotionNotify (sample_motion 11 2 2);
          MotionNotify (sample_motion 11 3 3);
          MotionNotify (sample_motion 11 4 4);
          MotionNotify (sample_motion 11 5 5)]); [|reflexivity].
    symmetry. apply Hsame. repeat constructor.
Defined.

(** C5 as stated fails: with a motion event for window 21 queued behind
    the motion event read for window 11, the event dispatched is the one
    for window 21. *)
Lemma motion_claim_counterexample :
  ~ motion_claim sample_cfg (sample_ext (0, 0) (fun _ => false))
      (sample_motion 11 1 1)
      (sample_world [sample_client 10 STAT_MAPPED; sample_client 20 STAT_MAPPED]
         [MotionNotify (sample_motion 21 2 2)]).
Proof.
  unfold motion_claim. intros Hclaim.
  apply (f_equal mousePosition) in Hclaim.
  vm_compute in Hclaim. discriminate Hclaim.
Qed.

(** ** Move-resize requests of the extended-hints protocol *)

Lemma wrap_int_small (z : Z) : int_range z -> wrap_int z = z.
Proof.
  unfold int_range, wrap_int. intros H. rewrite Z.mod_small by lia. lia.
Qed.

Section NetMoveResize.

Variable E : Externals.

(** The record a move-resize request leaves. *)
Lemma HandleNetMoveResize_exec (event : XClientMessageEvent.t) (np : Z)
  (w : World) (c : ClientNode.t) :
  clients w !! np = Some c ->
  let l := XClientMessageEvent.l event in
  let flags := Z.shiftr (l 0%nat) 8 in
  let pick (bit : Z) (requested current : Z) : Z :=
    if flag_test flags (Z.shiftl 1 bit) then requested else current in
  let delta := GetGravityDelta E c in
  let north := (GetBorderSize E c).1.1.1 in
  let south := (GetBorderSize E c).1.1.2 in
  let east := (GetBorderSize E c).1.2 in
  let west := (GetBorderSize E c).2 in
  let c' :=
    ClientNode.set_height (wrap_int (pick 3 (l 4%nat) (ClientNode.height c)))
      (ClientNode.set_width (wrap_int (pick 2 (l 3%nat) (ClientNode.width c)))
         (ClientNode.set_y
            (wrap_int (pick 1 (l 2%nat) (ClientNode.y c) - delta.2))
            (ClientNode.set_x
               (wrap_int (pick 0 (l 1%nat) (ClientNode.x c) - delta.1)) c))) in
  exec (HandleNetMoveResize E event np) w
  = with_trace
      (trace w
       ++ [JXMoveResizeWindow (ClientNode.parent c)
             (ClientNode.x c' - west) (ClientNode.y c' - north)
             (ClientNode.width c' + east + west)
             (ClientNode.height c' + north + south);
           JXMoveResizeWindow (ClientNode.window c) west north
             (ClientNode.width c') (ClientNode.height c');
           Ext "WriteState" [np];
           Ext "SendConfigureEvent" [np]])
      (with_clients (<[np := c']> (clients w)) w).
Proof.
  intros Hc. cbn zeta.
  destruct w as [m fr q se mp ck sl lt lx ly da tr].
  cbn [clients trace] in *.
  rewrite <- (insert_id m np c Hc) at 1.
  apply wp_exec. unfold HandleNetMoveResize. wp_run.
  destruct (GetBorderSize E c) as [[[north south] east] west].
  destruct (GetGravityDelta E c) as [deltax deltay].
  wp_run. destruct c as [win par x y wd ht gr s bo de ba cm co].
  wp_run. rewrite <- !app_assoc. cbn [app].
  rewrite <- (insert_id m np _ Hc) at 2. rewrite insert_insert_eq.
  reflexivity.
Qed.

(** What a move-resize request does to the geometry.  The width and the
    height whose flag bit is unset keep their value.  x and y take the
    requested value when the flag bit is set and the current value
    otherwise, and in both cases the gravity delta of the client is then
    subtracted (lines 766-767), so that an unflagged x or y keeps its value
    only where the delta is 0.  The decoration and the content window are
    moved and resized, the state is written and a configure notification
    is sent.  With a gravity delta of (0,0) and a requested position of
    (50,50), the top left corner of the content window ends at (50,50)
    whatever the border sizes. *)
Lemma HandleNetMoveResize_geometry (event : XClientMessageEvent.t)
  (np : Z) (w : World) (c : ClientNode.t) :
  clients w !! np = Some c ->
  int_range (ClientNode.width c) -> int_range (ClientNode.height c) ->
  let l := XClientMessageEvent.l event in
  let flag (bit : Z) : bool :=
    flag_test (Z.shiftr (l 0%nat) 8) (Z.shiftl 1 bit) in
  let delta := GetGravityDelta E c in
  let north := (GetBorderSize E c).1.1.1 in
  let south := (GetBorderSize E c).1.1.2 in
  let east := (GetBorderSize E c).1.2 in
  let west := (GetBorderSize E c).2 in
  let after := exec (HandleNetMoveResize E event np) w in
  let c' := clients after !!! np in
  (flag 2 = false -> ClientNode.width c' = ClientNode.width c)
  /\ (flag 3 = false -> ClientNode.height c' = ClientNode.height c)
  /\ ClientNode.x c'
     = wrap_int ((if flag 0 then l 1%nat else ClientNode.x c) - delta.1)
  /\ ClientNode.y c'
     = wrap_int ((if flag 1 then l 2%nat else ClientNode.y c) - delta.2)
  /\ trace after
     = trace w
       ++ [JXMoveResizeWindow (ClientNode.parent c)
             (ClientNode.x c' - west) (ClientNode.y c' - north)
             (ClientNode.width c' + east + west)
             (ClientNode.height c' + north + south);
           JXMoveResizeWindow (ClientNode.window c) west north
             (ClientNode.width c') (ClientNode.height c');
           Ext "WriteState" [np];
           Ext "SendConfigureEvent" [np]]
  /\ (delta = (0, 0) -> flag 0 = true -> flag 1 = true ->
      l 1%nat = 50 -> l 2%nat = 50 ->
      ClientNode.x c' = 50 /\ ClientNode.y c' = 50
      /\ (ClientNode.x c' - west) + west = 50
      /\ (ClientNode.y c' - north) + north = 50).
Proof.
  intros Hc Hwidth Hheight. cbn zeta.
  rewrite (HandleNetMoveResize_exec event np w c Hc). cbn zeta.
  destruct w as [m fr q se mp ck sl lt lx ly da tr].
  cbn [clients trace with_trace with_clients].
  rewrite lookup_total_insert_eq.
  destruct c as [win par x y wd ht gr s bo de ba cm co].
  cbn [ClientNode.x ClientNode.y ClientNode.width ClientNode.height
       ClientNode.set_x ClientNode.set_y ClientNode.set_width
       ClientNode.set_height ClientNode.parent ClientNode.window
       ClientNode.gravity] in *.
  split; [intros ->; apply wrap_int_small, Hwidth|].
  split; [intros ->; apply wrap_int_small, Hheight|].
  split; [reflexivity|]. split; [reflexivity|].
  split; [reflexivity|].
  intros -> -> -> -> ->. cbn [fst snd].
  change (wrap_int (50 - 0)) with 50. lia.
Qed.

End NetMoveResize.

(** C6.  The code does not keep an unflagged position.  For a client at
    (10,10) of size 200x150 whose gravity delta is (-4,-24), a request
    that flags the width only, with a width of 300, writes the position
    (14,34) into the record and moves the decoration, where the claim has
    every field whose flag bit is unset stay at its value.  The width is
    taken over and the height, unflagged, is kept. *)
Theorem HandleNetMoveResize_width_only_request :
  let E := sample_ext (-4, -24) (fun _ => false) in
  let after :=
    exec (HandleNetMoveResize E (sample_moveresize 0 4 0 0 300 0) 10)
      (sample_world [sample_client 10 STAT_MAPPED] []) in
  let c' := clients after !!! 10 in
  (ClientNode.x c', ClientNode.y c') = (14, 34)
  /\ (ClientNode.width c', ClientNode.height c') = (300, 150)
  /\ trace after
     = [JXMoveResizeWindow 11 10 10 308 178;
        JXMoveResizeWindow 10 4 24 300 150;
        Ext "WriteState" [10]; Ext "SendConfigureEvent" [10]].
Proof. vm_compute. repeat split; reflexivity. Qed.

(** C6 as stated fails on the code at that input: the request flags
    neither x nor y, and the position changes. *)
Lemma moveresize_claim_counterexample :
  ~ moveresize_claim (sample_ext (-4, -24) (fun _ => false))
      (sample_moveresize 0 4 0 0 300 0) 10
      (sample_world [sample_client 10 STAT_MAPPED] []).
Proof.
  intros Hclaim.
  destruct (Hclaim (sample_client 10 STAT_MAPPED) eq_refl) as (Hx & _).
  specialize (Hx eq_refl). vm_compute in Hx. discriminate Hx.
Qed.

(** The request of the specification: with a gravity delta of (0,0) and
    the position (50,50) flagged, the content window ends at (50,50). *)
Lemma HandleNetMoveResize_geometry_witness :
  let E := sample_ext (0, 0) (fun _ => false) in
  let after :=
    exec (HandleNetMoveResize E (sample_moveresize 1 3 50 50 0 0) 10)
      (sample_world [sample_client 10 STAT_MAPPED] []) in
  let c' := clients after !!! 10 in
  ClientNode.x c' = 50 /\ ClientNode.y c' = 50
  /\ ClientNode.width c' = 200 /\ ClientNode.height c' = 150
  /\ trace after
     = [JXMoveResizeWindow 11 46 26 208 178;
        JXMoveResizeWindow 10 4 24 200 150;
        Ext "WriteState" [10]; Ext "SendConfigureEvent" [10]].
Proof.
  cbn zeta.
  destruct (HandleNetMoveResize_geometry (sample_ext (0, 0) (fun _ => false))
              (sample_moveresize 1 3 50 50 0 0) 10
              (sample_world [sample_client 10 STAT_MAPPED] [])
              (sample_client 10 STAT_MAPPED))
    as (Hwidth & Hheight & _ & _ & Htrace & Hposition).
  - reflexivity.
  - unfold int_range. cbn. lia.
  - unfold int_range. cbn. lia.
  - destruct Hposition as (Hx & Hy & _); [reflexivity ..|].
    rewrite Htrace, Hx, Hy, (Hwidth eq_refl), (Hheight eq_refl).
    repeat split; reflexivity.
Defined.

(** ** The event loop *)

Lemma take_first_length (p : XEvent -> bool) (q q' : list XEvent) e :
  take_first p q = Some (e, q') -> length q = S (length q').
Proof.
  revert q'. induction q as [|e0 q IH]; cbn; [discriminate|].
  intros q'. destruct (p e0).
  - intros [= <- <-]. reflexivity.
  - destruct (take_first p q) as [[e1 q1]|]; [|discriminate].
    intros [= <- <-]. cbn. f_equal. apply IH. reflexivity.
Qed.

Section EventLoop.

Variable cfg : Config.
Variable E : Externals.

(** The handlers of the loop leave the queue alone, except that the
    handler of unmap notifications may take one event off it. *)
Ltac queue_kept :=
  let w := fresh "w" in
  intros w; destruct w; apply wp_exec; wp_auto; reflexivity.

Lemma Signal_queue w : queue (exec (Signal E) w) = queue w.
Proof. revert w. unfold Signal. queue_kept. Qed.

Lemma HandleConfigureRequest_queue event w :
  queue (exec (HandleConfigureRequest cfg E event) w) = queue w.
Proof. revert w. unfold HandleConfigureRequest. queue_kept. Qed.

Lemma HandleMapRequest_queue event w :
  queue (exec (HandleMapRequest cfg E event) w) = queue w.
Proof. revert w. unfold HandleMapRequest, AddClientWindow. queue_kept. Qed.

Lemma HandlePropertyNotify_queue event w :
  queue (exec (HandlePropertyNotify cfg event) w) = queue w.
Proof. revert w. unfold HandlePropertyNotify. queue_kept. Qed.

Lemma HandleClientMessage_queue event w :
  queue (exec (HandleClientMessage cfg E event) w) = queue w.
Proof.
  revert w.
  unfold HandleClientMessage, HandleNetMoveResize, HandleNetWMState, Restart,
    Exit.
  queue_kept.
Qed.

Lemma HandleExpose_queue event w :
  queue (exec (HandleExpose event) w) = queue w.
Proof. revert w. unfold HandleExpose. queue_kept. Qed.

Lemma HandleColormapChange_queue event w :
  queue (exec (HandleColormapChange event) w) = queue w.
Proof. revert w. unfold HandleColormapChange. queue_kept. Qed.

Lemma HandleDestroyNotify_queue event w :
  queue (exec (HandleDestroyNotify E event) w) = queue w.
Proof. revert w. unfold HandleDestroyNotify. queue_kept. Qed.

Lemma HandleSelectionClear_queue win w :
  queue (exec (HandleSelectionClear E win) w) = queue w.
Proof. revert w. unfold HandleSelectionClear. queue_kept. Qed.

Lemma HandleShapeEvent_queue win w :
  queue (exec (HandleShapeEvent win) w) = queue w.
Proof. revert w. unfold HandleShapeEvent. queue_kept. Qed.

Lemma HandleUnmapNotify_queue event w :
  (length (queue (exec (HandleUnmapNotify E event) w)) <= length (queue w))%nat.
Proof.
  destruct w as [m fr q se mp ck sl lt lx ly da tr].
  apply wp_exec. unfold HandleUnmapNotify, HandleDestroyNotify.
  wp_auto; try reflexivity;
    match goal with
    | H : take_first _ _ = Some _ |- _ =>
        apply take_first_length in H; rewrite H; lia
    end.
Qed.

Lemma WaitForEvent_switch_queue event w :
  (length (queue (exec (WaitForEvent_switch cfg E event) w))
   <= length (queue w))%nat.
Proof.
  unfold WaitForEvent_switch.
  destruct event; rewrite ?exec_bind;
    try (destruct (USE_SHAPE cfg && haveShape cfg); rewrite ?exec_bind);
    change (exec (mret ?a) ?w') with w';
    rewrite ?HandleConfigureRequest_queue, ?HandleMapRequest_queue,
      ?HandlePropertyNotify_queue, ?HandleClientMessage_queue,
      ?HandleExpose_queue, ?HandleColormapChange_queue,
      ?HandleDestroyNotify_queue, ?HandleSelectionClear_queue,
      ?HandleShapeEvent_queue;
    try reflexivity; try apply HandleUnmapNotify_queue;
    destruct w; reflexivity.
Qed.

Lemma WaitForEvent_chain_queue event handled w :
  queue (exec (WaitForEvent_chain E event handled) w) = queue w.
Proof. revert w. unfold WaitForEvent_chain. queue_kept. Qed.

Lemma WaitForEvent_body_queue event rest w :
  (length (queue (exec (WaitForEvent_body cfg E event rest) w))
   <= length rest)%nat.
Proof.
  unfold WaitForEvent_body. rewrite !exec_bind.
  rewrite WaitForEvent_chain_queue.
  etransitivity; [apply WaitForEvent_switch_queue|].
  change (exec (modify (with_queue rest)) ?w')
    with (with_queue rest w').
  destruct (exec (Signal E) w); reflexivity.
Qed.

(** One turn of the loop. *)
Lemma WaitForEvent_loop_turn (fuel : nat) (w : World) event rest :
  queue w = event :: rest ->
  WaitForEvent_loop cfg E (S fuel) w
  = if eval (WaitForEvent_body cfg E event rest) w
       && negb (shouldExit (exec (WaitForEvent_body cfg E event rest) w))
    then WaitForEvent_loop cfg E fuel
           (exec (WaitForEvent_body cfg E event rest) w)
    else (Some event, exec (WaitForEvent_body cfg E event rest) w).
Proof.
  intros Hq. cbn [WaitForEvent_loop].
  unfold mbind at 1, M_bind at 1, get at 1. rewrite Hq.
  unfold mbind at 1, M_bind at 1, eval, exec.
  destruct (WaitForEvent_body cfg E event rest w) as [handled w1].
  cbn [fst snd]. unfold mbind, M_bind, get.
  destruct (handled && negb (shouldExit w1)); reflexivity.
Qed.

(** The fuel of the loop never runs out: each turn takes an event off the
    queue, so any fuel above the length of the queue gives the same
    result. *)
Lemma WaitForEvent_loop_fuel (fuel fuel' : nat) (w : World) :
  (length (queue w) < fuel)%nat -> (length (queue w) < fuel')%nat ->
  WaitForEvent_loop cfg E fuel w = WaitForEvent_loop cfg E fuel' w.
Proof.
  revert fuel' w.
  induction fuel as [|fuel IH]; intros fuel' w Hfuel Hfuel'; [lia|].
  destruct fuel' as [|fuel']; [lia|].
  destruct (queue w) as [|event rest] eqn:Hq.
  - cbn [WaitForEvent_loop]. unfold mbind, M_bind, get.
    rewrite Hq. reflexivity.
  - rewrite !(WaitForEvent_loop_turn _ w event rest Hq).
    destruct (_ && _); [|reflexivity].
    pose proof (WaitForEvent_body_queue event rest w) as Hle.
    cbn [length] in *. apply IH; lia.
Qed.

(** C7, as amended.  After an event the loop ends exactly when the event
    was unclaimed by every handler and by the fallback chain, or the
    shutdown flag is set; it fetches the next event only when the event
    was claimed and the flag is clear. *)
Theorem WaitForEvent_exit_condition (w : World) event rest :
  queue w = event :: rest ->
  let handled := eval (WaitForEvent_body cfg E event rest) w in
  let w1 := exec (WaitForEvent_body cfg E event rest) w in
  (handled = false \/ shouldExit w1 = true ->
   WaitForEvent cfg E w = (Some event, w1))
  /\ (handled = true /\ shouldExit w1 = false ->
      WaitForEvent cfg E w = WaitForEvent cfg E w1).
Proof.
  intros Hq. cbn zeta. unfold WaitForEvent, mbind, M_bind, get.
  rewrite (WaitForEvent_loop_turn _ w event rest Hq).
  split.
  - intros [-> | ->]; [reflexivity | rewrite andb_false_r; reflexivity].
  - intros [-> ->]. cbn [andb negb].
    pose proof (WaitForEvent_body_queue event rest w).
    apply WaitForEvent_loop_fuel; rewrite ?Hq; cbn [length]; lia.
Qed.

End EventLoop.

(** C7 as stated fails: a button press that no handler claims ends the
    loop although the shutdown flag is clear. *)
Lemma loop_claim_counterexample :
  ~ loop_claim sample_cfg (sample_ext (0, 0) (fun _ => false))
      (sample_world [sample_client 10 STAT_MAPPED]
         [ButtonEvent (sample_press 11 1000)]).
Proof.
  intros Hclaim. specialize (Hclaim _ _ eq_refl).
  vm_compute in Hclaim. discriminate Hclaim.
Qed.

Lemma WaitForEvent_exit_condition_witness :
  let E := sample_ext (0, 0) (fun _ => false) in
  let w :=
    sample_world [sample_client 10 STAT_MAPPED]
      [ButtonEvent (sample_press 11 1000)] in
  eval (WaitForEvent sample_cfg E) w = Some (ButtonEvent (sample_press 11 1000))
  /\ shouldExit (exec (WaitForEvent sample_cfg E) w) = false.
Proof.
  cbn zeta.
  destruct (WaitForEvent_exit_condition sample_cfg
              (sample_ext (0, 0) (fun _ => false))
              (sample_world [sample_client 10 STAT_MAPPED]
                 [ButtonEvent (sample_press 11 1000)])
              (ButtonEvent (sample_press 11 1000)) [] eq_refl)
    as [Hstop _].
  unfold eval, exec. rewrite Hstop by (left; reflexivity).
  split; reflexivity.
Defined.

(** ** Unmap and destroy notifications *)

Lemma take_first_app (p : XEvent -> bool) (pre post : list XEvent) e :
  Forall (fun e' => p e' = false) pre -> p e = true ->
  take_first p (pre ++ e :: post) = Some (e, pre ++ post).
Proof.
  intros Hpre He. induction Hpre as [|e' pre He' Hpre IH]; cbn.
  - rewrite He. reflexivity.
  - rewrite He', IH. reflexivity.
Qed.

Section UnmapDestroy.

Variable E : Externals.

(** C8, as amended.  An unmap notification for the primary window of a
    client, with a destroy notification for that window already queued
    that is reported on the window itself (its [event] member is the
    window: this is what [XCheckTypedWindowEvent] looks for; it takes the
    first such notification, immediately behind or further back), is
    handled as one destroy: the destroy notification is taken off the
    queue, the controller, if any, is called with the destroy flag, and the
    client is removed once.  The steps of an unmap (the controller call of
    the unmap path, clearing the mapped flag, unmapping the decoration,
    writing the state) do not happen, and no destroy notification for the
    window is left to be processed. *)
Theorem HandleUnmapNotify_queued_destroy (event : XUnmapEvent.t)
  (d : XDestroyWindowEvent.t) (pre post : list XEvent) (w : World)
  (c : ClientNode.t) :
  let np := XUnmapEvent.window event in
  clients w !! np = Some c ->
  ClientNode.window c = np ->
  queue w = pre ++ DestroyNotify d :: post ->
  Forall (fun e => is_DestroyNotify e && (xany_window e =? np) = false) pre ->
  XDestroyWindowEvent.event d = np ->
  XDestroyWindowEvent.window d = np ->
  let after := exec (HandleUnmapNotify E event) w in
  after
  = with_frames (delete (ClientNode.parent c) (frames w))
      (with_clients (delete np (clients w))
         (with_trace
            (trace w ++ controller_log c np 1 ++ [Ext "RemoveClient" [np]])
            (with_queue (pre ++ post) w)))
  /\ clients after !! np = None
  /\ queue after = pre ++ post
  /\ filter is_display_call (trace after) = filter is_display_call (trace w).
Proof.
  cbn zeta. intros Hc Hwin Hq Hpre Hevent Hwindow.
  set (np := XUnmapEvent.window event) in *.
  destruct w as [m fr q se mp ck sl lt lx ly da tr].
  cbn [clients queue frames trace with_frames with_clients with_trace
       with_queue] in *.
  subst q.
  match goal with
  | |- ?run = ?result /\ _ => assert (Hrun : run = result)
  end.
  { rewrite <- (insert_id m np c Hc) at 1.
    apply wp_exec. unfold HandleUnmapNotify, controller_log. fold np.
    wp_run. rewrite Hwin, Z.eqb_refl. wp_run.
    rewrite (take_first_app _ pre post (DestroyNotify d)); cycle 1.
    { exact Hpre. }
    { cbn. rewrite Hevent. apply Z.eqb_refl. }
    unfold HandleDestroyNotify. wp_run. rewrite Hwindow. wp_run.
    rewrite Hwin, Z.eqb_refl. wp_run.
    destruct (ClientNode.controller c); wp_run;
      rewrite delete_insert_eq, <- ?app_assoc; reflexivity. }
  rewrite Hrun. cbn [clients queue trace].
  split; [reflexivity|]. split; [apply lookup_delete_eq|].
  split; [reflexivity|].
  rewrite !filter_app, filter_controller_log. cbn. rewrite app_nil_r.
  reflexivity.
Qed.

End UnmapDestroy.

Lemma HandleUnmapNotify_queued_destroy_witness :
  let E := sample_ext (0, 0) (fun _ => false) in
  let after :=
    exec (HandleUnmapNotify E (sample_unmap 10))
      (sample_world [sample_client 10 STAT_MAPPED]
         [DestroyNotify (sample_destroy 10)]) in
  clients after !! 10 = None
  /\ queue after = []
  /\ trace after = [Ext "RemoveClient" [10]].
Proof.
  cbn zeta.
  destruct (HandleUnmapNotify_queued_destroy
              (sample_ext (0, 0) (fun _ => false)) (sample_unmap 10)
              (sample_destroy 10) [] []
              (sample_world [sample_client 10 STAT_MAPPED]
                 [DestroyNotify (sample_destroy 10)])
              (sample_client 10 STAT_MAPPED))
    as (Hafter & Hgone & Hqueue & _).
  - reflexivity.
  - reflexivity.
  - reflexivity.
  - constructor.
  - reflexivity.
  - reflexivity.
  - split; [exact Hgone|]. split; [exact Hqueue|].
    rewrite Hafter. reflexivity.
Defined.

(** C8 as stated fails: a destroy notification for the window of client
    10 that is reported on its decoration window 11 is not found by the
    handler of the unmap notification: the client stays registered, the
    decoration is unmapped and the destroy notification stays queued, to
    be processed on its own. *)
Lemma unmap_destroy_claim_counterexample :
  ~ unmap_destroy_claim (sample_ext (0, 0) (fun _ => false)) (sample_unmap 10)
      (XDestroyWindowEvent.mk 11 10)
      (sample_world [sample_client 10 STAT_MAPPED]
         [DestroyNotify (XDestroyWindowEvent.mk 11 10)]).
Proof.
  intros Hclaim.
  destruct (Hclaim (sample_client 10 STAT_MAPPED) [] eq_refl eq_refl eq_refl
              eq_refl) as (Hgone & _).
  vm_compute in Hgone. discriminate Hgone.
Qed.

(** What happens there instead: the unmap path runs and the destroy
    notification is left in the queue. *)
Example HandleUnmapNotify_destroy_on_decoration :
  let after :=
    exec (HandleUnmapNotify (sample_ext (0, 0) (fun _ => false))
            (sample_unmap 10))
      (sample_world [sample_client 10 STAT_MAPPED]
         [DestroyNotify (XDestroyWindowEvent.mk 11 10)]) in
  trace after
  = [JXUnmapWindow 11; Ext "WriteState" [10]; Ext "UpdateTaskBar" [];
     Ext "UpdatePager" []]
  /\ queue after = [DestroyNotify (XDestroyWindowEvent.mk 11 10)].
Proof. vm_compute. split; reflexivity. Qed.

(** Without a queued destroy notification the same unmap notification
    takes the unmap path. *)
Example HandleUnmapNotify_alone :
  trace (exec (HandleUnmapNotify (sample_ext (0, 0) (fun _ => false))
                 (sample_unmap 10))
           (sample_world [sample_client 10 STAT_MAPPED] []))
  = [JXUnmapWindow 11; Ext "WriteState" [10]; Ext "UpdateTaskBar" [];
     Ext "UpdatePager" []].
Proof. vm_compute. reflexivity. Qed.

(** ** Desktop-assignment messages *)

Lemma atoms_eqb (cfg : Config) (a b : AtomType) :
  Inj (=) (=) (atoms cfg) ->
  (atoms cfg a =? atoms cfg b) = bool_decide (a = b).
Proof.
  intros Hinj. case_bool_decide as Hab.
  - subst. apply Z.eqb_refl.
  - apply Z.eqb_neq. intros H. apply Hab, Hinj, H.
Qed.

Lemma sample_atoms_inj : Inj (=) (=) sample_atoms.
Proof.
  intros a b H. destruct a, b; try reflexivity; discriminate H.
Qed.

Section ClientMessage.

Variable cfg : Config.
Variable E : Externals.

Hypothesis atoms_inj : Inj (=) (=) (atoms cfg).

(** C9.  A desktop-assignment message for a client with the value -1 marks
    the window sticky.  With a valid desktop index (0 <= value < desktop
    count) the controller, if any, is called first, then the sticky flag is
    cleared and the window is assigned to that desktop.  With any other
    value only the controller is called: the record of the client, with its
    sticky flag and its desktop, stays as it is. *)
Theorem HandleClientMessage_desktop (event : XClientMessageEvent.t)
  (w : World) (c : ClientNode.t) :
  let np := XClientMessageEvent.window event in
  let value := XClientMessageEvent.l event 0 in
  let after := exec (HandleClientMessage cfg E event) w in
  clients w !! np = Some c ->
  XClientMessageEvent.message_type event = atoms cfg ATOM_NET_WM_DESKTOP ->
  (value = -1 ->
   after
   = with_clients
       (<[np := ClientNode.set_status
                  (flag_set (ClientNode.status c) STAT_STICKY) c]> (clients w))
       (with_trace (trace w ++ [Ext "SetClientSticky" [np; 1]]) w))
  /\ (0 <= value < desktopCount cfg ->
      after
      = with_clients
          (<[np := ClientNode.set_desktop value
                     (ClientNode.set_status
                        (flag_clear (ClientNode.status c) STAT_STICKY) c)]>
             (clients w))
          (with_trace
             (trace w ++ controller_log c np 0
              ++ [Ext "SetClientDesktop" [np; value]]) w))
  /\ (value <> -1 -> ~ 0 <= value < desktopCount cfg ->
      after = with_trace (trace w ++ controller_log c np 0) w).
Proof.
  cbn zeta. intros Hc Htype.
  set (np := XClientMessageEvent.window event) in *.
  destruct w as [m fr q se mp ck sl lt lx ly da tr].
  cbn [clients trace with_clients with_trace] in *.
  assert (Hrun : forall P : World -> Prop,
            wp (HandleClientMessage cfg E event)
              (mkWorld (<[np:=c]> m) fr q se mp ck sl lt lx ly da tr)
              (fun _ w' => P w') ->
            P (exec (HandleClientMessage cfg E event)
                 (mkWorld m fr q se mp ck sl lt lx ly da tr))).
  { intros P HP. rewrite <- (insert_id m np c Hc) at 1. exact HP. }
  assert (Hbranch : forall A (a1 a2 a3 a4 a5 a6 : A),
            (if XClientMessageEvent.message_type event =? atoms cfg ATOM_WIN_STATE
             then a1
             else if XClientMessageEvent.message_type event
                     =? atoms cfg ATOM_WIN_LAYER then a2
             else if XClientMessageEvent.message_type event
                     =? atoms cfg ATOM_WM_CHANGE_STATE then a3
             else if XClientMessageEvent.message_type event
                     =? atoms cfg ATOM_NET_ACTIVE_WINDOW then a4
             else if XClientMessageEvent.message_type event
                     =? atoms cfg ATOM_NET_WM_DESKTOP then a5
             else a6) = a5).
  { intros. rewrite Htype, !atoms_eqb by assumption. reflexivity. }
  unfold controller_log.
  split; [|split].
  - intros Hvalue. apply Hrun. unfold HandleClientMessage. fold np.
    wp_run. rewrite Hbranch, Hvalue. change (-1 =? Z.lnot 0) with true.
    wp_run. reflexivity.
  - intros Hvalue. apply Hrun. unfold HandleClientMessage. fold np.
    wp_run. rewrite Hbranch.
    destruct (Z.eqb_spec (XClientMessageEvent.l event 0) (Z.lnot 0)) as [Heq|_];
      [change (Z.lnot 0) with (-1) in Heq; lia|].
    wp_run.
    replace ((0 <=? XClientMessageEvent.l event 0)
             && (XClientMessageEvent.l event 0 <? desktopCount cfg))
      with true by (symmetry; apply andb_true_intro; split;
                    [apply Z.leb_le | apply Z.ltb_lt]; lia).
    destruct (ClientNode.controller c); wp_run;
      rewrite <- ?app_assoc; reflexivity.
  - intros Hsticky Hinvalid. apply Hrun. unfold HandleClientMessage. fold np.
    wp_run. rewrite Hbranch.
    destruct (Z.eqb_spec (XClientMessageEvent.l event 0) (Z.lnot 0)) as [Heq|_];
      [change (Z.lnot 0) with (-1) in Heq; lia|].
    wp_run.
    replace ((0 <=? XClientMessageEvent.l event 0)
             && (XClientMessageEvent.l event 0 <? desktopCount cfg))
      with false.
    2:{ symmetry. apply andb_false_iff.
        destruct (Z.leb_spec 0 (XClientMessageEvent.l event 0)); [|auto].
        right. apply Z.ltb_ge. lia. }
    destruct (ClientNode.controller c); wp_run;
      rewrite ?(insert_id m np c Hc), ?app_nil_r; reflexivity.
Qed.

End ClientMessage.

Lemma HandleClientMessage_desktop_witness :
  let E := sample_ext (0, 0) (fun _ => false) in
  let c0 := sample_client 10 0 in
  let c := sample_client 10 STAT_STICKY in
  let w := sample_world [c] [] in
  exec (HandleClientMessage sample_cfg E (sample_desktop_message (-1)))
    (sample_world [c0] [])
  = with_trace [Ext "SetClientSticky" [10; 1]] w
  /\ exec (HandleClientMessage sample_cfg E (sample_desktop_message 2)) w
     = with_clients
         {[ 10 := ClientNode.set_desktop 2 c0 ]}
         (with_trace [Ext "SetClientDesktop" [10; 2]] w)
  /\ exec (HandleClientMessage sample_cfg E (sample_desktop_message 7)) w
     = w.
Proof.
  intros E c0 c w.
  split; [|split].
  - destruct (HandleClientMessage_desktop sample_cfg E sample_atoms_inj
                (sample_desktop_message (-1)) (sample_world [c0] []) c0
                eq_refl eq_refl)
      as (Hsticky & _ & _).
    rewrite Hsticky by reflexivity. vm_compute. reflexivity.
  - destruct (HandleClientMessage_desktop sample_cfg E sample_atoms_inj
                (sample_desktop_message 2) w c eq_refl eq_refl)
      as (_ & Hdesktop & _).
    rewrite Hdesktop by (vm_compute; split; [discriminate | reflexivity]).
    vm_compute. reflexivity.
  - destruct (HandleClientMessage_desktop sample_cfg E sample_atoms_inj
                (sample_desktop_message 7) w c eq_refl eq_refl)
      as (_ & _ & Hother).
    rewrite Hother;
      [reflexivity | discriminate | vm_compute; intros [_ H]; discriminate H].
Defined.

(** ** Wheel buttons on a decoration window *)

Section WheelButtons.

Variable cfg : Config.
Variable E : Externals.

(** A button event on the decoration window of a client with button 4 calls
    [ShadeClient], with button 5 [UnshadeClient], whatever the type of the
    event. *)
Lemma HandleButtonEvent_wheel (event : XButtonEvent.t) (np : Z)
  (c : ClientNode.t) (w : World) :
  frames w !! XButtonEvent.window event = Some np ->
  clients w !! np = Some c ->
  (XButtonEvent.button event = Button4 ->
   exec (HandleButtonEvent cfg E event) w
   = with_clients
       (<[np := ClientNode.set_status
                  (flag_set (ClientNode.status c) STAT_SHADED) c]> (clients w))
       (with_trace (trace w ++ wheel_log cfg np "ShadeClient") w))
  /\ (XButtonEvent.button event = Button5 ->
      exec (HandleButtonEvent cfg E event) w
      = with_clients
          (<[np := ClientNode.set_status
                     (flag_clear (ClientNode.status c) STAT_SHADED) c]>
             (clients w))
          (with_trace (trace w ++ wheel_log cfg np "UnshadeClient") w)).
Proof.
  intros Hframe Hc.
  destruct w as [m fr q se mp ck sl lt lx ly da tr].
  cbn [clients frames trace with_clients with_trace] in *.
  unfold wheel_log, raise_log.
  split; intros Hbutton.
  all: rewrite <- (insert_id m np c Hc) at 1; apply wp_exec.
  all: unfold HandleButtonEvent; wp_run.
  all: rewrite Hframe; cbn [mbind option_bind]; rewrite lookup_insert_eq.
  all: cbn [fmap option_fmap option_map]; wp_run.
  all: rewrite Hbutton; cbn [Z.eqb Button1 Button2 Button3 Button4 Button5
                               Pos.eqb]; cbv iota.
  all: unfold focus_on_click, ShadeClient, UnshadeClient.
  all: destruct (bool_decide (focusModel cfg = FOCUS_CLICK)); wp_run.
  all: rewrite ?insert_insert_eq, <- ?app_assoc; reflexivity.
Qed.

(** C10.  A button event on the decoration window of a client with
    button 4 shades the client and with button 5 unshades it, and the type
    of the event plays no part: of the two events of one click, the press
    and the release, each one raises the client, calls [ShadeClient]
    (button 4) or [UnshadeClient] (button 5) and updates the pager, so the
    call is made twice for the click. *)
Theorem HandleButtonEvent_shade_press_and_release
  (press release : XButtonEvent.t) (np : Z) (c : ClientNode.t) (w : World) :
  XButtonEvent.type press = ButtonPress ->
  XButtonEvent.type release = ButtonRelease ->
  XButtonEvent.window release = XButtonEvent.window press ->
  XButtonEvent.button release = XButtonEvent.button press ->
  frames w !! XButtonEvent.window press = Some np ->
  clients w !! np = Some c ->
  let w1 := exec (ProcessEvent cfg E (ButtonEvent press)) w in
  let w2 := exec (ProcessEvent cfg E (ButtonEvent release)) w1 in
  (XButtonEvent.button press = Button4 ->
   w1 = with_clients
          (<[np := ClientNode.set_status
                     (flag_set (ClientNode.status c) STAT_SHADED) c]>
             (clients w))
          (with_trace (trace w ++ wheel_log cfg np "ShadeClient") w)
   /\ w2 = with_trace (trace w1 ++ wheel_log cfg np "ShadeClient") w1)
  /\ (XButtonEvent.button press = Button5 ->
      w1 = with_clients
             (<[np := ClientNode.set_status
                        (flag_clear (ClientNode.status c) STAT_SHADED) c]>
                (clients w))
             (with_trace (trace w ++ wheel_log cfg np "UnshadeClient") w)
      /\ w2 = with_trace (trace w1 ++ wheel_log cfg np "UnshadeClient") w1).
Proof.
  intros _ _ Hwindow Hsame Hframe Hc. cbn zeta.
  change (ProcessEvent cfg E (ButtonEvent press))
    with (HandleButtonEvent cfg E press).
  change (ProcessEvent cfg E (ButtonEvent release))
    with (HandleButtonEvent cfg E release).
  destruct (HandleButtonEvent_wheel press np c w Hframe Hc)
    as [Hshade Hunshade].
  split; intros Hbutton.
  - rewrite (Hshade Hbutton). split; [reflexivity|].
    destruct w as [m fr q se mp ck sl lt lx ly da tr].
    cbn [clients frames trace with_clients with_trace] in *.
    rewrite <- Hwindow in Hframe. rewrite <- Hsame in Hbutton.
    match goal with
    | |- exec _ ?w1 = _ =>
        destruct (HandleButtonEvent_wheel release np
                    (ClientNode.set_status
                       (flag_set (ClientNode.status c) STAT_SHADED) c)
                    w1 Hframe (lookup_insert_eq _ _ _)) as [Hagain _]
    end.
    rewrite (Hagain Hbutton).
    cbn [clients frames trace with_clients with_trace].
    rewrite insert_insert_eq. destruct c.
    cbn [ClientNode.set_status ClientNode.status].
    unfold STAT_SHADED. rewrite flag_set_set by lia. reflexivity.
  - rewrite (Hunshade Hbutton). split; [reflexivity|].
    destruct w as [m fr q se mp ck sl lt lx ly da tr].
    cbn [clients frames trace with_clients with_trace] in *.
    rewrite <- Hwindow in Hframe. rewrite <- Hsame in Hbutton.
    match goal with
    | |- exec _ ?w1 = _ =>
        destruct (HandleButtonEvent_wheel release np
                    (ClientNode.set_status
                       (flag_clear (ClientNode.status c) STAT_SHADED) c)
                    w1 Hframe (lookup_insert_eq _ _ _)) as [_ Hagain]
    end.
    rewrite (Hagain Hbutton).
    cbn [clients frames trace with_clients with_trace].
    rewrite insert_insert_eq. destruct c.
    cbn [ClientNode.set_status ClientNode.status].
    unfold STAT_SHADED. rewrite flag_clear_clear by lia. reflexivity.
Qed.

End WheelButtons.

Lemma HandleButtonEvent_shade_press_and_release_witness :
  let E := sample_ext (0, 0) (fun _ => false) in
  let w := sample_world [sample_client 10 0] [] in
  let w2 :=
    exec (ProcessEvent sample_cfg E (ButtonEvent (sample_wheel ButtonPress 4));;
          ProcessEvent sample_cfg E
            (ButtonEvent (sample_wheel ButtonRelease 4))) w in
  trace w2
  = [Ext "RaiseClient" [10]; Ext "FocusClient" [10]; Ext "ShadeClient" [10];
     Ext "UpdatePager" [];
     Ext "RaiseClient" [10]; Ext "FocusClient" [10]; Ext "ShadeClient" [10];
     Ext "UpdatePager" []]
  /\ clients w2 !! 10 = Some (sample_client 10 STAT_SHADED).
Proof.
  intros E w w2. subst w2. rewrite exec_bind.
  destruct (HandleButtonEvent_shade_press_and_release sample_cfg E
              (sample_wheel ButtonPress 4) (sample_wheel ButtonRelease 4)
              10 (sample_client 10 0) w
              eq_refl eq_refl eq_refl eq_refl eq_refl eq_refl)
    as [Hshade _].
  destruct (Hshade eq_refl) as [Hpress Hrelease].
  rewrite Hrelease, Hpress. split; vm_compute; reflexivity.
Defined.

(** * Properties of the other handlers *)

(** ** Timers and queued motion events *)

Section Timers.

Variable E : Externals.

(** What [Signal] leaves: nothing new within [MIN_TIME_DELTA] of the last
    round, otherwise the time of this round and the five calls. *)
Lemma Signal_exec (w : World) :
  exec (Signal E) w
  = if GetTimeDifference E (clock w) (Signal_last w) <? MIN_TIME_DELTA then w
    else
      let now := clock w in
      let x := (mousePosition w).1 in
      let y := (mousePosition w).2 in
      with_trace
        (trace w ++ [Ext "SignalTaskbar" [now; x; y];
                     Ext "SignalTrayButton" [now; x; y];
                     Ext "SignalClock" [now; x; y];
                     Ext "SignalTray" [now; x; y];
                     Ext "SignalPopup" [now; x; y]])
        (with_Signal_last now w).
Proof.
  destruct w as [m fr q se [x y] ck sl lt lx ly da tr].
  apply wp_exec. unfold Signal. wp_run.
  destruct (_ <? _); wp_run; [reflexivity|].
  rewrite <- !app_assoc. reflexivity.
Qed.

(** X1.  [Signal] is rate limited: a second call at the same instant does
    nothing, when the time difference of an instant to itself is below
    [MIN_TIME_DELTA]. *)
Theorem Signal_twice (w : World) :
  GetTimeDifference E (clock w) (clock w) < MIN_TIME_DELTA ->
  exec (Signal E;; Signal E) w = exec (Signal E) w.
Proof.
  intros Hsame. apply Z.ltb_lt in Hsame.
  rewrite exec_bind, (Signal_exec w).
  destruct (GetTimeDifference E (clock w) (Signal_last w) <? MIN_TIME_DELTA)
    eqn:Hfirst.
  - rewrite Signal_exec, Hfirst. reflexivity.
  - rewrite Signal_exec.
    destruct w as [m fr q se mp ck sl lt lx ly da tr].
    cbn [clock Signal_last with_Signal_last with_trace] in *.
    rewrite Hsame. reflexivity.
Qed.

End Timers.

Lemma Signal_twice_witness :
  let E := sample_ext (0, 0) (fun _ => false) in
  let w := sample_world_at 1000 [] [] in
  trace (exec (Signal E;; Signal E) w)
  = [Ext "SignalTaskbar" [1000; 0; 0]; Ext "SignalTrayButton" [1000; 0; 0];
     Ext "SignalClock" [1000; 0; 0]; Ext "SignalTray" [1000; 0; 0];
     Ext "SignalPopup" [1000; 0; 0]].
Proof.
  intros E w.
  rewrite (Signal_twice E w) by (vm_compute; reflexivity).
  vm_compute. reflexivity.
Defined.

Lemma last_motion_event_filter (win : Z) (event : XEvent) (q : list XEvent) :
  last_motion_event win event (List.filter is_MotionNotify q)
  = last_motion_event win event q.
Proof.
  unfold last_motion_event. revert event.
  induction q as [|e q IH]; intros event; cbn; [reflexivity|].
  destruct e; cbn; auto.
Qed.

Lemma last_pointer_filter (pos : Z * Z) (q : list XEvent) :
  last_pointer pos (List.filter is_MotionNotify q) = last_pointer pos q.
Proof.
  unfold last_pointer. revert pos.
  induction q as [|e q IH]; intros pos; cbn; [reflexivity|].
  destruct e; cbn; auto.
Qed.

Lemma DiscardMotionEvents_loop_spec (fuel : nat) (event : XEvent) (win : Z)
  (w : World) :
  (length (List.filter is_MotionNotify (queue w)) <= fuel)%nat ->
  DiscardMotionEvents_loop fuel event win w
  = (last_motion_event win event (queue w),
     with_mousePosition (last_pointer (mousePosition w) (queue w))
       (with_queue (without_motion (queue w)) w)).
Proof.
  revert event w. induction fuel as [|fuel IH]; intros event w Hfuel.
  - destruct w as [m fr q se mp ck sl lt lx ly da tr].
    cbn [queue with_queue mousePosition with_mousePosition
         DiscardMotionEvents_loop] in *.
    assert (Hnone : List.filter is_MotionNotify q = [])
      by (destruct (List.filter is_MotionNotify q);
          [reflexivity | cbn in Hfuel; lia]).
    unfold without_motion. rewrite (filter_negb_nil _ _ Hnone).
    rewrite <- last_motion_event_filter, <- last_pointer_filter, Hnone.
    reflexivity.
  - cbn [DiscardMotionEvents_loop].
    unfold mbind at 1, M_bind at 1, JXCheckTypedEvent.
    destruct (take_first is_MotionNotify (queue w)) as [[e q']|] eqn:Htake.
    + destruct (take_first_Some _ _ _ _ Htake) as (Hmotion & Hf & Hn).
      destruct e as [| | | | |temp| | | | | | | | | | | | | | | | | |];
        try discriminate Hmotion.
      unfold mbind, M_bind, SetMousePosition, modify. rewrite IH.
      * destruct w as [m fr q se mp ck sl lt lx ly da tr].
        cbn [queue with_queue mousePosition with_mousePosition] in *.
        unfold without_motion. rewrite Hn.
        rewrite <- (last_motion_event_filter win event q),
          <- (last_pointer_filter mp q), Hf,
          <- last_motion_event_filter, <- last_pointer_filter.
        reflexivity.
      * destruct w as [m fr q se mp ck sl lt lx ly da tr].
        cbn [queue with_queue with_mousePosition] in *.
        rewrite Hf in Hfuel. cbn [length] in Hfuel. lia.
    + pose proof (take_first_None _ _ Htake) as Hnone.
      unfold mret, M_ret, without_motion.
      rewrite (filter_negb_nil _ _ Hnone).
      rewrite <- last_motion_event_filter, <- last_pointer_filter, Hnone.
      destruct w; reflexivity.
Qed.

(** X2.  [DiscardMotionEvents] takes every motion event off the queue, for
    whatever window, and leaves the other events in their order; it hands
    back the most recent motion event for the window asked for (the event
    given when there is none); the pointer cache holds the root coordinates
    of the most recent motion event for any window.  Nothing else changes
    and no call is made. *)
Theorem DiscardMotionEvents_spec (event : XEvent) (win : Z) (w : World) :
  DiscardMotionEvents event win w
  = (last_motion_event win event (queue w),
     with_mousePosition (last_pointer (mousePosition w) (queue w))
       (with_queue (without_motion (queue w)) w)).
Proof.
  unfold DiscardMotionEvents, mbind, M_bind, get.
  apply DiscardMotionEvents_loop_spec, filter_length_le.
Qed.

(** ** Unmapping and mapping *)

Lemma take_first_Forall (p : XEvent -> bool) (q : list XEvent) :
  Forall (fun e => p e = false) q -> take_first p q = None.
Proof.
  induction 1 as [|e q He _ IH]; cbn; [reflexivity|].
  rewrite He, IH. reflexivity.
Qed.

Section UnmapMap.

Variable cfg : Config.
Variable E : Externals.

(** What an unmap notification for the primary window of a client leaves
    when no destroy notification for the window is queued. *)
Lemma HandleUnmapNotify_exec (event : XUnmapEvent.t) (w : World)
  (c : ClientNode.t) :
  let np := XUnmapEvent.window event in
  clients w !! np = Some c ->
  ClientNode.window c = np ->
  no_destroy_queued np (queue w) ->
  exec (HandleUnmapNotify E event) w
  = with_clients
      (<[np := ClientNode.set_status
                 (flag_clear (ClientNode.status c) STAT_MAPPED) c]>
         (clients w))
      (with_trace (trace w ++ controller_log c np 1 ++ unmap_log c np) w).
Proof.
  cbn zeta. intros Hc Hwin Hq.
  set (np := XUnmapEvent.window event) in *.
  destruct w as [m fr q se mp ck sl lt lx ly da tr].
  cbn [clients queue frames trace with_clients with_trace] in *.
  rewrite <- (insert_id m np c Hc) at 1.
  apply wp_exec. unfold HandleUnmapNotify, controller_log, unmap_log. fold np.
  wp_run. rewrite Hwin, Z.eqb_refl. wp_run.
  rewrite (take_first_Forall _ q Hq).
  wp_run.
  destruct (ClientNode.controller c); wp_run;
    destruct (flag_test (ClientNode.status c) STAT_MAPPED) eqn:Hmapped;
    wp_run; rewrite ?insert_insert_eq, <- ?app_assoc, ?app_nil_r;
    try reflexivity.
  all: unfold STAT_MAPPED in *; rewrite flag_clear_already by (lia || exact Hmapped).
  all: destruct c; reflexivity.
Qed.

(** X3.  An unmap notification for the primary window of a client, with no
    destroy notification for the window queued, keeps the client in the
    registry with its mapped flag clear; the controller, if any, is called
    with flag 1; the decoration is unmapped and the state written exactly
    when the client was mapped, so a repeated notification makes no
    request to the display. *)
Theorem HandleUnmapNotify_unmap (event : XUnmapEvent.t) (w : World)
  (c : ClientNode.t) :
  let np := XUnmapEvent.window event in
  clients w !! np = Some c ->
  ClientNode.window c = np ->
  no_destroy_queued np (queue w) ->
  let after := exec (HandleUnmapNotify E event) w in
  let again := exec (HandleUnmapNotify E event) after in
  clients after
  = <[np := ClientNode.set_status
              (flag_clear (ClientNode.status c) STAT_MAPPED) c]> (clients w)
  /\ trace after = trace w ++ controller_log c np 1 ++ unmap_log c np
  /\ queue after = queue w
  /\ trace again = trace after ++ controller_log c np 1
  /\ clients again = clients after.
Proof.
  cbn zeta. intros Hc Hwin Hq.
  set (np := XUnmapEvent.window event) in *.
  pose proof (HandleUnmapNotify_exec event w c Hc Hwin Hq) as Hafter.
  fold np in Hafter. rewrite Hafter.
  set (c' := ClientNode.set_status
               (flag_clear (ClientNode.status c) STAT_MAPPED) c).
  destruct w as [m fr q se mp ck sl lt lx ly da tr].
  cbn [clients queue frames trace with_clients with_trace] in *.
  assert (Hclear : flag_test (ClientNode.status c') STAT_MAPPED = false).
  { subst c'. destruct c. cbn [ClientNode.status ClientNode.set_status].
    unfold STAT_MAPPED. apply flag_test_clear. lia. }
  split; [reflexivity|]. split; [reflexivity|]. split; [reflexivity|].
  match goal with
  | |- context [exec _ ?w1] =>
      pose proof (HandleUnmapNotify_exec event w1 c') as Hagain
  end.
  cbn [clients queue frames trace with_clients with_trace] in Hagain.
  fold np in Hagain. rewrite Hagain; cycle 1.
  { apply lookup_insert_eq. }
  { subst c'. destruct c. exact Hwin. }
  { exact Hq. }
  cbn [clients trace].
  unfold unmap_log at 2. rewrite Hclear, app_nil_r.
  split.
  - f_equal. subst c'. destruct c. reflexivity.
  - rewrite insert_insert_eq. f_equal. subst c'. destruct c.
    cbn [ClientNode.status ClientNode.set_status]. unfold STAT_MAPPED.
    rewrite flag_clear_clear by lia. reflexivity.
Qed.

(** What a map request for the primary window of a client leaves, when
    the window is not swallowed. *)
Lemma HandleMapRequest_exec (event : XMapEvent.t) (w : World)
  (c : ClientNode.t) :
  let np := XMapEvent.window event in
  clients w !! np = Some c ->
  CheckSwallowMap_swallowed E w event = false ->
  exec (HandleMapRequest cfg E event) w
  = with_clients
      (<[np := ClientNode.set_status (mapped_status (ClientNode.status c)) c]>
         (clients w))
      (with_trace
         (trace w ++ [Ext "CheckSwallowMap" [np]] ++ map_log cfg c np
          ++ [Ext "RestackClients" []]) w).
Proof.
  cbn zeta. intros Hc Hswallow.
  set (np := XMapEvent.window event) in *.
  destruct w as [m fr q se mp ck sl lt lx ly da tr].
  cbn [clients queue frames trace with_clients with_trace] in *.
  rewrite <- (insert_id m np c Hc) at 1.
  apply wp_exec. unfold HandleMapRequest, map_log, mapped_status, raise_log.
  fold np. wp_run.
  rewrite (insert_id m np c Hc), Hswallow.
  rewrite <- (insert_id m np c Hc) at 1.
  wp_run.
  destruct (flag_test (ClientNode.status c) STAT_MAPPED); wp_run.
  - rewrite <- ?app_assoc. destruct c. reflexivity.
  - destruct (bool_decide (focusModel cfg = FOCUS_CLICK)); wp_run;
      rewrite ?insert_insert_eq, <- ?app_assoc; reflexivity.
Qed.

(** X4.  A map request for the primary window of a client that is not swallowed
    leaves the client mapped.  For a client that is mapped already it
    changes no record and sends nothing to the display; for a client that
    is not, it sets the mapped flag, clears the minimized and the
    other-desktop flag, and maps the content and the decoration window, in
    this order. *)
Theorem HandleMapRequest_managed (event : XMapEvent.t) (w : World)
  (c : ClientNode.t) :
  let np := XMapEvent.window event in
  clients w !! np = Some c ->
  CheckSwallowMap_swallowed E w event = false ->
  let after := exec (HandleMapRequest cfg E event) w in
  let mapped := flag_test (ClientNode.status c) STAT_MAPPED in
  (exists c', clients after !! np = Some c'
     /\ flag_test (ClientNode.status c') STAT_MAPPED = true
     /\ (mapped = false ->
         flag_test (ClientNode.status c') STAT_MINIMIZED = false
         /\ flag_test (ClientNode.status c') STAT_SDESKTOP = false))
  /\ (mapped = true -> clients after = clients w)
  /\ filter is_display_call (trace after)
     = filter is_display_call (trace w)
       ++ (if mapped then []
           else [JXMapWindow (ClientNode.window c);
                 JXMapWindow (ClientNode.parent c)]).
Proof.
  cbn zeta. intros Hc Hswallow.
  rewrite (HandleMapRequest_exec event w c Hc Hswallow).
  set (np := XMapEvent.window event) in *.
  destruct w as [m fr q se mp ck sl lt lx ly da tr].
  cbn [clients queue frames trace with_clients with_trace] in *.
  unfold mapped_status, map_log, raise_log.
  destruct (flag_test (ClientNode.status c) STAT_MAPPED) eqn:Hmapped.
  - split; [|split].
    + exists c. split; [|split; [exact Hmapped | discriminate]].
      rewrite lookup_insert_eq. destruct c. reflexivity.
    + intros _. rewrite <- (insert_id m np c Hc) at 2. destruct c.
      reflexivity.
    + rewrite !filter_app. cbn. rewrite !app_nil_r. reflexivity.
  - split; [|split].
    + eexists. split; [apply lookup_insert_eq|].
      destruct c. cbn [ClientNode.status ClientNode.set_status].
      unfold STAT_MAPPED, STAT_MINIMIZED, STAT_SDESKTOP.
      split; [|intros _; split].
      * rewrite !(flag_test_clear_other 1) by lia. apply flag_test_set. lia.
      * rewrite (flag_test_clear_other 6) by lia. apply flag_test_clear. lia.
      * apply flag_test_clear. lia.
    + discriminate.
    + rewrite !filter_app.
      destruct (bool_decide (focusModel cfg = FOCUS_CLICK)); cbn;
        rewrite ?app_nil_r; reflexivity.
Qed.

(** X5.  An unmap notification followed by a map request brings a mapped
    client back, when no destroy notification for the window is queued and
    the swallow module does not take the map request: for a client that is
    mapped and neither minimized nor on another desktop, the registry ends
    as it began, and the display is asked to unmap the decoration and then
    to map the content and the decoration window. *)
Theorem HandleUnmapNotify_then_HandleMapRequest (unmap : XUnmapEvent.t)
  (map : XMapEvent.t) (w : World) (c : ClientNode.t) :
  let np := XUnmapEvent.window unmap in
  XMapEvent.window map = np ->
  clients w !! np = Some c ->
  ClientNode.window c = np ->
  no_destroy_queued np (queue w) ->
  CheckSwallowMap_swallowed E (exec (HandleUnmapNotify E unmap) w) map
  = false ->
  flag_test (ClientNode.status c) STAT_MAPPED = true ->
  flag_test (ClientNode.status c) STAT_MINIMIZED = false ->
  flag_test (ClientNode.status c) STAT_SDESKTOP = false ->
  let after :=
    exec (HandleUnmapNotify E unmap;; HandleMapRequest cfg E map) w in
  clients after = clients w
  /\ frames after = frames w
  /\ filter is_display_call (trace after)
     = filter is_display_call (trace w)
       ++ [JXUnmapWindow (ClientNode.parent c); JXMapWindow np;
           JXMapWindow (ClientNode.parent c)].
Proof.
  cbn zeta. intros Hmap Hc Hwin Hq Hswallow Hmapped Hmin Hdesk.
  set (np := XUnmapEvent.window unmap) in *.
  rewrite exec_bind.
  pose proof (HandleUnmapNotify_exec unmap w c Hc Hwin Hq) as Hunmap.
  fold np in Hunmap. rewrite Hunmap in *.
  set (c1 := ClientNode.set_status
               (flag_clear (ClientNode.status c) STAT_MAPPED) c) in *.
  destruct w as [m fr q se mp ck sl lt lx ly da tr].
  cbn [clients queue frames trace with_clients with_trace] in *.
  match goal with
  | |- context [exec _ ?w1] =>
      pose proof (HandleMapRequest_exec map w1 c1) as Hagain
  end.
  cbn [clients trace with_clients with_trace] in Hagain.
  rewrite Hmap in Hagain. rewrite Hagain; cycle 1.
  { apply lookup_insert_eq. }
  { exact Hswallow. }
  cbn [clients frames trace].
  assert (Hstatus : mapped_status (ClientNode.status c1) = ClientNode.status c).
  { subst c1. destruct c. cbn [ClientNode.status ClientNode.set_status] in *.
    unfold mapped_status, STAT_MAPPED, STAT_MINIMIZED, STAT_SDESKTOP in *.
    rewrite flag_test_clear, flag_set_clear by (lia || assumption).
    rewrite !flag_clear_already; try lia; try assumption.
    rewrite flag_clear_already by (lia || assumption). assumption. }
  split; [|split; [reflexivity|]].
  - rewrite insert_insert_eq, Hstatus.
    rewrite <- (insert_id m np c Hc) at 2. f_equal.
    subst c1. destruct c. reflexivity.
  - unfold unmap_log, map_log. rewrite Hmapped.
    assert (Hunmapped : flag_test (ClientNode.status c1) STAT_MAPPED = false).
    { subst c1. destruct c. cbn [ClientNode.status ClientNode.set_status].
      unfold STAT_MAPPED. apply flag_test_clear. lia. }
    rewrite Hunmapped. rewrite !filter_app, filter_controller_log.
    unfold raise_log.
    destruct (bool_decide (focusModel cfg = FOCUS_CLICK)).
    all: subst c1; destruct c; cbn in *; rewrite ?app_nil_r, <- ?app_assoc;
      subst; reflexivity.
Qed.

(** X6.  A map request for a window that no client owns and that is not
    swallowed asks the client module to adopt the window, with the display
    server grabbed.  When the module declines, the window is mapped as it
    is, so the request is never lost; when it adopts the window, the new
    client enters both registries and is focused under the click policy. *)
Theorem HandleMapRequest_unmanaged (event : XMapEvent.t) (w : World) :
  let win := XMapEvent.window event in
  clients w !! win = None ->
  frames w !! win = None ->
  CheckSwallowMap_swallowed E w event = false ->
  let asked :=
    with_trace
      (trace w ++ [Ext "CheckSwallowMap" [win]; JXSync; JXGrabServer]) w in
  exec (HandleMapRequest cfg E event) w
  = match AddClientWindow_added E asked win with
    | None =>
        with_trace
          (trace w
           ++ [Ext "CheckSwallowMap" [win]; JXSync; JXGrabServer;
               Ext "AddClientWindow" [win; 0; 1]; JXMapWindow win;
               JXSync; JXUngrabServer; Ext "RestackClients" []]) w
    | Some c =>
        with_frames (<[ClientNode.parent c := ClientNode.window c]> (frames w))
          (with_clients (<[ClientNode.window c := c]> (clients w))
             (with_trace
                (trace w
                 ++ [Ext "CheckSwallowMap" [win]; JXSync; JXGrabServer;
                     Ext "AddClientWindow" [win; 0; 1]]
                 ++ (if bool_decide (focusModel cfg = FOCUS_CLICK)
                     then [Ext "FocusClient" [ClientNode.window c]] else [])
                 ++ [JXSync; JXUngrabServer; Ext "RestackClients" []]) w))
    end.
Proof.
  cbn zeta. intros Hc Hframe Hswallow.
  set (win := XMapEvent.window event) in *.
  destruct w as [m fr q se mp ck sl lt lx ly da tr].
  cbn [clients queue frames trace with_clients with_trace with_frames] in *.
  apply wp_exec. unfold HandleMapRequest, AddClientWindow. fold win.
  wp_run. rewrite Hswallow. wp_run. rewrite Hc, Hframe. wp_run.
  rewrite <- !app_assoc. cbn [app].
  destruct (AddClientWindow_added E _ win) as [c|]; wp_run.
  - destruct (bool_decide (focusModel cfg = FOCUS_CLICK)); wp_run;
      rewrite <- ?app_assoc; reflexivity.
  - rewrite <- ?app_assoc. reflexivity.
Qed.

(** X7.  A map request never leaves the display server grabbed: whatever the
    window and whatever the other modules answer, every grab it makes is
    released before it returns. *)
Theorem HandleMapRequest_grab_released (event : XMapEvent.t) (w : World) :
  grab_depth (trace (exec (HandleMapRequest cfg E event) w))
  = grab_depth (trace w).
Proof.
  assert (Happ : forall l l', grab_depth (l ++ l') = grab_depth l + grab_depth l').
  { unfold grab_depth.
    induction l as [|a l IH]; intros l'; cbn [foldr app]; [reflexivity|].
    rewrite IH. lia. }
  destruct w as [m fr q se mp ck sl lt lx ly da tr].
  apply wp_exec. unfold HandleMapRequest, AddClientWindow.
  wp_auto; rewrite !Happ; cbn; lia.
Qed.

End UnmapMap.

Lemma HandleUnmapNotify_unmap_witness :
  let E := sample_ext (0, 0) (fun _ => false) in
  let w := sample_world [sample_client 10 STAT_MAPPED] [] in
  let after := exec (HandleUnmapNotify E (sample_unmap 10)) w in
  clients after !! 10 = Some (sample_client 10 0)
  /\ trace after
     = [JXUnmapWindow 11; Ext "WriteState" [10]; Ext "UpdateTaskBar" [];
        Ext "UpdatePager" []]
  /\ trace (exec (HandleUnmapNotify E (sample_unmap 10)) after) = trace after.
Proof.
  intros E w after.
  destruct (HandleUnmapNotify_unmap E (sample_unmap 10) w
              (sample_client 10 STAT_MAPPED) eq_refl eq_refl)
    as (Hclients & Htrace & _ & Hagain & _).
  { constructor. }
  subst after. split; [|split].
  - rewrite Hclients. vm_compute. reflexivity.
  - rewrite Htrace. vm_compute. reflexivity.
  - rewrite Hagain. vm_compute. reflexivity.
Defined.

Lemma HandleMapRequest_managed_witness :
  let E := sample_ext (0, 0) (fun _ => false) in
  let w := sample_world [sample_client 10 STAT_MINIMIZED] [] in
  let after := exec (HandleMapRequest sample_cfg E (sample_map 10)) w in
  filter is_display_call (trace after) = [JXMapWindow 10; JXMapWindow 11].
Proof.
  intros E w after.
  destruct (HandleMapRequest_managed sample_cfg E (sample_map 10) w
              (sample_client 10 STAT_MINIMIZED) eq_refl eq_refl)
    as (_ & _ & Hcalls).
  subst after. rewrite Hcalls. vm_compute. reflexivity.
Defined.

Lemma HandleUnmapNotify_then_HandleMapRequest_witness :
  let E := sample_ext (0, 0) (fun _ => false) in
  let w := sample_world [sample_client 10 STAT_MAPPED] [] in
  let after :=
    exec (HandleUnmapNotify E (sample_unmap 10);;
          HandleMapRequest sample_cfg E (sample_map 10)) w in
  clients after = clients w
  /\ filter is_display_call (trace after)
     = [JXUnmapWindow 11; JXMapWindow 10; JXMapWindow 11].
Proof.
  intros E w after.
  destruct (HandleUnmapNotify_then_HandleMapRequest sample_cfg E
              (sample_unmap 10) (sample_map 10) w
              (sample_client 10 STAT_MAPPED))
    as (Hclients & _ & Hcalls).
  - reflexivity.
  - reflexivity.
  - reflexivity.
  - constructor.
  - reflexivity.
  - reflexivity.
  - reflexivity.
  - reflexivity.
  - split; [exact Hclients | exact Hcalls].
Defined.

Lemma HandleMapRequest_unmanaged_witness :
  let E := sample_ext (0, 0) (fun _ => false) in
  trace (exec (HandleMapRequest sample_cfg E (sample_map 30))
           (sample_world [sample_client 10 STAT_MAPPED] []))
  = [Ext "CheckSwallowMap" [30]; JXSync; JXGrabServer;
     Ext "AddClientWindow" [30; 0; 1]; JXMapWindow 30; JXSync;
     JXUngrabServer; Ext "RestackClients" []].
Proof.
  intros E.
  rewrite (HandleMapRequest_unmanaged sample_cfg E (sample_map 30)
             (sample_world [sample_client 10 STAT_MAPPED] [])
             eq_refl eq_refl eq_refl).
  reflexivity.
Defined.

(** ** Buttons on a border *)

Lemma wrap_int_period (z k : Z) :
  wrap_int (wrap_ulong (z + k * 2 ^ 32)) = wrap_int (wrap_ulong z).
Proof.
  unfold wrap_int, wrap_ulong. f_equal.
  Z.div_mod_to_equations. lia.
Qed.

Section BorderActions.

Variable cfg : Config.
Variable E : Externals.

(** X8.  The double-click test sees the time between two presses only modulo
    2^32 milliseconds, since the difference of the two time stamps is
    handed to [abs] as an [int]: a press a multiple of 2^32 ms after
    another one is tested like that one.  In particular a press with the
    time stamp of the recorded click, or a multiple of 2^32 ms later, is no
    double click. *)
Theorem DispatchBorderButtonEvent_doubleClick_period
  (type : ButtonEventType) (win time x y state button k : Z) (w : World) :
  let press t := XButtonEvent.mk type win t x y state button in
  DispatchBorderButtonEvent_doubleClick cfg w (press (time + k * 2 ^ 32))
  = DispatchBorderButtonEvent_doubleClick cfg w (press time)
  /\ DispatchBorderButtonEvent_doubleClick cfg w
       (press (lastClickTime w + k * 2 ^ 32)) = false.
Proof.
  cbn zeta. unfold DispatchBorderButtonEvent_doubleClick.
  cbn [XButtonEvent.time XButtonEvent.x XButtonEvent.y].
  split.
  - replace (time + k * 2 ^ 32 - lastClickTime w)
      with (time - lastClickTime w + k * 2 ^ 32) by lia.
    rewrite wrap_int_period. reflexivity.
  - replace (lastClickTime w + k * 2 ^ 32 - lastClickTime w)
      with (0 + k * 2 ^ 32) by lia.
    rewrite wrap_int_period. change (c_abs (wrap_int (wrap_ulong 0))) with 0.
    rewrite Z.ltb_irrefl, andb_false_r. reflexivity.
Qed.

(** X9.  Each border action answers to one kind of button event only: a release
    does nothing on the resize, the move and the menu area, a press does
    nothing on the close, the maximize and the minimize button, and no
    event does anything where there is no action. *)
Theorem DispatchBorderButtonEvent_inert (event : XButtonEvent.t) (np : Z)
  (w : World) :
  let action := border_action E w np event in
  match XButtonEvent.type event with
  | ButtonRelease =>
      action <> BA_CLOSE /\ action <> BA_MAXIMIZE /\ action <> BA_MINIMIZE
  | ButtonPress =>
      action <> BA_RESIZE /\ action <> BA_MOVE /\ action <> BA_MENU
  end ->
  exec (DispatchBorderButtonEvent cfg E event np) w = w.
Proof.
  cbn zeta. unfold border_action. intros Haction.
  destruct w as [m fr q se mp ck sl lt lx ly da tr].
  cbn [clients] in Haction.
  apply wp_exec. unfold DispatchBorderButtonEvent. wp_run.
  destruct (XButtonEvent.type event); destruct Haction as (H1 & H2 & H3);
    repeat match goal with
           | |- wp (if ?a =? ?b then _ else _) _ _ =>
               destruct (Z.eqb_spec a b); [try contradiction|]
           end;
    wp_run; reflexivity.
Qed.

(** X10.  The double-click tracker changes on a press on the move area only:
    every other button event on a border leaves the recorded click and its
    armed flag as they are. *)
Theorem DispatchBorderButtonEvent_tracker (event : XButtonEvent.t) (np : Z)
  (w : World) :
  ~ (XButtonEvent.type event = ButtonPress
     /\ border_action E w np event = BA_MOVE) ->
  click_tracker (exec (DispatchBorderButtonEvent cfg E event np) w)
  = click_tracker w.
Proof.
  unfold border_action. intros Hother.
  destruct w as [m fr q se mp ck sl lt lx ly da tr].
  cbn [clients] in Hother.
  apply wp_exec. unfold DispatchBorderButtonEvent. wp_run.
  destruct (XButtonEvent.type event);
    repeat match goal with
           | |- wp (if ?a =? ?b then _ else _) _ _ =>
               destruct (Z.eqb_spec a b)
           end;
    wp_run; try reflexivity.
  all: try (exfalso; apply Hother; split; [reflexivity | assumption]).
  all: destruct (flag_test _ _); wp_run; reflexivity.
Qed.

End BorderActions.

(** A press on the close button is inert; the release that follows deletes
    the client. *)
Lemma DispatchBorderButtonEvent_inert_witness :
  let E := sample_ext_on BA_CLOSE in
  let w := sample_world [sample_client 10 STAT_MAPPED] [] in
  exec (DispatchBorderButtonEvent sample_cfg E (sample_press 11 1000) 10) w = w
  /\ trace (exec (DispatchBorderButtonEvent sample_cfg E
                    (sample_release 11 1001) 10) w)
     = [Ext "DeleteClient" [10]].
Proof.
  intros E w. split.
  - apply (DispatchBorderButtonEvent_inert sample_cfg E). vm_compute.
    repeat split; discriminate.
  - vm_compute. reflexivity.
Defined.

Lemma DispatchBorderButtonEvent_tracker_witness :
  let E := sample_ext (0, 0) (fun _ => false) in
  let w :=
    exec (DispatchBorderButtonEvent sample_cfg E (sample_press 11 1000) 10)
      (sample_world [sample_client 10 STAT_MAPPED] []) in
  click_tracker w = (1000, 5, 5, true)
  /\ click_tracker
       (exec (DispatchBorderButtonEvent sample_cfg E (sample_release 11 1001)
                10) w)
     = (1000, 5, 5, true).
Proof.
  intros E w. split; [reflexivity|].
  rewrite (DispatchBorderButtonEvent_tracker sample_cfg E).
  - reflexivity.
  - intros [Htype _]. discriminate Htype.
Defined.

(** ** Requests for windows that no client owns *)

Section Unmanaged.

Variable cfg : Config.
Variable E : Externals.

(** X11.  A configure request for a window that no client owns is passed on to
    the display as it is, with its own value mask, except that the width
    and the height are cut to those of the root window; no client record
    changes. *)
Theorem HandleConfigureRequest_unmanaged (event : XConfigureRequestEvent.t)
  (w : World) :
  let win := XConfigureRequestEvent.window event in
  clients w !! win = None ->
  frames w !! win = None ->
  exec (HandleConfigureRequest cfg E event) w
  = with_trace
      (trace w
       ++ [JXConfigureWindow win (XConfigureRequestEvent.value_mask event)
             (XWindowChanges.mk
                (XConfigureRequestEvent.x event)
                (XConfigureRequestEvent.y event)
                (Z.min (XConfigureRequestEvent.width event) (rootWidth cfg))
                (Z.min (XConfigureRequestEvent.height event) (rootHeight cfg))
                (XConfigureRequestEvent.border_width event)
                (XConfigureRequestEvent.above event)
                (XConfigureRequestEvent.detail event))]) w.
Proof.
  cbn zeta. intros Hc Hframe.
  destruct w as [m fr q se mp ck sl lt lx ly da tr].
  cbn [clients frames trace with_trace] in *.
  apply wp_exec. unfold HandleConfigureRequest. wp_run.
  rewrite Hc, Hframe. wp_run.
  repeat f_equal.
  - destruct (Z.ltb_spec (rootWidth cfg) (XConfigureRequestEvent.width event));
      lia.
  - destruct (Z.ltb_spec (rootHeight cfg)
                (XConfigureRequestEvent.height event)); lia.
Qed.

End Unmanaged.

Lemma HandleConfigureRequest_unmanaged_witness :
  let E := sample_ext (0, 0) (fun _ => false) in
  let event :=
    XConfigureRequestEvent.mk 1 30 5 6 2000 100 1 0 0
      (Z.lor CWWidth CWHeight) in
  trace (exec (HandleConfigureRequest sample_cfg E event)
           (sample_world [sample_client 10 STAT_MAPPED] []))
  = [JXConfigureWindow 30 (Z.lor CWWidth CWHeight)
       (XWindowChanges.mk 5 6 1024 100 1 0 0)].
Proof.
  intros E event.
  rewrite (HandleConfigureRequest_unmanaged sample_cfg E event
             (sample_world [sample_client 10 STAT_MAPPED] [])
             eq_refl eq_refl).
  reflexivity.
Defined.

Section Configure.

Variable cfg : Config.
Variable E : Externals.

Lemma configure_merge_spec_idempotent event c :
  configure_merge_spec event (configure_merge_spec event c)
  = configure_merge_spec event c.
Proof.
  unfold configure_merge_spec. destruct c.
  cbn [ClientNode.set_width ClientNode.set_height ClientNode.set_x
       ClientNode.set_y ClientNode.width ClientNode.height ClientNode.x
       ClientNode.y].
  destruct (flag_test _ CWWidth), (flag_test _ CWHeight), (flag_test _ CWX),
    (flag_test _ CWY); reflexivity.
Qed.

(** What a configure request for the primary window of a client leaves:
    the record, and the calls after that of the controller. *)
Lemma HandleConfigureRequest_exec (event : XConfigureRequestEvent.t)
  (w : World) (c : ClientNode.t) :
  let np := XConfigureRequestEvent.window event in
  let merged := configure_merge_spec event c in
  clients w !! np = Some c ->
  ClientNode.window c = np ->
  exists calls,
    exec (HandleConfigureRequest cfg E event) w
    = with_trace (trace w ++ controller_log c np 0 ++ calls)
        (with_clients
           (<[np := if (merge_configure event c).2
                    then constrained E merged else c]> (clients w)) w)
    /\ ((merge_configure event c).2 = false -> calls = []).
Proof.
  cbn zeta. intros Hc Hwin.
  destruct (merge_configure_spec event c) as [Hm1 Hm2].
  set (np := XConfigureRequestEvent.window event) in *.
  destruct w as [m fr q se mp ck sl lt lx ly da tr].
  cbn [clients trace with_clients with_trace] in *.
  destruct (merge_configure event c).2 eqn:Hchanged.
  - destruct (GetBorderSize E (configure_merge_spec event c))
      as [[[north south] east] west] eqn:Hborder.
    eexists. split; [|discriminate].
    rewrite <- (insert_id m np c Hc) at 1.
    apply wp_exec. unfold HandleConfigureRequest, controller_log. fold np.
    wp_run. rewrite Hwin, Z.eqb_refl. wp_run.
    destruct (ClientNode.controller c); wp_run;
      rewrite Hchanged, Hm1; wp_run; rewrite Hborder; wp_run;
      fold (constrained E (configure_merge_spec event c));
      rewrite ?insert_insert_eq, <- !app_assoc; cbn [app]; reflexivity.
  - exists []. split; [|reflexivity].
    assert (Hsame : configure_merge_spec event c = c) by (apply Hm2, eq_refl).
    rewrite <- (insert_id m np c Hc) at 1.
    apply wp_exec. unfold HandleConfigureRequest, controller_log. fold np.
    wp_run. rewrite Hwin, Z.eqb_refl. wp_run.
    destruct (ClientNode.controller c); wp_run;
      rewrite Hchanged, Hm1, Hsame; wp_run;
      rewrite ?insert_insert_eq, ?app_nil_r; reflexivity.
Qed.

(** X12.  A configure request that is repeated is not sent on twice: when the
    size constraints accept the requested size, handling the same request
    for the primary window of a client again changes no record and sends
    nothing to the display. *)
Theorem HandleConfigureRequest_repeated (event : XConfigureRequestEvent.t)
  (w : World) (c : ClientNode.t) :
  let np := XConfigureRequestEvent.window event in
  let merged := configure_merge_spec event c in
  clients w !! np = Some c ->
  ClientNode.window c = np ->
  ConstrainSize_size E merged
  = (ClientNode.width merged, ClientNode.height merged) ->
  let after := exec (HandleConfigureRequest cfg E event) w in
  let again := exec (HandleConfigureRequest cfg E event) after in
  clients after !! np = Some merged
  /\ clients again = clients after
  /\ filter is_display_call (trace again)
     = filter is_display_call (trace after).
Proof.
  cbn zeta. intros Hc Hwin Haccept.
  set (np := XConfigureRequestEvent.window event) in *.
  set (merged := configure_merge_spec event c) in *.
  destruct (merge_configure_spec event c) as [Hm1 Hm2]. fold merged in Hm2.
  assert (Hconstrained : constrained E merged = merged).
  { unfold constrained. rewrite Haccept. destruct merged. reflexivity. }
  assert (Hrecord : (if (merge_configure event c).2
                     then constrained E merged else c) = merged).
  { destruct (merge_configure event c).2; [exact Hconstrained|].
    symmetry. apply Hm2. reflexivity. }
  destruct (HandleConfigureRequest_exec event w c Hc Hwin)
    as (calls & Hafter & _).
  fold np merged in Hafter. rewrite Hrecord in Hafter. rewrite Hafter.
  destruct w as [m fr q se mp ck sl lt lx ly da tr].
  cbn [clients trace with_clients with_trace] in *.
  split; [apply lookup_insert_eq|].
  match goal with
  | |- context [exec _ ?w1] =>
      destruct (HandleConfigureRequest_exec event w1 merged)
        as (calls' & Hagain & Hnone)
  end.
  { apply lookup_insert_eq. }
  { unfold merged. rewrite merge_spec_window. exact Hwin. }
  fold np in Hagain.
  assert (Hunchanged : (merge_configure event merged).2 = false).
  { apply (merge_configure_spec event merged).
    apply configure_merge_spec_idempotent. }
  rewrite Hunchanged in Hagain. rewrite (Hnone Hunchanged) in Hagain.
  rewrite Hagain. cbn [clients trace with_clients with_trace].
  split.
  - rewrite insert_insert_eq. reflexivity.
  - rewrite app_nil_r, filter_app, filter_controller_log, app_nil_r.
    reflexivity.
Qed.

End Configure.

Lemma HandleConfigureRequest_repeated_witness :
  let E := sample_ext (0, 0) (fun _ => false) in
  let w := sample_world [sample_client 10 STAT_MAPPED] [] in
  let after := exec (HandleConfigureRequest sample_cfg E
                       sample_configure_request) w in
  let again := exec (HandleConfigureRequest sample_cfg E
                       sample_configure_request) after in
  ClientNode.width (clients after !!! 10) = 300
  /\ length (filter is_display_call (trace after)) = 2%nat
  /\ length (filter is_display_call (trace again)) = 2%nat.
Proof.
  intros E w after again.
  destruct (HandleConfigureRequest_repeated sample_cfg E
              sample_configure_request w (sample_client 10 STAT_MAPPED)
              eq_refl eq_refl eq_refl) as (_ & _ & Hcalls).
  split; [reflexivity|]. split; [reflexivity|].
  subst again after. rewrite Hcalls. reflexivity.
Defined.

(** ** Buttons on content windows and on the root window *)

Section Buttons.

Variable cfg : Config.
Variable E : Externals.

(** X13.  A button event on the content window of a client, press or release, is
    always replayed to the client and changes no client record.  Buttons 1
    to 3 raise the client (and focus it under the click policy) and, with
    Mod1 held, start an interactive move; the other buttons do neither, so
    the wheel does not shade from inside the window. *)
Theorem HandleButtonEvent_content (event : XButtonEvent.t) (w : World)
  (c : ClientNode.t) :
  let np := XButtonEvent.window event in
  let button := XButtonEvent.button event in
  clients w !! np = Some c ->
  frames w !! np = None ->
  np <> rootWindow cfg ->
  exec (HandleButtonEvent cfg E event) w
  = with_trace
      (trace w
       ++ (if bool_decide (button = Button1 \/ button = Button2
                           \/ button = Button3)
           then raise_log cfg np
                ++ (if flag_test (XButtonEvent.state event) Mod1Mask
                    then [Ext "MoveClient"
                            [np; XButtonEvent.x event; XButtonEvent.y event]]
                    else [])
           else [])
       ++ [JXAllowEvents; Ext "UpdatePager" []]) w.
Proof.
  cbn zeta. intros Hc Hframe Hroot.
  set (np := XButtonEvent.window event) in *.
  destruct w as [m fr q se mp ck sl lt lx ly da tr].
  cbn [clients frames trace with_trace] in *.
  apply wp_exec. unfold HandleButtonEvent, raise_log. fold np.
  wp_run. rewrite Hframe. wp_run.
  destruct (Z.eqb_spec np (rootWindow cfg)) as [|_]; [contradiction|].
  wp_run. rewrite Hc. wp_run.
  destruct (Z.eqb_spec (XButtonEvent.button event) Button1) as [H1|H1];
    destruct (Z.eqb_spec (XButtonEvent.button event) Button2) as [H2|H2];
    destruct (Z.eqb_spec (XButtonEvent.button event) Button3) as [H3|H3];
    (case_bool_decide as Hany; [|try (exfalso; apply Hany; tauto)]);
    try (exfalso; tauto); wp_run.
  all: try (rewrite <- ?app_assoc; reflexivity).
  all: destruct (bool_decide (focusModel cfg = FOCUS_CLICK)); wp_run.
  all: destruct (flag_test (XButtonEvent.state event) Mod1Mask); wp_run.
  all: rewrite <- ?app_assoc; reflexivity.
Qed.

(** X14.  On the root window only a press opens the root menu.  When the menu
    module does not take the press, button 4 goes to the previous desktop
    and button 5 to the next one.  A release on the root window does
    nothing but update the pager. *)
Theorem HandleButtonEvent_root (event : XButtonEvent.t) (w : World) :
  let button := XButtonEvent.button event in
  XButtonEvent.window event = rootWindow cfg ->
  clients w !! rootWindow cfg = None ->
  frames w !! rootWindow cfg = None ->
  exec (HandleButtonEvent cfg E event) w
  = with_trace
      (trace w
       ++ match XButtonEvent.type event with
          | ButtonPress =>
              Ext "ShowRootMenu"
                [button; XButtonEvent.x event; XButtonEvent.y event]
              :: (if ShowRootMenu_shown E w button (XButtonEvent.x event)
                       (XButtonEvent.y event)
                  then []
                  else if button =? 4 then [Ext "PreviousDesktop" []]
                  else if button =? 5 then [Ext "NextDesktop" []]
                  else [])
          | ButtonRelease => []
          end
       ++ [Ext "UpdatePager" []]) w.
Proof.
  cbn zeta. intros Hwin Hc Hframe.
  destruct w as [m fr q se mp ck sl lt lx ly da tr].
  cbn [clients frames trace with_trace] in *.
  apply wp_exec. unfold HandleButtonEvent.
  wp_run. rewrite Hwin, Hframe. wp_run.
  destruct (XButtonEvent.type event); wp_run.
  - destruct (ShowRootMenu_shown E _ _ _ _); wp_run;
      [rewrite <- ?app_assoc; reflexivity|].
    destruct (XButtonEvent.button event =? 4); wp_run;
      [rewrite <- ?app_assoc; reflexivity|].
    destruct (XButtonEvent.button event =? 5); wp_run;
      rewrite <- ?app_assoc; reflexivity.
  - rewrite Hc, Hframe. wp_run. reflexivity.
Qed.

End Buttons.

Lemma HandleButtonEvent_content_witness :
  let E := sample_ext (0, 0) (fun _ => false) in
  let w := sample_world [sample_client 10 STAT_MAPPED] [] in
  let drag := XButtonEvent.mk ButtonPress 10 0 5 5 Mod1Mask Button1 in
  let wheel := XButtonEvent.mk ButtonPress 10 0 5 5 0 Button4 in
  trace (exec (HandleButtonEvent sample_cfg E drag) w)
  = [Ext "RaiseClient" [10]; Ext "FocusClient" [10];
     Ext "MoveClient" [10; 5; 5]; JXAllowEvents; Ext "UpdatePager" []]
  /\ trace (exec (HandleButtonEvent sample_cfg E wheel) w)
     = [JXAllowEvents; Ext "UpdatePager" []].
Proof.
  intros E w drag wheel. split.
  - rewrite (HandleButtonEvent_content sample_cfg E drag w
               (sample_client 10 STAT_MAPPED) eq_refl eq_refl);
      [reflexivity | discriminate].
  - rewrite (HandleButtonEvent_content sample_cfg E wheel w
               (sample_client 10 STAT_MAPPED) eq_refl eq_refl);
      [reflexivity | discriminate].
Defined.

Lemma HandleButtonEvent_root_witness :
  let E := sample_ext (0, 0) (fun _ => false) in
  let w := sample_world [sample_client 10 STAT_MAPPED] [] in
  let press := XButtonEvent.mk ButtonPress 1 0 5 5 0 Button5 in
  let release := XButtonEvent.mk ButtonRelease 1 0 5 5 0 Button5 in
  trace (exec (HandleButtonEvent sample_cfg E press) w)
  = [Ext "ShowRootMenu" [5; 5; 5]; Ext "NextDesktop" [];
     Ext "UpdatePager" []]
  /\ trace (exec (HandleButtonEvent sample_cfg E release) w)
     = [Ext "UpdatePager" []].
Proof.
  intros E w press release. split.
  - rewrite (HandleButtonEvent_root sample_cfg E press w
               eq_refl eq_refl eq_refl).
    reflexivity.
  - rewrite (HandleButtonEvent_root sample_cfg E release w
               eq_refl eq_refl eq_refl).
    reflexivity.
Defined.

(** ** Client messages *)

Section Messages.

Variable cfg : Config.
Variable E : Externals.

(** X15.  A move-resize request never uses the gravity it names: two requests
    that differ only in the gravity code, the low byte of [data.l[0]], have
    the same effect, the delta being that of the gravity the client
    declared. *)
Theorem HandleNetMoveResize_gravity_ignored
  (event event' : XClientMessageEvent.t) (np : Z) (w : World) :
  Z.shiftr (XClientMessageEvent.l event 0) 8
  = Z.shiftr (XClientMessageEvent.l event' 0) 8 ->
  (forall i, (1 <= i <= 4)%nat ->
     XClientMessageEvent.l event i = XClientMessageEvent.l event' i) ->
  HandleNetMoveResize E event np w = HandleNetMoveResize E event' np w.
Proof.
  intros Hflags Hdata. unfold HandleNetMoveResize.
  unfold mbind at 1 6, M_bind at 1 6, deref. cbv zeta.
  rewrite Hflags, !Hdata by lia. reflexivity.
Qed.

(** X16.  A state request changes a client only when its action code is 0, 1 or
    2 and it names a state the handler knows: with any other action code
    no client record changes, and with two unknown atoms and a valid action
    code nothing happens at all. *)
Theorem HandleNetWMState_ignored (event : XClientMessageEvent.t) (np : Z)
  (w : World) :
  let action := XClientMessageEvent.l event 0 in
  let after := exec (HandleNetWMState cfg event np) w in
  (~ 0 <= action <= 2 -> clients after = clients w)
  /\ (~ names_known_state cfg (XClientMessageEvent.l event 1) ->
      ~ names_known_state cfg (XClientMessageEvent.l event 2) ->
      clients after = clients w /\ (0 <= action <= 2 -> after = w)).
Proof.
  cbn zeta. unfold names_known_state.
  destruct w as [m fr q se mp ck sl lt lx ly da tr].
  split.
  - intros Haction. apply wp_exec. unfold HandleNetWMState.
    destruct (HandleNetWMState_actions cfg event) as [[mx st] sh].
    destruct (Z.eqb_spec (XClientMessageEvent.l event 0) 0); [lia|].
    destruct (Z.eqb_spec (XClientMessageEvent.l event 0) 1); [lia|].
    destruct (Z.eqb_spec (XClientMessageEvent.l event 0) 2); [lia|].
    wp_run. reflexivity.
  - intros H1 H2.
    assert (Hnone : HandleNetWMState_actions cfg event = (false, false, false)).
    { unfold HandleNetWMState_actions, HandleNetWMState_scan.
      repeat match goal with
             | |- context [?a =? ?b] =>
                 destruct (Z.eqb_spec a b); [exfalso; tauto|]
             end.
      reflexivity. }
    unfold HandleNetWMState. rewrite Hnone.
    split; [|intros Haction]; apply wp_exec;
      destruct (XClientMessageEvent.l event 0 =? 0) eqn:H0;
      [| destruct (XClientMessageEvent.l event 0 =? 1) eqn:H1';
         [| destruct (XClientMessageEvent.l event 0 =? 2) eqn:H2'] | |
         destruct (XClientMessageEvent.l event 0 =? 1) eqn:H1';
         [| destruct (XClientMessageEvent.l event 0 =? 2) eqn:H2']];
      wp_run; try reflexivity.
    apply Z.eqb_neq in H0, H1', H2'. lia.
Qed.

(** X17.  The legacy state message: each of the two state bits that the mask
    names is set in the client to its value in the flags, each bit that the
    mask leaves out keeps its value; the task bar and the pager are updated
    exactly when the mask names the hidden bit. *)
Theorem HandleClientMessage_win_state (event : XClientMessageEvent.t)
  (w : World) (c : ClientNode.t) :
  let np := XClientMessageEvent.window event in
  let mask := XClientMessageEvent.l event 0 in
  let flags := XClientMessageEvent.l event 1 in
  clients w !! np = Some c ->
  XClientMessageEvent.message_type event = atoms cfg ATOM_WIN_STATE ->
  let after := exec (HandleClientMessage cfg E event) w in
  let status' := ClientNode.status (clients after !!! np) in
  flag_test status' STAT_STICKY
  = (if flag_test mask WIN_STATE_STICKY then flag_test flags WIN_STATE_STICKY
     else flag_test (ClientNode.status c) STAT_STICKY)
  /\ flag_test status' STAT_NOLIST
     = (if flag_test mask WIN_STATE_HIDDEN
        then flag_test flags WIN_STATE_HIDDEN
        else flag_test (ClientNode.status c) STAT_NOLIST)
  /\ trace after
     = trace w
       ++ (if flag_test mask WIN_STATE_STICKY
           then [Ext "SetClientSticky"
                   [np; Z_of_bool (flag_test flags WIN_STATE_STICKY)]]
           else [])
       ++ (if flag_test mask WIN_STATE_HIDDEN
           then [Ext "UpdateTaskBar" []; Ext "UpdatePager" []] else []).
Proof.
  cbn zeta. intros Hc Htype.
  set (np := XClientMessageEvent.window event) in *.
  destruct w as [m fr q se mp ck sl lt lx ly da tr].
  cbn [clients trace] in *.
  rewrite <- (insert_id m np c Hc) at 1 2 3.
  apply (wp_exec (HandleClientMessage cfg E event)).
  unfold HandleClientMessage. fold np. wp_run.
  rewrite Htype, Z.eqb_refl.
  destruct c as [win par x y wd ht gr s bo de ba cm co].
  destruct (flag_test (XClientMessageEvent.l event 0) WIN_STATE_STICKY);
    destruct (flag_test (XClientMessageEvent.l event 1) WIN_STATE_STICKY);
    destruct (flag_test (XClientMessageEvent.l event 0) WIN_STATE_HIDDEN);
    destruct (flag_test (XClientMessageEvent.l event 1) WIN_STATE_HIDDEN);
    wp_run.
  all: unfold STAT_STICKY, STAT_NOLIST.
  all: rewrite ?(flag_test_set_other 4), ?(flag_test_clear_other 4),
         ?(flag_test_set_other 5), ?(flag_test_clear_other 5) by lia.
  all: rewrite ?flag_test_set, ?flag_test_clear by lia.
  all: rewrite <- ?app_assoc, ?app_nil_r; auto.
Qed.

End Messages.

Lemma HandleNetMoveResize_gravity_ignored_witness :
  let E := sample_ext (3, 5) (fun _ => false) in
  let w := sample_world [sample_client 10 STAT_MAPPED] [] in
  HandleNetMoveResize E (sample_moveresize 10 3 50 60 0 0) 10 w
  = HandleNetMoveResize E (sample_moveresize 1 3 50 60 0 0) 10 w
  /\ ClientNode.x
       (clients (exec (HandleNetMoveResize E
                         (sample_moveresize 10 3 50 60 0 0) 10) w) !!! 10)
     = 47.
Proof.
  intros E w. split; [|reflexivity].
  apply HandleNetMoveResize_gravity_ignored; [reflexivity|].
  intros [|[|[|[|[|i]]]]] Hi; try reflexivity; lia.
Defined.

Lemma HandleClientMessage_win_state_witness :
  let E := sample_ext (0, 0) (fun _ => false) in
  let w := sample_world [sample_client 10 (Z.lor STAT_MAPPED STAT_STICKY)] [] in
  let event := sample_win_state WIN_STATE_HIDDEN WIN_STATE_HIDDEN in
  let after := exec (HandleClientMessage sample_cfg E event) w in
  ClientNode.status (clients after !!! 10)
  = Z.lor (Z.lor STAT_MAPPED STAT_STICKY) STAT_NOLIST
  /\ trace after = [Ext "UpdateTaskBar" []; Ext "UpdatePager" []].
Proof.
  intros E w event after.
  destruct (HandleClientMessage_win_state sample_cfg E event w
              (sample_client 10 (Z.lor STAT_MAPPED STAT_STICKY))
              eq_refl eq_refl) as (_ & _ & Htrace).
  split; [reflexivity|]. subst after. rewrite Htrace. reflexivity.
Defined.

Lemma HandleNetWMState_ignored_witness :
  let w := sample_world [sample_client 10 STAT_MAPPED] [] in
  exec (HandleNetWMState sample_cfg
          (sample_state_request 2 ATOM_NET_WM_NAME ATOM_NET_WM_ICON) 10) w
  = w
  /\ clients
       (exec (HandleNetWMState sample_cfg
                (sample_state_request 7 ATOM_NET_WM_STATE_STICKY
                   ATOM_NET_WM_STATE_SHADED) 10) w)
     = clients w.
Proof.
  intros w. split.
  - destruct (HandleNetWMState_ignored sample_cfg
                (sample_state_request 2 ATOM_NET_WM_NAME ATOM_NET_WM_ICON)
                10 w) as [_ Hunknown].
    apply Hunknown.
    + intros [H|[H|[H|H]]]; discriminate H.
    + intros [H|[H|[H|H]]]; discriminate H.
    + vm_compute. split; discriminate.
  - destruct (HandleNetWMState_ignored sample_cfg
                (sample_state_request 7 ATOM_NET_WM_STATE_STICKY
                   ATOM_NET_WM_STATE_SHADED) 10 w) as [Hbad _].
    apply Hbad. vm_compute. intros [_ H]. apply H. reflexivity.
Defined.

(** ** The pointer: motion and crossing events *)

Section Pointer.

Variable cfg : Config.
Variable E : Externals.

(** X18.  A motion event over the decoration of an outlined client records the
    border action under the pointer and the pointer position; the cursor
    is defined only when the action differs from the recorded one, so a
    second motion event at the same place changes nothing, as long as the
    action under the pointer does not depend on the recorded action. *)
Theorem HandleMotionNotify_cursor (event : XMotionEvent.t) (np : Z)
  (c : ClientNode.t) (w : World) :
  let action :=
    GetBorderActionType E c (XMotionEvent.x event) (XMotionEvent.y event) in
  XMotionEvent.is_hint event = false ->
  frames w !! XMotionEvent.window event = Some np ->
  clients w !! np = Some c ->
  flag_test (ClientNode.border c) BORDER_OUTLINE = true ->
  GetBorderActionType E (ClientNode.set_borderAction action c)
    (XMotionEvent.x event) (XMotionEvent.y event) = action ->
  let after := exec (HandleMotionNotify E event) w in
  after
  = with_clients (<[np := ClientNode.set_borderAction action c]> (clients w))
      (with_trace
         (trace w
          ++ (if ClientNode.borderAction c =? action then []
              else [JXDefineCursor (ClientNode.parent c)
                      (GetFrameCursor E action)]))
         (with_mousePosition
            (XMotionEvent.x_root event, XMotionEvent.y_root event) w))
  /\ exec (HandleMotionNotify E event) after = after.
Proof.
  cbn zeta. intros Hhint Hframe Hc Houtline Hstable.
  set (action := GetBorderActionType E c _ _) in *.
  assert (Hstep : forall m fr q se mp ck sl lt lx ly da tr c0,
            fr !! XMotionEvent.window event = Some np ->
            flag_test (ClientNode.border c0) BORDER_OUTLINE = true ->
            GetBorderActionType E c0 (XMotionEvent.x event)
              (XMotionEvent.y event) = action ->
            exec (HandleMotionNotify E event)
              (mkWorld (<[np := c0]> m) fr q se mp ck sl lt lx ly da tr)
            = mkWorld (<[np := ClientNode.set_borderAction action c0]> m)
                fr q se
                (XMotionEvent.x_root event, XMotionEvent.y_root event)
                ck sl lt lx ly da
                (tr ++ (if ClientNode.borderAction c0 =? action then []
                        else [JXDefineCursor (ClientNode.parent c0)
                                (GetFrameCursor E action)]))).
  { intros m fr q se mp ck sl lt lx ly da tr c0 Hfr Hout Hact.
    apply wp_exec. unfold HandleMotionNotify. rewrite Hhint. wp_run.
    rewrite Hfr. wp_run. rewrite Hout, Hact.
    destruct (Z.eqb_spec (ClientNode.borderAction c0) action) as [Heq|Hne];
      wp_run.
    - rewrite app_nil_r. f_equal. f_equal. destruct c0. cbn in Heq.
      subst. reflexivity.
    - reflexivity. }
  destruct w as [m fr q se mp ck sl lt lx ly da tr].
  cbn [clients frames trace with_clients with_trace with_mousePosition] in *.
  pose proof (Hstep m fr q se mp ck sl lt lx ly da tr c Hframe Houtline
                eq_refl) as Hafter.
  rewrite (insert_id m np c Hc) in Hafter. rewrite Hafter.
  split; [reflexivity|].
  rewrite Hstep; [| exact Hframe | destruct c; exact Houtline | exact Hstable].
  destruct c. cbn [ClientNode.borderAction ClientNode.set_borderAction
                   ClientNode.parent].
  rewrite Z.eqb_refl, app_nil_r. reflexivity.
Qed.

(** X19.  When the pointer enters the content window of a client, the border
    action of the client ends as none; the default cursor is restored only
    when an action was recorded; the client is focused only under the
    sloppy policy and only when it is not active. *)
Theorem HandleEnterNotify_content (event : XCrossingEvent.t) (w : World)
  (c : ClientNode.t) :
  let np := XCrossingEvent.window event in
  clients w !! np = Some c ->
  ClientNode.parent c <> np ->
  exec (HandleEnterNotify cfg E event) w
  = with_clients
      (<[np := ClientNode.set_borderAction BA_NONE c]> (clients w))
      (with_trace
         (trace w
          ++ (if negb (flag_test (ClientNode.status c) STAT_ACTIVE)
                 && bool_decide (focusModel cfg = FOCUS_SLOPPY)
              then [Ext "FocusClient" [np]] else [])
          ++ (if ClientNode.borderAction c =? BA_NONE then []
              else [Ext "SetDefaultCursor" [ClientNode.parent c]]))
         (with_mousePosition
            (XCrossingEvent.x_root event, XCrossingEvent.y_root event) w)).
Proof.
  cbn zeta. intros Hc Hparent.
  set (np := XCrossingEvent.window event) in *.
  destruct w as [m fr q se mp ck sl lt lx ly da tr].
  cbn [clients frames trace with_clients with_trace with_mousePosition] in *.
  rewrite <- (insert_id m np c Hc) at 1.
  apply wp_exec. unfold HandleEnterNotify. fold np. wp_run.
  destruct (negb (flag_test (ClientNode.status c) STAT_ACTIVE)
            && bool_decide (focusModel cfg = FOCUS_SLOPPY)); wp_run.
  all: destruct (Z.eqb_spec (ClientNode.parent c) np) as [|_];
    [contradiction|].
  all: destruct (Z.eqb_spec (ClientNode.borderAction c) BA_NONE) as [Heq|Hne];
    wp_run.
  all: rewrite ?insert_insert_eq, <- ?app_assoc, ?app_nil_r; try reflexivity.
  all: f_equal; f_equal; destruct c; cbn in Heq; subst; reflexivity.
Qed.

(** X20.  The focus policy is kept: under the click policy the pointer entering
    a window never focuses a client; under the sloppy policy neither a
    button event nor a map request does. *)
Theorem focus_policy_kept (w : World) :
  (focusModel cfg = FOCUS_CLICK ->
   forall event,
     focus_calls (trace (exec (HandleEnterNotify cfg E event) w))
     = focus_calls (trace w))
  /\ (focusModel cfg = FOCUS_SLOPPY ->
      (forall event,
         focus_calls (trace (exec (HandleButtonEvent cfg E event) w))
         = focus_calls (trace w))
      /\ (forall event,
            focus_calls (trace (exec (HandleMapRequest cfg E event) w))
            = focus_calls (trace w))).
Proof.
  destruct w as [m fr q se mp ck sl lt lx ly da tr].
  unfold focus_calls.
  split; [|split]; intros **.
  - apply wp_exec. unfold HandleEnterNotify.
    rewrite (bool_decide_eq_false_2 (focusModel cfg = FOCUS_SLOPPY))
      by congruence.
    wp_auto; rewrite ?andb_false_r in *; try discriminate;
      rewrite ?List.filter_app; cbn; rewrite ?app_nil_r; reflexivity.
  - apply wp_exec.
    unfold HandleButtonEvent, DispatchBorderButtonEvent, focus_on_click.
    rewrite !(bool_decide_eq_false_2 (focusModel cfg = FOCUS_CLICK))
      by congruence.
    wp_auto; rewrite ?List.filter_app; cbn; rewrite ?app_nil_r; reflexivity.
  - apply wp_exec. unfold HandleMapRequest, AddClientWindow, focus_on_click.
    rewrite !(bool_decide_eq_false_2 (focusModel cfg = FOCUS_CLICK))
      by congruence.
    wp_auto; rewrite ?List.filter_app; cbn; rewrite ?app_nil_r; reflexivity.
Qed.

End Pointer.

Lemma HandleMotionNotify_cursor_witness :
  let E := sample_ext (0, 0) (fun _ => false) in
  let w := sample_world [sample_client 10 STAT_MAPPED] [] in
  let after := exec (HandleMotionNotify E (sample_motion 11 3 4)) w in
  trace after = [JXDefineCursor 11 BA_MOVE]
  /\ mousePosition after = (3, 4)
  /\ exec (HandleMotionNotify E (sample_motion 11 3 4)) after = after.
Proof.
  intros E w after.
  destruct (HandleMotionNotify_cursor E (sample_motion 11 3 4) 10
              (sample_client 10 STAT_MAPPED) w
              eq_refl eq_refl eq_refl eq_refl eq_refl) as [Hafter Hagain].
  split; [reflexivity|]. split; [reflexivity | exact Hagain].
Defined.

Lemma HandleEnterNotify_content_witness :
  let E := sample_ext (0, 0) (fun _ => false) in
  let w := sample_world [sample_client 10 STAT_MAPPED] [] in
  let after :=
    exec (HandleEnterNotify sample_cfg_sloppy E (sample_crossing 10)) w in
  trace after = [Ext "FocusClient" [10]]
  /\ mousePosition after = (105, 205).
Proof.
  intros E w after. subst after.
  rewrite (HandleEnterNotify_content sample_cfg_sloppy E (sample_crossing 10)
             w (sample_client 10 STAT_MAPPED) eq_refl).
  - split; reflexivity.
  - discriminate.
Defined.

Lemma focus_policy_kept_witness :
  let E := sample_ext (0, 0) (fun _ => false) in
  let w := sample_world [sample_client 10 STAT_MAPPED] [] in
  focus_calls
    (trace (exec (HandleEnterNotify sample_cfg E (sample_crossing 10)) w))
  = []
  /\ focus_calls
       (trace (exec (HandleButtonEvent sample_cfg_sloppy E
                       (sample_press 11 1000)) w))
     = [].
Proof.
  intros E w.
  destruct (focus_policy_kept sample_cfg E w) as [Hclick _].
  destruct (focus_policy_kept sample_cfg_sloppy E w) as [_ Hsloppy].
  split.
  - rewrite (Hclick eq_refl). reflexivity.
  - destruct (Hsloppy eq_refl) as [Hbutton _]. rewrite Hbutton. reflexivity.
Defined.

(** ** The event loop and the queue *)

Lemma take_first_split (p : XEvent -> bool) (q q' : list XEvent) e :
  take_first p q = Some (e, q') ->
  exists pre post, q = pre ++ e :: post /\ q' = pre ++ post.
Proof.
  revert q'. induction q as [|e0 q IH]; cbn; [discriminate|].
  intros q'. destruct (p e0).
  - intros [= <- <-]. exists [], q. auto.
  - destruct (take_first p q) as [[e1 q1]|]; [|discriminate].
    intros [= <- <-]. destruct (IH q1 eq_refl) as (pre & post & -> & ->).
    exists (e0 :: pre), post. auto.
Qed.

Lemma take_first_sublist (p : XEvent -> bool) (q q' : list XEvent) e :
  take_first p q = Some (e, q') -> sublist q' q.
Proof.
  intros H. destruct (take_first_split _ _ _ _ H) as (pre & post & -> & ->).
  apply sublist_app; [reflexivity|]. apply sublist_cons. reflexivity.
Qed.

Section Loop.

Variable cfg : Config.
Variable E : Externals.

Lemma HandleUnmapNotify_sublist event w :
  sublist (queue (exec (HandleUnmapNotify E event) w)) (queue w).
Proof.
  destruct w as [m fr q se mp ck sl lt lx ly da tr].
  apply wp_exec. unfold HandleUnmapNotify, HandleDestroyNotify.
  wp_auto; try reflexivity;
    match goal with
    | H : take_first _ _ = Some _ |- _ =>
        apply take_first_sublist in H; exact H
    end.
Qed.

Lemma WaitForEvent_switch_sublist event w :
  sublist (queue (exec (WaitForEvent_switch cfg E event) w)) (queue w).
Proof.
  unfold WaitForEvent_switch.
  destruct event; rewrite ?exec_bind;
    try (destruct (USE_SHAPE cfg && haveShape cfg); rewrite ?exec_bind);
    change (exec (mret ?a) ?w') with w';
    rewrite ?HandleConfigureRequest_queue, ?HandleMapRequest_queue,
      ?HandlePropertyNotify_queue, ?HandleClientMessage_queue,
      ?HandleExpose_queue, ?HandleColormapChange_queue,
      ?HandleDestroyNotify_queue, ?HandleSelectionClear_queue,
      ?HandleShapeEvent_queue;
    try reflexivity; try apply HandleUnmapNotify_sublist;
    destruct w; reflexivity.
Qed.

Lemma WaitForEvent_body_sublist event rest w :
  sublist (queue (exec (WaitForEvent_body cfg E event rest) w)) rest.
Proof.
  unfold WaitForEvent_body. rewrite !exec_bind.
  rewrite WaitForEvent_chain_queue.
  etransitivity; [apply WaitForEvent_switch_sublist|].
  change (exec (modify (with_queue rest)) ?w')
    with (with_queue rest w').
  destruct (exec (Signal E) w); reflexivity.
Qed.

Lemma WaitForEvent_loop_queued (fuel : nat) (w w' : World) (e : XEvent) :
  WaitForEvent_loop cfg E fuel w = (Some e, w') ->
  exists pre post, queue w = pre ++ e :: post /\ sublist (queue w') post.
Proof.
  revert w. induction fuel as [|fuel IH]; intros w; [discriminate|].
  destruct (queue w) as [|event rest] eqn:Hq.
  - cbn [WaitForEvent_loop]. unfold mbind, M_bind, get. rewrite Hq.
    discriminate.
  - rewrite (WaitForEvent_loop_turn cfg E fuel w event rest Hq).
    pose proof (WaitForEvent_body_sublist event rest w) as Hsub.
    destruct (_ && _).
    + intros Hloop. destruct (IH _ Hloop) as (pre & post & Hpre & Hpost).
      rewrite Hpre in Hsub.
      apply sublist_app_l in Hsub as (k1 & k2 & -> & _ & Hk2).
      apply sublist_cons_l in Hk2 as (k21 & k22 & -> & Hk22).
      exists (event :: k1 ++ k21), k22. split.
      * cbn. rewrite <- app_assoc. reflexivity.
      * etransitivity; eassumption.
    + intros [= <- <-]. exists [], rest. auto.
Qed.

(** X21.  The loop hands out only events that were queued, and it never puts an
    event back: the event it returns was in the queue, and what is queued
    afterwards is part of what was queued behind that event, in the same
    order. *)
Theorem WaitForEvent_returns_queued (w : World) (e : XEvent) :
  eval (WaitForEvent cfg E) w = Some e ->
  exists pre post,
    queue w = pre ++ e :: post
    /\ sublist (queue (exec (WaitForEvent cfg E) w)) post.
Proof.
  unfold eval, exec, WaitForEvent, mbind, M_bind, get.
  destruct (WaitForEvent_loop cfg E (S (length (queue w))) w) as [r w']
    eqn:Hloop.
  cbn [fst snd]. intros ->. eapply WaitForEvent_loop_queued, Hloop.
Qed.


(** X23.  Expose and property events for the content window of a client are
    claimed by their handlers, except when the client is a dialog of the
    window manager: then they are left unclaimed, for the dialog module. *)
Theorem dialog_events_unclaimed (expose : XExposeEvent.t)
  (property : XPropertyEvent.t) (w : World) (c : ClientNode.t) :
  let np := ClientNode.window c in
  clients w !! np = Some c ->
  ClientNode.parent c <> np ->
  XExposeEvent.window expose = np ->
  XPropertyEvent.window property = np ->
  let dialog := flag_test (ClientNode.status c) STAT_WMDIALOG in
  eval (WaitForEvent_switch cfg E (Expose expose)) w = negb dialog
  /\ eval (WaitForEvent_switch cfg E (PropertyNotify property)) w
     = negb dialog.
Proof.
  cbn zeta. intros Hc Hparent Hexpose Hproperty.
  destruct w as [m fr q se mp ck sl lt lx ly da tr].
  cbn [clients] in Hc.
  rewrite <- (insert_id m _ c Hc).
  split.
  - apply (wp_eval_exec (WaitForEvent_switch cfg E (Expose expose)) _
             (fun h _ => h = _)).
    unfold WaitForEvent_switch, HandleExpose. rewrite Hexpose. wp_run.
    destruct (Z.eqb_spec (ClientNode.window c) (ClientNode.parent c));
      [congruence|].
    wp_run. destruct (flag_test _ _); wp_run; reflexivity.
  - apply (wp_eval_exec (WaitForEvent_switch cfg E (PropertyNotify property))
             _ (fun h _ => h = _)).
    unfold WaitForEvent_switch, HandlePropertyNotify. rewrite Hproperty.
    wp_auto; reflexivity.
Qed.

End Loop.

(** A configure request, which the loop handles itself, in front of a
    button press, which it hands out. *)
Lemma WaitForEvent_returns_queued_witness :
  let E := sample_ext (0, 0) (fun _ => false) in
  let press := ButtonEvent (sample_press 11 1000) in
  let w :=
    sample_world [sample_client 10 STAT_MAPPED]
      [ConfigureRequest sample_configure_request; press;
       MotionNotify (sample_motion 11 1 1)] in
  exists pre post,
    queue w = pre ++ press :: post
    /\ sublist (queue (exec (WaitForEvent sample_cfg E) w)) post.
Proof.
  intros E press w.
  apply (WaitForEvent_returns_queued sample_cfg E w press).
  vm_compute. reflexivity.
Defined.


Lemma dialog_events_unclaimed_witness :
  let E := sample_ext (0, 0) (fun _ => false) in
  let w := sample_world [sample_dialog] [] in
  eval (WaitForEvent_switch sample_cfg E (Expose (XExposeEvent.mk 10 0))) w
  = false
  /\ eval (WaitForEvent_switch sample_cfg E
             (PropertyNotify (XPropertyEvent.mk 10 XA_WM_NAME))) w
     = false.
Proof.
  intros E w.
  apply (dialog_events_unclaimed sample_cfg E (XExposeEvent.mk 10 0)
           (XPropertyEvent.mk 10 XA_WM_NAME) w sample_dialog);
    [reflexivity | discriminate | reflexivity | reflexivity].
Defined.

(** ** No client to act on *)

Section NoClient.

Variable cfg : Config.
Variable E : Externals.

(** X24.  A key bound to an action on the active client (close, shade, move,
    resize, minimize, maximize, window menu) does nothing when no client is
    active. *)
Theorem HandleKeyPress_no_active_client (event : XKeyEvent.t) (w : World) :
  GetActiveClient E w = None ->
  In (Z.land (GetKey E event) 255) client_keys ->
  exec (HandleKeyPress E event) w = w.
Proof.
  intros Hnone Hkey.
  destruct w as [m fr q se mp ck sl lt lx ly da tr].
  apply wp_exec. unfold HandleKeyPress. wp_run. rewrite Hnone.
  unfold client_keys in Hkey. cbn [In] in Hkey.
  repeat destruct Hkey as [Hkey|Hkey]; try contradiction;
    rewrite <- Hkey; cbn; reflexivity.
Qed.

(** X25.  Notifications for a window that no client owns are referred to the
    dock: a destroy notification answers what the dock answers, an unmap
    notification asks the dock as well, and neither changes a client or
    sends anything to the display. *)
Theorem notifications_unmanaged (win event : Z) (w : World) :
  clients w !! win = None ->
  frames w !! win = None ->
  let asked := with_trace (trace w ++ [Ext "HandleDockDestroy" [win]]) w in
  HandleDestroyNotify E (XDestroyWindowEvent.mk event win) w
  = (HandleDockDestroy_handled E w win, asked)
  /\ exec (HandleUnmapNotify E (XUnmapEvent.mk event win)) w = asked.
Proof.
  cbn zeta. intros Hc Hframe.
  destruct w as [m fr q se mp ck sl lt lx ly da tr].
  cbn [clients frames trace with_trace] in *.
  unfold HandleDestroyNotify, HandleUnmapNotify, exec, mbind, M_bind,
    FindClientByWindow, lookup_client.
  cbn [clients frames XDestroyWindowEvent.window XUnmapEvent.window].
  rewrite Hc, Hframe. split; reflexivity.
Qed.

(** X26.  A client message for a window that no client owns and that is not the
    root window is dropped, unless it carries the system tray opcode: then
    it goes to the dock. *)
Theorem HandleClientMessage_unmanaged (event : XClientMessageEvent.t)
  (w : World) :
  let win := XClientMessageEvent.window event in
  clients w !! win = None ->
  frames w !! win = None ->
  win <> rootWindow cfg ->
  exec (HandleClientMessage cfg E event) w
  = if XClientMessageEvent.message_type event
       =? atoms cfg ATOM_NET_SYSTEM_TRAY_OPCODE
    then with_trace (trace w ++ [Ext "HandleDockEvent" [win]]) w
    else w.
Proof.
  cbn zeta. intros Hc Hframe Hroot.
  destruct w as [m fr q se mp ck sl lt lx ly da tr].
  cbn [clients frames trace with_trace] in *.
  apply wp_exec. unfold HandleClientMessage. wp_run.
  rewrite Hc, Hframe. wp_run.
  destruct (Z.eqb_spec (XClientMessageEvent.window event) (rootWindow cfg));
    [contradiction|].
  destruct (_ =? _); wp_run; reflexivity.
Qed.

End NoClient.

Lemma HandleKeyPress_no_active_client_witness :
  let E := sample_ext_key KEY_CLOSE in
  let w := sample_world [sample_client 10 STAT_MAPPED] [] in
  exec (HandleKeyPress E (XKeyEvent.mk 10 0 24)) w = w.
Proof.
  intros E w.
  apply (HandleKeyPress_no_active_client E);
    [reflexivity | left; reflexivity].
Defined.

Lemma notifications_unmanaged_witness :
  let E := sample_ext (0, 0) (fun _ => false) in
  let w := sample_world [sample_client 10 STAT_MAPPED] [] in
  eval (HandleDestroyNotify E (XDestroyWindowEvent.mk 30 30)) w = false
  /\ trace (exec (HandleUnmapNotify E (XUnmapEvent.mk 30 30)) w)
     = [Ext "HandleDockDestroy" [30]].
Proof.
  intros E w.
  destruct (notifications_unmanaged E 30 30 w eq_refl eq_refl)
    as [Hdestroy Hunmap].
  split.
  - unfold eval. rewrite Hdestroy. reflexivity.
  - rewrite Hunmap. reflexivity.
Defined.

Lemma HandleClientMessage_unmanaged_witness :
  let E := sample_ext (0, 0) (fun _ => false) in
  let w := sample_world [sample_client 10 STAT_MAPPED] [] in
  let tray :=
    XClientMessageEvent.mk 30 (sample_atoms ATOM_NET_SYSTEM_TRAY_OPCODE)
      [0; 0; 0; 0; 0] in
  let close :=
    XClientMessageEvent.mk 30 (sample_atoms ATOM_NET_CLOSE_WINDOW)
      [0; 0; 0; 0; 0] in
  trace (exec (HandleClientMessage sample_cfg E tray) w)
  = [Ext "HandleDockEvent" [30]]
  /\ exec (HandleClientMessage sample_cfg E close) w = w.
Proof.
  intros E w tray close. split.
  - rewrite (HandleClientMessage_unmanaged sample_cfg E tray w
               eq_refl eq_refl); [reflexivity | discriminate].
  - rewrite (HandleClientMessage_unmanaged sample_cfg E close w
               eq_refl eq_refl); [reflexivity | discriminate].
Defined.
